(** * Federated data management portal: [callbacks.py]

    A shallow embedding of the dashboard callbacks of
    [federated-data-management-portal/src/callbacks.py] and the properties
    of its summaries, charts and availability table.

    Conventions of the embedding.
    - A Python [dict] is an association list in insertion order ([Dict.t]);
      a well-formed one has pairwise distinct keys ([Dict.wf]).
    - A Python [str] is a [string] of UTF-8 bytes; Python orders [str] by code
      point, which is the bytewise order of the UTF-8 encodings
      ([String.compare]).
    - A Python [int] is a [Z].
    - A call either returns or raises: [result]; a function that falls off its
      end returns [None], so the guarded callbacks return an [option].
    - Floats only occur as proportions rounded to two decimals; they are held
      as an integer number of hundredths (see [round_ndigits2]).
    - [str.title] and [datetime.fromisoformat] are library functions whose
      behaviour depends on Unicode tables and on the Python version; the
      callbacks take them from a [library], and the properties hold for
      every library. *)

From Stdlib Require Import String Ascii List ZArith Lia Bool DecimalString Sorted.
Import ListNotations.

Local Open Scope string_scope.
Local Open Scope Z_scope.

(** ** Exceptions and results *)

Inductive exn : Type :=
| ValueError
| TypeError
| KeyError
| ZeroDivisionError
| UnboundLocalError.

Inductive result (A : Type) : Type :=
| Ok (a : A)
| Raise (e : exn).

Arguments Ok {A} a.
Arguments Raise {A} e.

Definition bind {A B : Type} (r : result A) (k : A -> result B) : result B :=
  match r with
  | Ok a => k a
  | Raise e => Raise e
  end.

Notation "x <- r ;; k" := (bind r (fun x => k))
  (at level 61, r at next level, right associativity).

(** Evaluate [f] on the elements from left to right; the first exception
    stops the loop (a comprehension). *)
Fixpoint mapM {A B : Type} (f : A -> result B) (l : list A) : result (list B) :=
  match l with
  | [] => Ok []
  | x :: r => y <- f x ;; ys <- mapM f r ;; Ok (y :: ys)
  end.

(** ** Python dictionaries *)

Module Dict.

Definition t (V : Type) : Type := list (string * V).

Definition keys {V : Type} (d : t V) : list string := map fst d.
Definition values {V : Type} (d : t V) : list V := map snd d.

(** [d.get(k)] *)
Fixpoint get {V : Type} (k : string) (d : t V) : option V :=
  match d with
  | [] => None
  | (k', v) :: r => if String.eqb k k' then Some v else get k r
  end.

(** [d[k] = v]: an existing key keeps its place, a new key goes last. *)
Fixpoint set {V : Type} (k : string) (v : V) (d : t V) : t V :=
  match d with
  | [] => [(k, v)]
  | (k', v') :: r =>
      if String.eqb k k' then (k', v) :: r else (k', v') :: set k v r
  end.

Definition wf {V : Type} (d : t V) : Prop := NoDup (keys d).

End Dict.

(** ** Python built-ins on strings and lists *)

Module Py.

(** [f"{n}"] and [str(n)] for an [int]. *)
Definition str_int (n : Z) : string := NilZero.string_of_int (Z.to_int n).

(** [sub in s] *)
Fixpoint contains (sub s : string) : bool :=
  if String.prefix sub s then true
  else match s with
       | EmptyString => false
       | String _ r => contains sub r
       end.

(** [s.replace(old, new)] for a non-empty [old]: the occurrences are
    replaced from left to right, without overlap.  [skip] counts the
    characters of the occurrence being replaced that are still to drop. *)
Fixpoint replace_from (old new : string) (skip : nat) (s : string) : string :=
  match s with
  | EmptyString => EmptyString
  | String c r =>
      match skip with
      | S k => replace_from old new k r
      | O =>
          if String.prefix old s
          then new ++ replace_from old new (Nat.pred (String.length old)) r
          else String c (replace_from old new O r)
      end
  end.

(** With an empty [old], Python puts [new] before every character and at
    the end. *)
Fixpoint intersperse (new s : string) : string :=
  match s with
  | EmptyString => new
  | String c r => new ++ String c (intersperse new r)
  end.

Definition replace (old new s : string) : string :=
  match old with
  | EmptyString => intersperse new s
  | String _ _ => replace_from old new O s
  end.

Definition is_lower (c : ascii) : bool :=
  let n := nat_of_ascii c in (Nat.leb 97 n && Nat.leb n 122)%bool.

Definition is_upper (c : ascii) : bool :=
  let n := nat_of_ascii c in (Nat.leb 65 n && Nat.leb n 90)%bool.

Definition to_upper (c : ascii) : ascii :=
  if is_lower c then ascii_of_nat (nat_of_ascii c - 32) else c.

Definition to_lower (c : ascii) : ascii :=
  if is_upper c then ascii_of_nat (nat_of_ascii c + 32) else c.

(** [s.title()] on ASCII text: a letter that follows a letter is lowered,
    any other letter is raised.  This is the instance of [str.title] used on
    the concrete inputs below, which are ASCII; on other text Python goes by
    the Unicode case tables, which is why the callbacks take [str.title]
    from a [library]. *)
Fixpoint title_from (previous_is_cased : bool) (s : string) : string :=
  match s with
  | EmptyString => EmptyString
  | String c r =>
      if is_lower c then
        String (if previous_is_cased then c else to_upper c) (title_from true r)
      else if is_upper c then
        String (if previous_is_cased then to_lower c else c) (title_from true r)
      else String c (title_from false r)
  end.

Definition ascii_title (s : string) : string := title_from false s.

(** [sep.join(l)] *)
Definition join (sep : string) (l : list string) : string := String.concat sep l.

(** [x > y] on [str] *)
Definition str_gt (x y : string) : bool := String.ltb y x.

(** [max(l)] on strings: the running maximum is replaced only by a
    strictly greater item. *)
Fixpoint max_from (cur : string) (l : list string) : string :=
  match l with
  | [] => cur
  | x :: r => max_from (if str_gt x cur then x else cur) r
  end.

Definition max (l : list string) : result string :=
  match l with
  | [] => Raise ValueError
  | x :: r => Ok (max_from x r)
  end.

(** [max(l, key=f)]: the key of each item is computed when the item is
    reached and compared with the key of the running maximum; either step
    may raise. *)
Fixpoint max_key_from {K : Type} (key : string -> result K)
    (gt : K -> K -> result bool) (cur : string) (kcur : K)
    (l : list string) : result string :=
  match l with
  | [] => Ok cur
  | x :: r =>
      kx <- key x ;;
      b <- gt kx kcur ;;
      if (b : bool) then max_key_from key gt x kx r
      else max_key_from key gt cur kcur r
  end.

Definition max_key {K : Type} (key : string -> result K)
    (gt : K -> K -> result bool) (l : list string) : result string :=
  match l with
  | [] => Raise ValueError
  | x :: r => kx <- key x ;; max_key_from key gt x kx r
  end.

(** [sorted(l)] on items with a string key: a stable insertion sort. *)
Fixpoint insert_sorted {A : Type} (key : A -> string) (x : A) (l : list A) : list A :=
  match l with
  | [] => [x]
  | y :: r =>
      if String.ltb (key x) (key y) then x :: y :: r
      else y :: insert_sorted key x r
  end.

Definition sorted_by {A : Type} (key : A -> string) (l : list A) : list A :=
  fold_left (fun acc x => insert_sorted key x acc) l [].

Definition sorted (l : list string) : list string := sorted_by (fun s => s) l.

(** [sum(l)] *)
Definition sum (l : list Z) : Z := fold_left Z.add l 0.

End Py.


(** ** Datetimes and their order

    A [datetime] value by its fields, and the comparison [a > b] of the
    source's [max].  Which strings [datetime.fromisoformat] reads depends on
    the Python version; the callbacks take that function from a [library]
    (below).  The reader defined here, [read_isoformat], is the instance
    used on the concrete timestamps of the examples: it reads the strings
    that [datetime.isoformat()] writes, [YYYY-MM-DD], or [YYYY-MM-DD], one
    separator character, [HH:MM:SS], an optional [.ffffff] and an optional
    offset [+HH:MM] or [-HH:MM], on which every version agrees. *)

Module Datetime.

Record t : Type := mk {
  year : Z; month : Z; day : Z;
  hour : Z; minute : Z; second : Z; microsecond : Z;
  utcoffset : option Z   (* microseconds east of UTC; [None] for a naive value *)
}.

Definition digit (c : ascii) : option Z :=
  let n := nat_of_ascii c in
  if (Nat.leb 48 n && Nat.leb n 57)%bool then Some (Z.of_nat (n - 48)) else None.

(** Read exactly [n] decimal digits. *)
Fixpoint digits (n : nat) (acc : Z) (s : string) : option (Z * string) :=
  match n with
  | O => Some (acc, s)
  | S n' =>
      match s with
      | EmptyString => None
      | String c r =>
          match digit c with
          | Some d => digits n' (10 * acc + d) r
          | None => None
          end
      end
  end.

Definition expect (c : ascii) (s : string) : option string :=
  match s with
  | String c' r => if Ascii.eqb c c' then Some r else None
  | EmptyString => None
  end.

Definition is_leap (y : Z) : bool :=
  ((y mod 4 =? 0) && (negb (y mod 100 =? 0) || (y mod 400 =? 0)))%bool.

Definition days_in_month (y m : Z) : Z :=
  if m =? 2 then (if is_leap y then 29 else 28)
  else if ((m =? 4) || (m =? 6) || (m =? 9) || (m =? 11))%bool then 30
  else 31.

Definition days_before_year (y : Z) : Z :=
  let p := y - 1 in p * 365 + p / 4 - p / 100 + p / 400.

Definition days_before_month (y m : Z) : Z :=
  nth (Z.to_nat (m - 1)) [0; 31; 59; 90; 120; 151; 181; 212; 243; 273; 304; 334] 0
  + (if ((2 <? m) && is_leap y)%bool then 1 else 0).

(** Proleptic Gregorian ordinal of a date. *)
Definition ymd2ord (y m d : Z) : Z :=
  days_before_year y + days_before_month y m + d.

Definition parse_date (s : string) : option (Z * Z * Z * string) :=
  match digits 4 0 s with
  | None => None
  | Some (y, s1) =>
  match expect "-" s1 with
  | None => None
  | Some s2 =>
  match digits 2 0 s2 with
  | None => None
  | Some (m, s3) =>
  match expect "-" s3 with
  | None => None
  | Some s4 =>
  match digits 2 0 s4 with
  | None => None
  | Some (d, s5) =>
      if ((1 <=? y) && (1 <=? m) && (m <=? 12) && (1 <=? d)
          && (d <=? days_in_month y m))%bool
      then Some (y, m, d, s5) else None
  end end end end end.

Definition parse_hms (s : string) : option (Z * Z * Z * string) :=
  match digits 2 0 s with
  | None => None
  | Some (h, s1) =>
  match expect ":" s1 with
  | None => None
  | Some s2 =>
  match digits 2 0 s2 with
  | None => None
  | Some (mi, s3) =>
  match expect ":" s3 with
  | None => None
  | Some s4 =>
  match digits 2 0 s4 with
  | None => None
  | Some (sec, s5) =>
      if ((h <=? 23) && (mi <=? 59) && (sec <=? 59))%bool
      then Some (h, mi, sec, s5) else None
  end end end end end.

Definition parse_fraction (s : string) : option (Z * string) :=
  match s with
  | String "." r => digits 6 0 r
  | _ => Some (0, s)
  end.

(** The offset, which ends the string when it is there. *)
Definition parse_offset (s : string) : option (option Z) :=
  match s with
  | EmptyString => Some None
  | String c r =>
      let sign := if Ascii.eqb c "+" then Some 1
                  else if Ascii.eqb c "-" then Some (-1) else None in
      match sign with
      | None => None
      | Some sg =>
      match digits 2 0 r with
      | None => None
      | Some (h, s1) =>
      match expect ":" s1 with
      | None => None
      | Some s2 =>
      match digits 2 0 s2 with
      | Some (mi, EmptyString) =>
          if ((h <=? 23) && (mi <=? 59))%bool
          then Some (Some (sg * (h * 3600 + mi * 60) * 1000000)) else None
      | _ => None
      end end end end
  end.

Definition parse (s : string) : option t :=
  match parse_date s with
  | None => None
  | Some (y, m, d, EmptyString) => Some (mk y m d 0 0 0 0 None)
  | Some (y, m, d, String _sep r) =>
  match parse_hms r with
  | None => None
  | Some (h, mi, sec, r1) =>
  match parse_fraction r1 with
  | None => None
  | Some (us, r2) =>
  match parse_offset r2 with
  | None => None
  | Some off => Some (mk y m d h mi sec us off)
  end end end
  end.

(** [datetime.fromisoformat(s)] on a string of those shapes; any other
    string is a [ValueError] here. *)
Definition read_isoformat (s : string) : result t :=
  match parse s with
  | Some dt => Ok dt
  | None => Raise ValueError
  end.

(** Microseconds of the wall-clock fields since the start of ordinal 0. *)
Definition wall_us (a : t) : Z :=
  (((ymd2ord (year a) (month a) (day a) * 24 + hour a) * 60 + minute a) * 60
   + second a) * 1000000 + microsecond a.

(** [a > b]: two naive values compare by their fields, two aware values by
    their instants, and a naive with an aware value raises [TypeError]. *)
Definition gt (a b : t) : result bool :=
  match utcoffset a, utcoffset b with
  | None, None => Ok (wall_us b <? wall_us a)
  | Some oa, Some ob => Ok (wall_us b - ob <? wall_us a - oa)
  | _, _ => Raise TypeError
  end.

End Datetime.

(** ** Library functions

    The two functions of the standard library that the callbacks call and
    whose results are not fixed by the source: [str.title], which goes by
    the Unicode case tables, and [datetime.fromisoformat], which reads more
    strings in later versions of Python and raises [ValueError] on the
    others. *)
Record library : Type := {
  str_title : string -> string;
  datetime_fromisoformat : string -> result Datetime.t
}.

(** The library of the examples: ASCII text and timestamps as
    [isoformat()] writes them. *)
Definition ascii_library : library :=
  {| str_title := Py.ascii_title;
     datetime_fromisoformat := Datetime.read_isoformat |}.


(** ** Data model *)

(** One entry of an organisation's ['variable_info'] list; every field is
    read with [.get], so each may be missing. *)
Record local_variable_info : Type := {
  main_class : option string;
  main_class_count : option Z;
  sub_class : option string;
  sub_class_count : option Z
}.

(** An organisation's record in a snapshot, as the upstream service stores
    it: ['sample_size'], an [int], and ['country'], a [str], are read by
    subscript and are there; ['variable_info'] is read under [try] and may
    be missing.  Records that lack one of the first two keys, or hold a
    sample size that [int()] does not take, are outside the model. *)
Record org_record : Type := {
  sample_size : Z;
  country : string;
  variable_info : option (list local_variable_info)
}.

Definition snapshot : Type := Dict.t org_record.

(** [descriptive_data]: ISO timestamp to snapshot. *)
Definition descriptive_data_t : Type := Dict.t snapshot.

(** The children a summary callback returns: text and [html.Br()]. *)
Inductive child : Type :=
| Text (s : string)
| Br.

(** [descriptive_data[max(descriptive_data.keys())]] *)
Definition latest_data (descriptive_data : descriptive_data_t) : result snapshot :=
  k <- Py.max (Dict.keys descriptive_data) ;;
  match Dict.get k descriptive_data with
  | Some latest => Ok latest
  | None => Raise KeyError
  end.

(** ** Summary scalars *)

(** The hashable values a record field can hold. *)
Inductive field_value : Type :=
| FStr (s : string)
| FInt (n : Z).

Definition field_value_eq_dec (a b : field_value) : {a = b} + {a <> b}.
Proof.
  decide equality; [apply string_dec | apply Z.eq_dec].
Defined.

(** [data[field_name]] as a set element: a missing field raises [KeyError],
    the list under ['variable_info'] is not hashable ([TypeError]). *)
Definition record_field (field_name : string) (data : org_record) : result field_value :=
  if String.eqb field_name "country" then Ok (FStr (country data))
  else if String.eqb field_name "sample_size" then Ok (FInt (sample_size data))
  else if String.eqb field_name "variable_info" then
    match variable_info data with
    | Some _ => Raise TypeError
    | None => Raise KeyError
    end
  else Raise KeyError.

Definition fetch_field_count (descriptive_data : descriptive_data_t)
    (field_name text : string) : result (option (list child)) :=
  match descriptive_data with
  | [] => Ok None
  | _ :: _ =>
      latest <- latest_data descriptive_data ;;
      fields <- mapM (record_field field_name) (Dict.values latest) ;;
      let num_countries := Z.of_nat (length (nodup field_value_eq_dec fields)) in
      Ok (Some [Text (Py.str_int num_countries); Br;
                Text (text ++ (if 1 <? num_countries then "ies" else "y"))])
  end.

Definition fetch_number_of_keys (descriptive_data : descriptive_data_t)
    (text : string) : result (option (list child)) :=
  match descriptive_data with
  | [] => Ok None
  | _ :: _ =>
      latest <- latest_data descriptive_data ;;
      let len := Z.of_nat (length latest) in
      Ok (Some [Text (Py.str_int len); Br;
                Text (text ++ (if 1 <? len then "s" else ""))])
  end.

Definition fetch_total_sample_size (descriptive_data : descriptive_data_t)
    (text : string) : result (option (list child)) :=
  match descriptive_data with
  | [] => Ok None
  | _ :: _ =>
      latest <- latest_data descriptive_data ;;
      let num_patients := Py.sum (map sample_size (Dict.values latest)) in
      Ok (Some [Text (Py.str_int num_patients); Br;
                Text (text ++ (if 1 <? num_patients then "s" else ""))])
  end.

(** ** Horizontal bar of sample sizes *)

(** [round(size / total, ndigits=2)], as a number of hundredths.

    The quotient is taken exactly and rounded to the nearest hundredth.  When
    the exact quotient lies half way between two hundredths, Python rounds the
    double nearest to it, which lies on one side or the other by its binary
    expansion: that choice is the argument [tie] (whether to round up).  The
    double quotient stays on its side of every half-way point as long as the
    operands are below 2^44, the range of sample sizes; the properties that
    pin a proportion down assume that range, the others state bounds. *)
Definition round_ndigits2 (tie : Z -> Z -> bool) (size total : Z) : result Z :=
  if total =? 0 then Raise ZeroDivisionError
  else
    let n := if total <? 0 then - (100 * size) else 100 * size in
    let d := Z.abs total in
    let f := n / d in
    let r := n mod d in
    if 2 * r <? d then Ok f
    else if d <? 2 * r then Ok (f + 1)
    else Ok (if tie size total then f + 1 else f).

Record bar : Type := {
  bar_x : list Z;              (* hundredths *)
  bar_y : list string;
  bar_name : string;
  bar_hovertemplate : string
}.

Record annotation : Type := {
  annotation_x : Z;            (* two-hundredths: a sum of proportions less half of one *)
  annotation_text : string
}.

(** The figure of the bar chart; the constant entries of its layout (bar
    mode, axes, legend, height, margins) are left out. *)
Record bar_figure : Type := {
  bar_data : list bar;
  bar_title : string;
  bar_annotations : list annotation
}.

(** [enumerate(l)] *)
Definition enumerate {A : Type} (l : list A) : list (nat * A) :=
  combine (seq 0 (length l)) l.

(** [f"{p * 100:.2f}"] for the proportion [p = round(size / total, 2)] of
    that many hundredths.  A quotient that is negative, or the negative zero
    of [0 / total] for a negative total, rounds to the float [-0.0] when it
    rounds to zero, which prints with its sign. *)
Definition percent_2f (size total hundredths : Z) : string :=
  let negative_quotient :=
    ((size <? 0) && (0 <? total) || (0 <=? size) && (total <? 0))%bool in
  (if ((hundredths =? 0) && negative_quotient)%bool then "-0"
   else Py.str_int hundredths) ++ ".00".

Definition generate_sample_size_horizontal_bar (tie : Z -> Z -> bool)
    (descriptive_data : descriptive_data_t) (text : string)
    : result (option bar_figure) :=
  match descriptive_data with
  | [] => Ok None
  | _ :: _ =>
      latest <- latest_data descriptive_data ;;
      let sample_sizes := map sample_size (Dict.values latest) in
      let total_sample_size := Py.sum sample_sizes in
      proportions <- mapM (fun size => round_ndigits2 tie size total_sample_size)
                          sample_sizes ;;
      let organisations := Py.sorted (Dict.keys latest) in
      (* the three lists have the length of the snapshot, so every
         subscript below is in range *)
      let data :=
        map (fun '(i, org) =>
               {| bar_x := [nth i proportions 0];
                  bar_y := ["Number of " ++ text ++ "s per organisation"];
                  bar_name := org;
                  bar_hovertemplate :=
                    org ++ " has made data of " ++ Py.str_int (nth i sample_sizes 0)
                    ++ " " ++ text ++ (if 1 <? nth i sample_sizes 0 then "s" else "")
                    ++ " available, which is "
                    ++ percent_2f (nth i sample_sizes 0) total_sample_size
                         (nth i proportions 0)
                    ++ "% of all available " ++ text ++ " data." |})
            (enumerate organisations) in
      let annotations :=
        map (fun i =>
               {| annotation_x :=
                    2 * Py.sum (firstn (i + 1) proportions) - nth i proportions 0;
                  annotation_text := Py.str_int (nth i sample_sizes 0) |})
            (seq 0 (length organisations)) in
      Ok (Some {| bar_data := data;
                  bar_title := "Number of " ++ text ++ "s per organisation";
                  bar_annotations := annotations |})
  end.

(** ** Donut chart *)

(** The figure of the donut chart: one pie trace and the title; the constant
    entries (hole, fonts, legend) are left out. *)
Record donut_figure : Type := {
  donut_labels : list string;
  donut_values : list Z;
  donut_hovertemplate : string;
  donut_title : string
}.

(** [country_data[data["country"]] += int(data["sample_size"])] on a
    [defaultdict(int)] *)
Definition add_country (country_data : Dict.t Z) (data : org_record) : Dict.t Z :=
  Dict.set (country data)
    (match Dict.get (country data) country_data with
     | Some n => n
     | None => 0
     end + sample_size data)
    country_data.

Definition generate_donut_chart (descriptive_data : descriptive_data_t)
    (text chart_type : string) : result (option donut_figure) :=
  match descriptive_data with
  | [] => Ok None
  | _ :: _ =>
      latest <- latest_data descriptive_data ;;
      (* the locals [labels], [sample_sizes] and [title], bound by neither
         branch when [chart_type] is something else *)
      locals <-
        (if String.eqb chart_type "organisation" then
           Ok (Some (Py.sorted (Dict.keys latest),
                     map sample_size (Dict.values latest),
                     text ++ "s per organisation"))
         else if String.eqb chart_type "country" then
           let country_data := fold_left add_country (Dict.values latest) [] in
           match Py.sorted_by fst country_data with
           | [] => Raise ValueError      (* nothing to unpack from [zip()] *)
           | items => Ok (Some (map fst items, map snd items,
                                text ++ "s per country"))
           end
         else Ok None) ;;
      match locals with
      | None => Raise UnboundLocalError
      | Some (labels, sample_sizes, title) =>
          Ok (Some {| donut_labels := labels;
                      donut_values := sample_sizes;
                      donut_hovertemplate :=
                        "<b>%{label}</b><br>Available " ++ text
                        ++ " data: <b>%{value}</b><br>"
                        ++ "Proportion of all available " ++ text
                        ++ " data: <b>%{percent}</b>";
                      donut_title := title |})
      end
  end.


(** ** Availability table *)

Record term_info : Type := {
  target_class : string
}.

(** ['value_mapping'], of which only ['terms'] is read; a mapping without
    terms gives no value rows, whether it is empty or not. *)
Record value_mapping_t : Type := {
  terms : option (Dict.t term_info)
}.

(** A variable of the global schema; ['class'] is read by subscript. *)
Record variable_schema : Type := {
  class : string;
  value_mapping : option value_mapping_t
}.

(** [global_schema_data], of which only ['variable_info'] is read. *)
Record global_schema : Type := {
  schema_variable_info : option (Dict.t variable_schema)
}.

(** A cell of the table: text in the first two columns, counts elsewhere. *)
Inductive cell : Type :=
| CStr (s : string)
| CInt (n : Z).

Definition row : Type := Dict.t cell.
Definition tooltip_row_t : Type := Dict.t string.

Definition nl : string := String "010"%char EmptyString.

Definition prefixes : list (string * string) :=
  [("ncit", "http://ncicb.nci.nih.gov/xml/owl/EVS/Thesaurus.owl#");
   ("sct", "http://snomed.info/sct")].

(** The loop over [prefixes] that expands the first prefix found and breaks. *)
Fixpoint expand_prefix (ps : list (string * string)) (s : string) : string :=
  match ps with
  | [] => s
  | (prefix, uri) :: r =>
      if Py.contains (prefix ++ ":") s then Py.replace (prefix ++ ":") uri s
      else expand_prefix r s
  end.

(** The loop over [prefixes] that abbreviates the first URI found and
    breaks. *)
Fixpoint abbreviate_uri (ps : list (string * string)) (s : string) : string :=
  match ps with
  | [] => s
  | (prefix, uri) :: r =>
      if Py.contains uri s then Py.replace uri (prefix ++ ":") s
      else abbreviate_uri r s
  end.

Definition terms_of (value_mapping : option value_mapping_t) : Dict.t term_info :=
  match value_mapping with
  | Some vm => match terms vm with Some t => t | None => [] end
  | None => []
  end.

(** [_variable_info]: the deep copy with the prefixes expanded. *)
Definition expand_variable (info : variable_schema) : variable_schema :=
  {| class := expand_prefix prefixes (class info);
     value_mapping :=
       match value_mapping info with
       | Some vm =>
           Some {| terms :=
                     match terms vm with
                     | Some t =>
                         Some (map (fun '(mapping, target_info) =>
                                      (mapping,
                                       {| target_class :=
                                            expand_prefix prefixes
                                              (target_class target_info) |}))
                                   t)
                     | None => None
                     end |}
       | None => None
       end |}.

Definition opt_string_eqb (a b : option string) : bool :=
  match a, b with
  | Some x, Some y => String.eqb x y
  | None, None => true
  | _, _ => false
  end.

(** [info.get('main_class') == c and info.get('sub_class') == s] *)
Definition matches (c s : string) (info : local_variable_info) : bool :=
  (opt_string_eqb (main_class info) (Some c)
   && opt_string_eqb (sub_class info) (Some s))%bool.

(** [info.get(key, 0)] for the two counts *)
Definition get_main_class_count (info : local_variable_info) : Z :=
  match main_class_count info with Some n => n | None => 0 end.

Definition get_sub_class_count (info : local_variable_info) : Z :=
  match sub_class_count info with Some n => n | None => 0 end.

(** The record that stands in when the lookup raises [KeyError]. *)
Definition fallback_info : local_variable_info :=
  {| main_class := Some ""; main_class_count := Some 0;
     sub_class := Some ""; sub_class_count := Some 0 |}.

(** The [try] block: the organisation's entries of the variable's class,
    or the fallback when ['variable_info'] (or the organisation) is missing. *)
Definition org_infos (latest : snapshot) (c : string) (organisation : string)
    : list local_variable_info :=
  match Dict.get organisation latest with
  | Some data =>
      match variable_info data with
      | Some l => filter (fun info => opt_string_eqb (main_class info) (Some c)) l
      | None => [fallback_info]
      end
  | None => [fallback_info]
  end.

(** [org_variable_info], filled organisation by organisation. *)
Definition build_org_variable_info (latest : snapshot) (c : string)
    (organizations : list string) : Dict.t (list local_variable_info) :=
  fold_left (fun acc organisation =>
               Dict.set organisation (org_infos latest c organisation) acc)
            organizations [].

(** [total_count], summed over every matching entry of every organisation. *)
Definition total_count (count : local_variable_info -> Z) (c s : string)
    (org_variable_info : Dict.t (list local_variable_info)) : Z :=
  fold_left (fun total info_list =>
               fold_left (fun total info =>
                            if matches c s info then total + count info else total)
                         info_list total)
            (Dict.values org_variable_info) 0.

(** The inner [for info in info_list] of the cell loop: the first matching
    entry sets the cell and breaks; every entry before it sets the cell to 0. *)
Fixpoint scan_info_list (c s : string) (count : local_variable_info -> Z)
    (hit : Z -> string) (miss : string) (organisation : string)
    (info_list : list local_variable_info) (st : row * tooltip_row_t)
    : row * tooltip_row_t :=
  match info_list with
  | [] => st
  | info :: rest =>
      if matches c s info then
        (Dict.set organisation (CInt (count info)) (fst st),
         Dict.set organisation (hit (count info)) (snd st))
      else
        scan_info_list c s count hit miss organisation rest
          (Dict.set organisation (CInt 0) (fst st),
           Dict.set organisation miss (snd st))
  end.

(** The loop [for organisation, info_list in org_variable_info.items()]. *)
Definition fill_cells (c s : string) (count : local_variable_info -> Z)
    (hit : string -> Z -> string) (miss : string -> string)
    (org_variable_info : Dict.t (list local_variable_info))
    (st : row * tooltip_row_t) : row * tooltip_row_t :=
  fold_left (fun st '(organisation, info_list) =>
               match info_list with
               | [] =>
                   (Dict.set organisation (CInt 0) (fst st),
                    Dict.set organisation (miss organisation) (snd st))
               | _ :: _ =>
                   scan_info_list c s count (hit organisation) (miss organisation)
                     organisation info_list st
               end)
            org_variable_info st.

Definition total_column (text : string) : string := "Total " ++ text ++ "s".

(** [variable.replace('_', ' ')] and its [.title()] *)
Definition spaced (name : string) : string := Py.replace "_" " " name.
Definition titled (lib : library) (name : string) : string :=
  str_title lib (spaced name).

(** The row and the tooltip row of a variable. *)
Definition variable_rows (lib : library) (text variable c : string)
    (org_variable_info : Dict.t (list local_variable_info))
    : row * tooltip_row_t :=
  let total := total_count get_main_class_count c c org_variable_info in
  let row0 : row :=
    [("Variables", CStr (titled lib variable)); ("Values", CStr "");
     (total_column text, CInt total)] in
  let org_data :=
    map (fun '(org, info_list) =>
           org ++ ": __"
           ++ Py.str_int (match info_list with
                          | info :: _ => get_main_class_count info
                          | [] => 0
                          end)
           ++ "__")
        (filter (fun '(org, info_list) => existsb (matches c c) info_list)
                org_variable_info) in
  let org_data_str :=
    match org_data with
    | _ :: _ =>
        "__" ++ titled lib variable ++ "__  " ++ nl
        ++ "Available " ++ text ++ " data per organisation  " ++ nl
        ++ Py.join ("  " ++ nl) org_data
    | [] =>
        "No " ++ text ++ "s with information on __" ++ spaced variable
        ++ "__ appear to be available."
    end in
  let tooltip0 : tooltip_row_t :=
    [("Variables",
      abbreviate_uri prefixes
        ("__" ++ titled lib variable ++ "__  " ++ nl ++ "Associated class: " ++ c));
     ("Values", "");
     (total_column text, org_data_str)] in
  fill_cells c c get_main_class_count
    (fun organisation n =>
       "__" ++ Py.str_int n ++ "__ " ++ text ++ "s in " ++ organisation
       ++ " have information on __" ++ spaced variable ++ "__.")
    (fun organisation =>
       "Data for __" ++ spaced variable ++ "__ appears unavailable for "
       ++ organisation ++ ".")
    org_variable_info (row0, tooltip0).

(** The row and the tooltip row of one value of a variable. *)
Definition value_rows (lib : library) (text variable c value : string)
    (value_info : term_info)
    (org_variable_info : Dict.t (list local_variable_info))
    : row * tooltip_row_t :=
  let s := target_class value_info in
  let total := total_count get_sub_class_count c s org_variable_info in
  let row0 : row :=
    [("Variables", CStr ""); ("Values", CStr (titled lib value));
     (total_column text, CInt total)] in
  let org_data :=
    flat_map (fun '(org, info_list) =>
                map (fun info =>
                       org ++ ": __" ++ Py.str_int (get_sub_class_count info) ++ "__")
                    (filter (matches c s) info_list))
             org_variable_info in
  let org_data_str :=
    match org_data with
    | _ :: _ =>
        titled lib variable ++ " - __" ++ titled lib value ++ "__  " ++ nl
        ++ "Available " ++ text ++ " data per organisation  " ++ nl
        ++ Py.join ("  " ++ nl) org_data
    | [] =>
        "No " ++ text ++ "s with __" ++ spaced value ++ "__ for "
        ++ spaced variable ++ " appear to be available."
    end in
  let tooltip0 : tooltip_row_t :=
    [("Variables", "");
     ("Values",
      abbreviate_uri prefixes
        (titled lib variable ++ " - __" ++ titled lib value ++ "__  " ++ nl
         ++ "Associated class: " ++ s));
     (total_column text, org_data_str)] in
  fill_cells c s get_sub_class_count
    (fun organisation n =>
       "__" ++ Py.str_int n ++ "__ " ++ text ++ "s in " ++ organisation
       ++ " have __" ++ spaced value ++ "__ as " ++ spaced variable ++ ".")
    (fun organisation =>
       "No " ++ text ++ "s that have __" ++ spaced value ++ "__ as "
       ++ spaced variable ++ " appear available in " ++ organisation ++ ".")
    org_variable_info (row0, tooltip0).

(** The body of [for variable in variable_info.keys()]: the variable's row
    followed by the rows of its values. *)
Definition rows_of_variable (lib : library) (text : string) (latest : snapshot)
    (organizations : list string) (variable : string) (info : variable_schema)
    : list (row * tooltip_row_t) :=
  let c := class info in
  let org_variable_info := build_org_variable_info latest c organizations in
  variable_rows lib text variable c org_variable_info
  :: map (fun '(value, value_info) =>
            value_rows lib text variable c value value_info org_variable_info)
         (terms_of (value_mapping info)).

(** [max(descriptive_data.keys(), key=lambda x: datetime.fromisoformat(x))] *)
Definition most_recent_timestamp (lib : library)
    (descriptive_data : descriptive_data_t) : result string :=
  Py.max_key (datetime_fromisoformat lib) Datetime.gt (Dict.keys descriptive_data).

(** [pd.DataFrame(df_rows)]: the rows all carry the same keys in the same
    order, which are the columns. *)
Record data_frame : Type := {
  df_columns : list string;
  df_records : list row
}.

Definition DataFrame (df_rows : list row) : data_frame :=
  {| df_columns := match df_rows with
                   | [] => []
                   | r :: _ => Dict.keys r
                   end;
     df_records := df_rows |}.

(** The [dash_table.DataTable]: its columns, data and tooltips; the constant
    styles are left out. *)
Record data_table : Type := {
  table_columns : list string;
  table_data : list row;
  table_tooltip_data : list (Dict.t (option string))
}.

Definition check_mark : string :=
  String "226"%char (String "156"%char (String "148"%char EmptyString)).
Definition cross_mark : string :=
  String "226"%char (String "156"%char (String "150"%char EmptyString)).

(** [display_df]: the columns after the third show a mark for [x > 0]. *)
Definition display (df : data_frame) : data_frame :=
  let marked := skipn 3 (df_columns df) in
  {| df_columns := df_columns df;
     df_records :=
       map (map (fun '(col, x) =>
                   if existsb (String.eqb col) marked then
                     match x with
                     | CInt n => (col, CStr (if 0 <? n then check_mark else cross_mark))
                     | CStr _ => (col, x)
                     end
                   else (col, x)))
           (df_records df) |}.

(** [create_data_table]: the cell width [100 / len(df.columns)] divides by
    zero on a frame without columns. *)
Definition create_data_table (df : data_frame) (tooltips : list tooltip_row_t)
    : result data_table :=
  match df_columns df with
  | [] => Raise ZeroDivisionError
  | _ :: _ =>
      Ok {| table_columns := df_columns df;
            table_data := df_records df;
            table_tooltip_data :=
              map (fun tooltip =>
                     map (fun column => (column, Dict.get column tooltip))
                         (df_columns df))
                  tooltips |}
  end.

(** [global_schema_data.get('variable_info')], an empty dictionary when it
    is [None]. *)
Definition schema_variables (global_schema_data : global_schema)
    : Dict.t variable_schema :=
  match schema_variable_info global_schema_data with
  | Some v => v
  | None => []
  end.

Definition generate_fair_data_availability (lib : library)
    (global_schema_data : global_schema)
    (descriptive_data : descriptive_data_t) (text : string)
    : result (data_frame * data_table) :=
  let variable_info := schema_variables global_schema_data in
  most_recent <- most_recent_timestamp lib descriptive_data ;;
  descriptive_data_most_recent <-
    match Dict.get most_recent descriptive_data with
    | Some latest => Ok latest
    | None => Raise KeyError
    end ;;
  let organizations := Dict.keys descriptive_data_most_recent in
  let _variable_info :=
    map (fun '(key, info) => (key, expand_variable info)) variable_info in
  let rows :=
    flat_map (fun variable =>
                match Dict.get variable _variable_info with
                | Some info =>
                    rows_of_variable lib text descriptive_data_most_recent
                      organizations variable info
                | None => []
                end)
             (Dict.keys variable_info) in
  let df := DataFrame (map fst rows) in
  table <- create_data_table (display df) (map snd rows) ;;
  Ok (df, table).


(** ** Completeness chart

    [generate_completeness_chart] works on pandas frames.  The frames that
    it aligns are indexed by the label in ['Variables'] ([set_index]), and
    [reset_index] only moves the label back into a column: a frame is
    modelled by the names of its other columns and by its rows, each a label
    with its cells by column name, [None] standing for NaN.  Several rows
    may carry the same label.  Column names are taken to be distinct, as
    they are in a table made by [generate_fair_data_availability]. *)

Module Frame.

(** The cells of a row, by column name. *)
Definition cells : Type := string -> option Z.

Record t : Type := mk {
  columns : list string;
  rows : list (string * cells)
}.

Definition index (f : t) : list string := map fst (rows f).

Definition mem (x : string) (l : list string) : bool := existsb (String.eqb x) l.

(** The value of a row of the frame at a column, NaN outside its columns. *)
Definition value (f : t) (v : cells) (c : string) : option Z :=
  if mem c (columns f) then v c else None.

(** The rows that carry a label, in their order. *)
Definition labelled (l : string) (f : t) : list cells :=
  map snd (filter (fun r => String.eqb (fst r) l) (rows f)).

(** A row of NaN. *)
Definition nan : cells := fun _ => None.

(** The rows that a join matches with a label: those that carry it, or a
    row of NaN when there is none. *)
Definition matched (l : string) (f : t) : list cells :=
  match labelled l f with
  | [] => [nan]
  | found => found
  end.

(** [pd.DataFrame()] *)
Definition nil : t := mk [] [].

(** [df.empty]: no rows or no columns. *)
Definition empty (f : t) : bool :=
  match rows f, columns f with
  | _ :: _, _ :: _ => false
  | _, _ => true
  end.

Definition list_eqb (a b : list string) : bool :=
  if list_eq_dec string_dec a b then true else false.

(** The labels of the outer alignment of two axes that differ ([Index.join]
    with [how='outer'], as from pandas 2.2): each label once, sorted. *)
Definition union (a b : list string) : list string :=
  Py.sorted (nodup string_dec (a ++ b)).

(** The columns of an outer alignment: an axis equal on both sides is kept
    as it is. *)
Definition outer (a b : list string) : list string :=
  if list_eqb a b then a else union a b.

(** The rows of an outer alignment: row by row when the two indexes are
    equal; else label by label in sorted order, every row of [a] that
    carries the label with every row of [b] that carries it, the rows of [a]
    turning slowest. *)
Definition align (a b : t) : list (string * (cells * cells)) :=
  if list_eqb (index a) (index b)
  then map (fun '((l, va), (_, vb)) => (l, (va, vb))) (combine (rows a) (rows b))
  else flat_map (fun l => map (fun p => (l, p))
                              (list_prod (matched l a) (matched l b)))
                (union (index a) (index b)).

(** The difference of two cells under [fill_value=0]: a value missing on one
    side counts as 0; missing on both sides it stays missing. *)
Definition fill_sub (x y : option Z) : option Z :=
  match x, y with
  | Some x, Some y => Some (x - y)
  | Some x, None => Some x
  | None, Some y => Some (- y)
  | None, None => None
  end.

(** [a.subtract(b, fill_value=0)] *)
Definition subtract_fill0 (a b : t) : t :=
  mk (outer (columns a) (columns b))
     (map (fun '(l, (va, vb)) =>
             (l, fun c => fill_sub (value a va c) (value b vb c)))
          (align a b)).

(** [f.clip(upper=0).abs()] on every column *)
Definition clip_upper0_abs (f : t) : t :=
  mk (columns f)
     (map (fun '(l, v) =>
             (l, fun c => match v c with
                          | Some x => Some (Z.abs (Z.min x 0))
                          | None => None
                          end))
          (rows f)).

(** [f.join(g.set_index('Variables'), on='Variables', rsuffix='_r')]: a left
    join, which adds the columns of [g] to the rows of [f]. *)
Definition join (f g : t) : t :=
  mk (columns f ++ columns g)
     (flat_map (fun '(l, v) =>
                  map (fun w => (l, fun c => if mem c (columns f) then v c
                                             else value g w c))
                      (matched l g))
               (rows f)).

(** [f.merge(g[['Variables', c]], on='Variables', how='left')], of which the
    chart reads the label, column [c] of [f] and column [c] of [g]. *)
Definition merge_left (f g : t) (c : string)
    : list (string * (option Z * option Z)) :=
  flat_map (fun '(l, v) =>
              map (fun w => (l, (value f v c, value g w c))) (matched l g))
           (rows f).

End Frame.

(** A row of the availability table as read back from JSON: the two text
    columns and the numeric columns by name. *)
Record availability_row : Type := {
  Variables : string;
  Values : string;
  counts : Dict.t Z
}.

(** [initial_df]: the names of [initial_df.columns[2:]] and the rows. *)
Record availability_frame : Type := {
  numeric_columns : list string;
  records : list availability_row
}.

(** [_initial_df_copy[_initial_df_copy['Variables'] != ''].drop('Values', axis=1)] *)
Definition variable_counts (initial_df : availability_frame) : Frame.t :=
  Frame.mk (numeric_columns initial_df)
    (map (fun r => (Variables r, fun c => Dict.get c (counts r)))
         (filter (fun r => negb (String.eqb (Variables r) ""))
                 (records initial_df))).

(** [initial_df['Variables'].replace('', np.nan).ffill()]: a blank takes the
    last label above it, and stays NaN when there is none. *)
Fixpoint ffill (last : option string) (rows : list availability_row)
    : list (option string * availability_row) :=
  match rows with
  | [] => []
  | r :: rest =>
      let label := if String.eqb (Variables r) "" then last else Some (Variables r) in
      (label, r) :: ffill label rest
  end.

(** [initial_df[initial_df['Values'] != '']] after the fill. *)
Definition value_records (initial_df : availability_frame)
    : list (option string * availability_row) :=
  filter (fun '(_, r) => negb (String.eqb (Values r) ""))
         (ffill None (records initial_df)).

(** The sum of a column over the value rows of a label. *)
Definition group_sum (rows : list (option string * availability_row))
    (l column : string) : Z :=
  Py.sum (map (fun '(_, r) =>
                 match Dict.get column (counts r) with
                 | Some n => n
                 | None => 0
                 end)
              (filter (fun '(label, _) => opt_string_eqb label (Some l)) rows)).

(** The labels that [groupby('Variables')] makes groups of: each once, in
    sorted order; rows without a label are dropped. *)
Definition group_labels (rows : list (option string * availability_row))
    : list string :=
  Py.sorted
    (nodup string_dec
       (flat_map (fun '(label, _) => match label with Some l => [l] | None => [] end)
                 rows)).

(** [rows.groupby('Variables')[column].sum().reset_index()] *)
Definition groupby_sum (rows : list (option string * availability_row))
    (column : string) : Frame.t :=
  Frame.mk [column]
    (map (fun l => (l, fun _ => Some (group_sum rows l column)))
         (group_labels rows)).

(** The loop [for column in initial_df.columns[2:]]. *)
Definition sum_value_counts (initial_df : availability_frame) : Frame.t :=
  fold_left (fun unavailable_df column =>
               let column_counts := groupby_sum (value_records initial_df) column in
               if Frame.empty unavailable_df then column_counts
               else Frame.join unavailable_df column_counts)
            (numeric_columns initial_df) Frame.nil.

Record bar_trace : Type := {
  trace_name : string;
  trace_x : list string;
  trace_y : list Z;
  trace_hovertemplate : list string
}.

(** The figure: its two traces; the constant layout is left out. *)
Record completeness_figure : Type := {
  complete : bar_trace;
  incomplete : bar_trace
}.

(** [.astype(int)] and [int(x)] on a cell; NaN does not convert. *)
Definition as_int (x : option Z) : result Z :=
  match x with
  | Some n => Ok n
  | None => Raise ValueError
  end.

(** [counts[org][label]] on [f.set_index('Variables').to_dict()], in which
    the last of the rows that carry a label stands for it. *)
Definition lookup_count (f : Frame.t) (org label : string) : result Z :=
  match rev (Frame.labelled label f) with
  | [] => Raise KeyError
  | v :: _ => as_int (Frame.value f v org)
  end.

(** One hover text: the head line and the share of each organisation, the
    organisations being the columns after the first. *)
Definition hover (lib : library) (f : Frame.t)
    (total renamed_total caption text label : string) (count : Z)
    : result string :=
  shares <- mapM (fun org =>
                    n <- lookup_count f org (str_title lib label) ;;
                    Ok ((if String.eqb org total then renamed_total else org)
                        ++ ": <b>" ++ Py.str_int n ++ "</b>"))
                 (tl (Frame.columns f)) ;;
  Ok ("<extra></extra><b>" ++ label ++ "</b><br>" ++ caption ++ ": <b>"
      ++ Py.str_int count ++ "</b> " ++ text ++ "s<br><br>"
      ++ "Share per organisation<br>" ++ Py.join "<br>" shares).

Definition generate_completeness_chart (lib : library)
    (initial_df : availability_frame) (text : string)
    : result completeness_figure :=
  let total := total_column text in
  let available_variable_counts_df := variable_counts initial_df in
  let unavailable_df := sum_value_counts initial_df in
  (* how much missing information is there *)
  let unavailable_df :=
    Frame.clip_upper0_abs
      (Frame.subtract_fill0 unavailable_df available_variable_counts_df) in
  (* how much usable information is there *)
  let available_variable_counts_df :=
    Frame.subtract_fill0 available_variable_counts_df unavailable_df in
  (* the renamed total columns keep their place under the name [total] *)
  if negb (Frame.mem total (Frame.columns available_variable_counts_df))
  then Raise KeyError
  else
    (* a row: the label, the unavailable total and the available total *)
    let visualisation_df :=
      Frame.merge_left unavailable_df available_variable_counts_df total in
    let labels := map fst visualisation_df in
    total_available <-
      mapM (fun row => as_int (snd (snd row))) visualisation_df ;;
    total_unavailable <-
      mapM (fun row => as_int (fst (snd row))) visualisation_df ;;
    hover_available <-
      mapM (fun '(l, n) =>
              hover lib available_variable_counts_df total
                ("Total available " ++ text ++ "s")
                "Total complete information" text l n)
           (combine labels total_available) ;;
    hover_unavailable <-
      mapM (fun '(l, n) =>
              hover lib unavailable_df total
                ("Total unavailable " ++ text ++ "s")
                "Total incomplete information" text l n)
           (combine labels total_unavailable) ;;
    Ok {| complete :=
            {| trace_name := "Complete information";
               trace_x := labels;
               trace_y := total_available;
               trace_hovertemplate := hover_available |};
          incomplete :=
            {| trace_name := "Incomplete information";
               trace_x := labels;
               trace_y := total_unavailable;
               trace_hovertemplate := hover_unavailable |} |}.


(** ** Concrete inputs *)

Module Examples.

Definition ncit : string := "http://ncicb.nci.nih.gov/xml/owl/EVS/Thesaurus.owl#".

Definition info (m s : string) (mc sc : Z) : local_variable_info :=
  {| main_class := Some m; main_class_count := Some mc;
     sub_class := Some s; sub_class_count := Some sc |}.

Definition org (n : Z) (c : string) (v : option (list local_variable_info))
    : org_record :=
  {| sample_size := n; country := c; variable_info := v |}.

(** A schema with a variable that has two values and one that has none. *)
Definition schema : global_schema :=
  {| schema_variable_info :=
       Some [("biological_sex",
              {| class := "ncit:C28421";
                 value_mapping :=
                   Some {| terms :=
                             Some [("male", {| target_class := "ncit:C20197" |});
                                   ("female", {| target_class := "ncit:C16576" |})] |} |});
             ("age", {| class := "ncit:C25150"; value_mapping := None |})] |}.

(** Organisation B comes first and has no ['variable_info']. *)
Definition snapshot_BA : snapshot :=
  [("B", org 1 "NL" None);
   ("A", org 3 "BE"
           (Some [info (ncit ++ "C28421") (ncit ++ "C28421") 10 10;
                  info (ncit ++ "C28421") (ncit ++ "C20197") 10 4;
                  info (ncit ++ "C25150") (ncit ++ "C25150") 7 7]))].

Definition data_BA : descriptive_data_t := [("2024-01-01T00:00:00", snapshot_BA)].

(** The same snapshot preceded by an earlier one. *)
Definition data_BA_history : descriptive_data_t :=
  [("2023-06-01T00:00:00", [("C", org 5 "DE" None)]);
   ("2024-01-01T00:00:00", snapshot_BA)].

(** Organisation A reports the class of [age] twice. *)
Definition data_repeated : descriptive_data_t :=
  [("2024-01-01T00:00:00",
    [("A", org 5 "BE"
             (Some [info (ncit ++ "C25150") (ncit ++ "C25150") 2 2;
                    info (ncit ++ "C25150") (ncit ++ "C25150") 3 3]))])].

(** Two inputs with the same snapshot under the greatest key; in the second
    an entry with a smaller key carries a later instant. *)
Definition data_utc : descriptive_data_t :=
  [("2024-01-01T12:00:00+00:00", snapshot_BA)].

Definition data_offsets : descriptive_data_t :=
  [("2024-01-01T11:00:00-05:00", [("C", org 5 "DE" None)]);
   ("2024-01-01T12:00:00+00:00", snapshot_BA)].

(** One organisation without patients, and a snapshot without
    organisations. *)
Definition data_zero : descriptive_data_t :=
  [("2024-01-01T00:00:00", [("A", org 0 "BE" None)])].

Definition data_no_org : descriptive_data_t := [("2024-01-01T00:00:00", [])].

Definition av (v w : string) (t b a : Z) : availability_row :=
  {| Variables := v; Values := w;
     counts := [("Total AYAs", t); ("B", b); ("A", a)] |}.

Definition table : availability_frame :=
  {| numeric_columns := ["Total AYAs"; "B"; "A"];
     records := [av "Biological Sex" "" 10 0 10; av "" "Male" 4 0 4;
                 av "" "Female" 3 0 3; av "Age" "" 7 0 7] |}.

(** Two variables that share a label, the first of them with a value. *)
Definition table_repeated : availability_frame :=
  {| numeric_columns := ["Total AYAs"; "B"; "A"];
     records := [av "Sex" "" 10 0 10; av "" "Male" 7 0 7; av "Sex" "" 3 0 3] |}.

(** The organisations stored in ascending order of their names. *)
Definition snapshot_AB : snapshot :=
[("A", org 3 "BE" None); ("B", org 1 "NL" None); ("C", org 4 "BE" None)].

Definition data_AB : descriptive_data_t := [("2024-01-01T00:00:00", snapshot_AB)].

(** The same with sample sizes of which no proportion lies half way between
    two hundredths. *)
Definition snapshot_ABC : snapshot :=
[("A", org 3 "BE" None); ("B", org 1 "NL" None); ("C", org 5 "BE" None)].

Definition data_ABC : descriptive_data_t := [("2024-01-01T00:00:00", snapshot_ABC)].

End Examples.

(** ** Notions used by the properties *)

(** The count a cell shows: that of the first matching entry, or 0. *)
Definition first_count (c s : string) (count : local_variable_info -> Z)
    (info_list : list local_variable_info) : Z :=
  match find (matches c s) info_list with
  | Some info => count info
  | None => 0
  end.

(** The class and sub-class of an entry, by which an organisation's entries
    are told apart. *)
Definition class_pair (info : local_variable_info) : option string * option string :=
  (main_class info, sub_class info).

(** The shape of every row of the table: three leading cells, the third
    being the total over all matching entries, then the cells filled
    organisation by organisation. *)
Inductive table_row (text : string) (latest : snapshot) : row -> Prop :=
| table_row_intro (c s : string) (count : local_variable_info -> Z)
    (hit : string -> Z -> string) (miss : string -> string)
    (variables values : cell) (tooltip0 : tooltip_row_t) :
    count fallback_info = 0 ->
    let org_variable_info := build_org_variable_info latest c (Dict.keys latest) in
    table_row text latest
      (fst (fill_cells c s count hit miss org_variable_info
              ([("Variables", variables); ("Values", values);
                (total_column text, CInt (total_count count c s org_variable_info))],
               tooltip0))).

(** The snapshot [latest] is the latest of [d]: it sits under a key that
    bounds the keys.  Two inputs agree on their latest snapshot when this
    holds of both for the same key and snapshot. *)
Definition latest_is (k : string) (latest : snapshot) (d : descriptive_data_t)
    : Prop :=
  Dict.get k d = Some latest
  /\ forall k', In k' (Dict.keys d) -> String.leb k' k = true.

(** The key [k] is also the latest in time: [datetime.fromisoformat] reads
    every key, all are naive or all are aware, none is later than [k] and
    every other key is earlier. *)
Definition latest_in_time (lib : library) (k : string) (d : descriptive_data_t)
    : Prop :=
  exists t,
    datetime_fromisoformat lib k = Ok t
    /\ forall k', In k' (Dict.keys d) ->
       exists t',
         datetime_fromisoformat lib k' = Ok t'
         /\ (Datetime.utcoffset t' = None <-> Datetime.utcoffset t = None)
         /\ Datetime.gt t' t = Ok false
         /\ (k' <> k -> Datetime.gt t t' = Ok true).

(** The keys of a dictionary after an assignment to [k]. *)
Definition add_key (ks : list string) (k : string) : list string :=
  if Frame.mem k ks then ks else (ks ++ [k])%list.

(** The keys that the rows of the table end up with: the three leading
    columns, then the organisations as the assignments add them. *)
Definition row_keys (text : string) (latest : snapshot) : list string :=
  fold_left add_key (fold_left add_key (Dict.keys latest) [])
    ["Variables"; "Values"; total_column text].

(** Every row of the frame that carries the label [l] holds [x] in column
    [c]. *)
Definition all_at (f : Frame.t) (l c : string) (x : Z) : Prop :=
  forall v, In (l, v) (Frame.rows f) -> Frame.value f v c = Some x.

(** The labels of the variables of a table: the non-blank entries of its
    ['Variables'] column. *)
Definition variable_labels (initial_df : availability_frame) : list string :=
  map Variables
      (filter (fun r => negb (String.eqb (Variables r) "")) (records initial_df)).

(** The total sample size of a snapshot. *)
Definition snapshot_total (latest : snapshot) : Z :=
  Py.sum (map sample_size (Dict.values latest)).

(** The instant of a datetime in microseconds: its wall-clock fields, less
    the offset for an aware value. *)
Definition instant (t : Datetime.t) : Z :=
  Datetime.wall_us t
  - match Datetime.utcoffset t with
    | Some offset => offset
    | None => 0
    end.


(** * Properties *)

(** ** The order on strings and [max] *)

Lemma ascii_compare_trans (c : comparison) (a b d : ascii) :
  Ascii.compare a b = c -> Ascii.compare b d = c -> Ascii.compare a d = c.
Proof.
  unfold Ascii.compare. intros H1 H2. destruct c.
  - apply N.compare_eq_iff in H1, H2. apply N.compare_eq_iff. congruence.
  - rewrite N.compare_lt_iff in *. lia.
  - rewrite N.compare_gt_iff in *. lia.
Qed.

Lemma ascii_compare_refl (a : ascii) : Ascii.compare a a = Eq.
Proof. unfold Ascii.compare. apply N.compare_refl. Qed.

Lemma string_compare_refl (s : string) : String.compare s s = Eq.
Proof.
  induction s as [| a s IH]; simpl; [reflexivity |].
  now rewrite ascii_compare_refl.
Qed.

Lemma string_compare_lt_trans (s1 s2 s3 : string) :
  String.compare s1 s2 = Lt -> String.compare s2 s3 = Lt ->
  String.compare s1 s3 = Lt.
Proof.
  revert s2 s3.
  induction s1 as [| a s1 IH]; intros [| b s2] [| d s3]; simpl;
    try discriminate; try reflexivity.
  destruct (Ascii.compare a b) eqn:Hab; try discriminate;
    destruct (Ascii.compare b d) eqn:Hbd; try discriminate; intros H1 H2.
  - apply Ascii.compare_eq_iff in Hab, Hbd. subst.
    rewrite ascii_compare_refl. eauto.
  - apply Ascii.compare_eq_iff in Hab. subst. now rewrite Hbd.
  - apply Ascii.compare_eq_iff in Hbd. subst. now rewrite Hab.
  - now rewrite (ascii_compare_trans Lt a b d).
Qed.

Lemma string_leb_refl (s : string) : String.leb s s = true.
Proof. unfold String.leb. now rewrite string_compare_refl. Qed.

Lemma string_leb_trans (s1 s2 s3 : string) :
  String.leb s1 s2 = true -> String.leb s2 s3 = true -> String.leb s1 s3 = true.
Proof.
  unfold String.leb.
  destruct (String.compare s1 s2) eqn:H12; try discriminate;
    destruct (String.compare s2 s3) eqn:H23; try discriminate; intros _ _.
  - apply String.compare_eq_iff in H12, H23. subst.
    now rewrite string_compare_refl.
  - apply String.compare_eq_iff in H12. subst. now rewrite H23.
  - apply String.compare_eq_iff in H23. subst. now rewrite H12.
  - now rewrite (string_compare_lt_trans s1 s2 s3).
Qed.

(** [x > y] excludes [x <= y]. *)
Lemma str_gt_not_leb (x y : string) :
  Py.str_gt x y = true -> String.leb x y = true -> False.
Proof.
  unfold Py.str_gt, String.ltb, String.leb.
  rewrite (String.compare_antisym x y).
  destruct (String.compare y x); simpl; discriminate.
Qed.

Lemma not_str_gt_leb (x y : string) :
  Py.str_gt x y = false -> String.leb x y = true.
Proof.
  unfold Py.str_gt, String.ltb, String.leb.
  rewrite (String.compare_antisym x y).
  destruct (String.compare y x); simpl; congruence.
Qed.

Lemma str_gt_leb (x y : string) :
  Py.str_gt x y = true -> String.leb y x = true.
Proof.
  unfold Py.str_gt, String.ltb, String.leb.
  destruct (String.compare y x); simpl; congruence.
Qed.

(** The running maximum ends on an item of the list. *)
Lemma max_from_In (l : list string) (cur : string) :
  In (Py.max_from cur l) (cur :: l).
Proof.
  revert cur. induction l as [| x r IH]; intros cur; simpl; [now left |].
  destruct (IH (if Py.str_gt x cur then x else cur)) as [H | H].
  - destruct (Py.str_gt x cur); rewrite <- H; auto.
  - auto.
Qed.

(** The running maximum bounds the list. *)
Lemma max_from_upper (l : list string) (cur x : string) :
  In x (cur :: l) -> String.leb x (Py.max_from cur l) = true.
Proof.
  revert cur x. induction l as [| y r IH]; intros cur x Hx; simpl.
  - destruct Hx as [<- | []]. apply string_leb_refl.
  - destruct Hx as [<- | [<- | Hx]].
    + apply string_leb_trans with (if Py.str_gt y cur then y else cur).
      * destruct (Py.str_gt y cur) eqn:E;
          [now apply str_gt_leb | apply string_leb_refl].
      * apply IH. now left.
    + apply string_leb_trans with (if Py.str_gt y cur then y else cur).
      * destruct (Py.str_gt y cur) eqn:E;
          [apply string_leb_refl | now apply not_str_gt_leb].
      * apply IH. now left.
    + apply IH. now right.
Qed.

(** A key that bounds the list is what [max] returns. *)
Lemma max_from_greatest (l : list string) (cur k : string) :
  In k (cur :: l) ->
  (forall x, In x (cur :: l) -> String.leb x k = true) ->
  Py.max_from cur l = k.
Proof.
  intros Hk Hle. apply String.leb_antisym.
  - apply Hle, max_from_In.
  - now apply max_from_upper.
Qed.

(** ** Dictionaries *)

Lemma get_In {V : Type} (d : Dict.t V) (k : string) (v : V) :
  Dict.get k d = Some v -> In (k, v) d.
Proof.
  induction d as [| [k' v'] r IH]; simpl; [discriminate |].
  destruct (String.eqb_spec k k') as [-> | Hne].
  - intros [= ->]. now left.
  - intros H. right. auto.
Qed.

Lemma get_In_keys {V : Type} (d : Dict.t V) (k : string) (v : V) :
  Dict.get k d = Some v -> In k (Dict.keys d).
Proof.
  intros H. apply get_In in H. unfold Dict.keys.
  now apply (in_map fst) in H.
Qed.

Lemma In_keys_get {V : Type} (d : Dict.t V) (k : string) :
  In k (Dict.keys d) -> exists v, Dict.get k d = Some v.
Proof.
  induction d as [| [k' v'] r IH]; simpl; [intros [] |].
  destruct (String.eqb_spec k k') as [-> | Hne]; [eauto |].
  intros [H | H]; [congruence | auto].
Qed.

Lemma wf_In_get {V : Type} (d : Dict.t V) (k : string) (v : V) :
  Dict.wf d -> In (k, v) d -> Dict.get k d = Some v.
Proof.
  unfold Dict.wf, Dict.keys.
  induction d as [| [k' v'] r IH]; simpl; [intros _ [] |].
  intros Hnd [H | H].
  - injection H as -> ->. now rewrite String.eqb_refl.
  - inversion Hnd as [| ? ? Hnotin Hnd']; subst.
    destruct (String.eqb_spec k k') as [-> | Hne]; [| auto].
    exfalso. apply Hnotin. now apply (in_map fst) in H.
Qed.

Lemma get_set_same {V : Type} (d : Dict.t V) (k : string) (v : V) :
  Dict.get k (Dict.set k v d) = Some v.
Proof.
  induction d as [| [k' v'] r IH]; simpl.
  - now rewrite String.eqb_refl.
  - destruct (String.eqb_spec k k') as [-> | Hne]; simpl.
    + now rewrite String.eqb_refl.
    + destruct (String.eqb_spec k k'); [contradiction | exact IH].
Qed.

Lemma get_set_other {V : Type} (d : Dict.t V) (k k' : string) (v : V) :
  k <> k' -> Dict.get k (Dict.set k' v d) = Dict.get k d.
Proof.
  intros Hne. induction d as [| [k0 v0] r IH]; simpl.
  - destruct (String.eqb_spec k k'); [contradiction | reflexivity].
  - destruct (String.eqb_spec k' k0) as [-> | Hne0]; simpl.
    + destruct (String.eqb_spec k k0); [contradiction | reflexivity].
    + destruct (String.eqb_spec k k0); [reflexivity | exact IH].
Qed.


(** On a non-empty dictionary the latest snapshot is there, under the
    greatest key. *)
Lemma latest_data_greatest (d : descriptive_data_t) :
  d <> [] ->
  exists k latest,
    latest_data d = Ok latest /\ Dict.get k d = Some latest
    /\ forall k', In k' (Dict.keys d) -> String.leb k' k = true.
Proof.
  intros Hne. destruct d as [| [k0 s0] r]; [contradiction |].
  unfold latest_data. cbn [Dict.keys map fst Py.max bind].
  set (k := Py.max_from k0 (map fst r)).
  assert (Hin : In k (Dict.keys ((k0, s0) :: r))) by apply max_from_In.
  destruct (In_keys_get _ _ Hin) as [latest Hget].
  exists k, latest. rewrite Hget. repeat split; auto.
  intros k' Hk'. now apply max_from_upper.
Qed.

(** The snapshot under a key that bounds the keys is the latest. *)
Lemma latest_data_of_greatest (d : descriptive_data_t) (k : string) (s : snapshot) :
  Dict.get k d = Some s ->
  (forall k', In k' (Dict.keys d) -> String.leb k' k = true) ->
  latest_data d = Ok s.
Proof.
  intros Hget Hle. destruct d as [| [k0 s0] r]; [discriminate |].
  unfold latest_data. cbn [Dict.keys map fst Py.max bind].
  rewrite (max_from_greatest (map fst r) k0 k).
  - now rewrite Hget.
  - exact (get_In_keys _ _ _ Hget).
  - exact Hle.
Qed.

(** ** Sums and comprehensions *)

Lemma fold_add_init (l : list Z) (a : Z) :
  fold_left Z.add l a = a + fold_left Z.add l 0.
Proof.
  revert a. induction l as [| x r IH]; intros a; simpl; [lia |].
  rewrite (IH (a + x)), (IH x). lia.
Qed.

Lemma sum_cons (a : Z) (l : list Z) : Py.sum (a :: l) = a + Py.sum l.
Proof. unfold Py.sum. simpl. apply fold_add_init. Qed.

Lemma sum_nil : Py.sum [] = 0.
Proof. reflexivity. Qed.

Lemma sum_app (l1 l2 : list Z) : Py.sum (l1 ++ l2) = Py.sum l1 + Py.sum l2.
Proof.
  induction l1 as [| a r IH]; [reflexivity |].
  rewrite <- app_comm_cons, !sum_cons, IH. lia.
Qed.

Lemma sum_zeros (l : list Z) : (forall x, In x l -> x = 0) -> Py.sum l = 0.
Proof.
  induction l as [| a r IH]; intros H; [reflexivity |].
  rewrite sum_cons, IH, (H a).
  - reflexivity.
  - now left.
  - intros x Hx. apply H. now right.
Qed.

Lemma sum_nonneg (l : list Z) :
  (forall x, In x l -> 0 <= x) -> 0 <= Py.sum l.
Proof.
  induction l as [| a r IH]; intros H; [rewrite sum_nil; lia |].
  rewrite sum_cons.
  assert (0 <= a) by (apply H; now left).
  assert (0 <= Py.sum r) by (apply IH; intros x Hx; apply H; now right).
  lia.
Qed.

Lemma mapM_Ok_length {A B : Type} (f : A -> result B) (l : list A) (ys : list B) :
  mapM f l = Ok ys -> length ys = length l.
Proof.
  revert ys. induction l as [| x r IH]; intros ys; simpl.
  - intros [= <-]. reflexivity.
  - destruct (f x) as [y | e]; simpl; [| discriminate].
    destruct (mapM f r) as [ys' | e]; simpl; [| discriminate].
    intros [= <-]. simpl. f_equal. now apply IH.
Qed.

Lemma mapM_Ok_nth {A B : Type} (f : A -> result B) (l : list A) (ys : list B) :
  mapM f l = Ok ys ->
  forall i x, nth_error l i = Some x ->
  exists y, nth_error ys i = Some y /\ f x = Ok y.
Proof.
  revert ys. induction l as [| a r IH]; intros ys; simpl.
  - intros _ [| i] x; discriminate.
  - destruct (f a) as [y | e] eqn:Ha; simpl; [| discriminate].
    destruct (mapM f r) as [ys' | e]; simpl; [| discriminate].
    intros [= <-] [| i] x; simpl.
    + intros [= <-]. eauto.
    + intros Hx. now apply (IH ys' eq_refl).
Qed.

Lemma mapM_total {A B : Type} (f : A -> result B) (l : list A) :
  (forall x, In x l -> exists y, f x = Ok y) -> exists ys, mapM f l = Ok ys.
Proof.
  induction l as [| a r IH]; intros H; simpl; [eauto |].
  destruct (H a (or_introl eq_refl)) as [y ->].
  destruct IH as [ys ->]; [intros; apply H; now right |].
  simpl. eauto.
Qed.

(** ** Empty input *)

(** C5, on the code as it is: with an empty [descriptive_data] the three
    summaries and the two chart builders return [None], while
    [generate_fair_data_availability], which has no such guard, raises
    [ValueError] from [max] of an empty sequence. *)
Theorem empty_descriptive_data_results (lib : library)
    (global_schema_data : global_schema) (tie : Z -> Z -> bool)
    (field_name text chart_type : string) :
  fetch_field_count [] field_name text = Ok None
  /\ fetch_number_of_keys [] text = Ok None
  /\ fetch_total_sample_size [] text = Ok None
  /\ generate_sample_size_horizontal_bar tie [] text = Ok None
  /\ generate_donut_chart [] text chart_type = Ok None
  /\ generate_fair_data_availability lib global_schema_data [] text = Raise ValueError.
Proof. repeat split. Qed.

(** ** Donut chart of an unknown type *)

(** C10: on a non-empty [descriptive_data], a [chart_type] other than
    "organisation" and "country" makes [generate_donut_chart] raise the
    unbound-local error, the locals [labels] and [sample_sizes] never being
    assigned. *)
Theorem donut_chart_unbound_local
    (descriptive_data : descriptive_data_t) (text chart_type : string) :
  descriptive_data <> [] ->
  chart_type <> "organisation" ->
  chart_type <> "country" ->
  generate_donut_chart descriptive_data text chart_type = Raise UnboundLocalError.
Proof.
  intros Hne Ho Hc.
  destruct (latest_data_greatest descriptive_data Hne) as (k & latest & Hl & _).
  unfold generate_donut_chart.
  destruct descriptive_data as [| entry rest]; [contradiction |].
  rewrite Hl. cbn [bind].
  apply String.eqb_neq in Ho, Hc. now rewrite Ho, Hc.
Qed.

Lemma donut_chart_unbound_local_witness :
  Examples.data_BA <> [] /\ "region" <> "organisation" /\ "region" <> "country"
  /\ generate_donut_chart Examples.data_BA "AYA" "region" = Raise UnboundLocalError.
Proof.
  split; [discriminate |]. split; [discriminate |]. split; [discriminate |].
  apply donut_chart_unbound_local; discriminate.
Defined.

(** ** Number of organisations *)

(** C7: on a non-empty [descriptive_data] the count that
    [fetch_number_of_keys] reports is the number of distinct organisation
    keys of the snapshot stored under the greatest timestamp key. *)
Theorem number_of_keys_counts_organisations
    (descriptive_data : descriptive_data_t) (text : string) :
  descriptive_data <> [] ->
  (forall k s, In (k, s) descriptive_data -> Dict.wf s) ->
  exists k latest,
    Dict.get k descriptive_data = Some latest
    /\ (forall k', In k' (Dict.keys descriptive_data) -> String.leb k' k = true)
    /\ let n := Z.of_nat (length (nodup string_dec (Dict.keys latest))) in
       fetch_number_of_keys descriptive_data text
       = Ok (Some [Text (Py.str_int n); Br;
                   Text (text ++ (if 1 <? n then "s" else ""))]).
Proof.
  intros Hne Hwf.
  destruct (latest_data_greatest descriptive_data Hne) as (k & latest & Hl & Hget & Hmax).
  exists k, latest. repeat split; auto.
  unfold fetch_number_of_keys.
  destruct descriptive_data as [| entry rest]; [contradiction |].
  rewrite Hl. cbn [bind].
  rewrite nodup_fixed_point by (apply (Hwf k), get_In, Hget).
  unfold Dict.keys. now rewrite length_map.
Qed.

Lemma number_of_keys_counts_organisations_witness :
  exists k latest,
    Dict.get k Examples.data_BA_history = Some latest
    /\ (forall k', In k' (Dict.keys Examples.data_BA_history) -> String.leb k' k = true)
    /\ let n := Z.of_nat (length (nodup string_dec (Dict.keys latest))) in
       fetch_number_of_keys Examples.data_BA_history "organisation"
       = Ok (Some [Text (Py.str_int n); Br;
                   Text ("organisation" ++ (if 1 <? n then "s" else ""))]).
Proof.
  apply number_of_keys_counts_organisations.
  - discriminate.
  - intros k s [H | [H | []]]; injection H as <- <-; unfold Dict.wf; simpl;
      repeat constructor; simpl; intuition discriminate.
Defined.

(** ** Division by the total sample size *)

(** C9 as it stands fails on a snapshot without organisations: every
    organisation of it has sample size 0, no quotient is taken and a figure
    is returned. *)
Lemma horizontal_bar_no_org_returns :
  ~ (forall (tie : Z -> Z -> bool) (descriptive_data : descriptive_data_t)
            (text : string) (latest : snapshot),
        descriptive_data <> [] ->
        latest_data descriptive_data = Ok latest ->
        (forall org r, In (org, r) latest -> sample_size r = 0) ->
        generate_sample_size_horizontal_bar tie descriptive_data text
        = Raise ZeroDivisionError).
Proof.
  intros H.
  specialize (H (fun _ _ => false) Examples.data_no_org "AYA" []).
  cbv in H. discriminate H.
  - discriminate.
  - reflexivity.
  - intros org r [].
Qed.

(** C9, amended: on a non-empty [descriptive_data] whose latest snapshot has
    at least one organisation and sample size 0 for every organisation,
    [generate_sample_size_horizontal_bar] raises the division-by-zero
    error. *)
Theorem horizontal_bar_zero_division
    (tie : Z -> Z -> bool) (descriptive_data : descriptive_data_t)
    (text : string) (latest : snapshot) :
  descriptive_data <> [] ->
  latest_data descriptive_data = Ok latest ->
  latest <> [] ->
  (forall org r, In (org, r) latest -> sample_size r = 0) ->
  generate_sample_size_horizontal_bar tie descriptive_data text
  = Raise ZeroDivisionError.
Proof.
  intros Hne Hl Hsome Hzero.
  unfold generate_sample_size_horizontal_bar.
  destruct descriptive_data as [| entry rest]; [contradiction |].
  rewrite Hl. cbn [bind].
  rewrite sum_zeros.
  - destruct latest as [| [org r] others]; [contradiction |].
    reflexivity.
  - intros x Hx. unfold Dict.values in Hx. rewrite map_map in Hx.
    apply in_map_iff in Hx. destruct Hx as ([org r] & <- & Hin).
    exact (Hzero org r Hin).
Qed.

Lemma horizontal_bar_zero_division_witness :
  generate_sample_size_horizontal_bar (fun _ _ => false) Examples.data_zero "AYA"
  = Raise ZeroDivisionError.
Proof.
  apply (horizontal_bar_zero_division _ _ _
           [("A", Examples.org 0 "BE" None)]).
  - discriminate.
  - reflexivity.
  - discriminate.
  - intros org r [H | []]. injection H as <- <-. reflexivity.
Defined.

(** ** Sorting keeps the items *)

Lemma insert_sorted_length {A : Type} (key : A -> string) (x : A) (l : list A) :
  length (Py.insert_sorted key x l) = S (length l).
Proof.
  induction l as [| y r IH]; simpl; [reflexivity |].
  destruct (String.ltb (key x) (key y)); simpl; congruence.
Qed.

Lemma insert_sorted_In {A : Type} (key : A -> string) (x y : A) (l : list A) :
  In y (Py.insert_sorted key x l) <-> y = x \/ In y l.
Proof.
  induction l as [| z r IH]; simpl; [intuition |].
  destruct (String.ltb (key x) (key z)); simpl; intuition.
Qed.

Lemma sorted_by_length {A : Type} (key : A -> string) (l : list A) :
  length (Py.sorted_by key l) = length l.
Proof.
  unfold Py.sorted_by.
  enough (H : forall acc,
             length (fold_left (fun acc x => Py.insert_sorted key x acc) l acc)
             = (length l + length acc)%nat)
    by (rewrite H; simpl; lia).
  induction l as [| x r IH]; intros acc; simpl; [reflexivity |].
  rewrite IH, insert_sorted_length. lia.
Qed.

Lemma sorted_by_In {A : Type} (key : A -> string) (y : A) (l : list A) :
  In y (Py.sorted_by key l) <-> In y l.
Proof.
  unfold Py.sorted_by.
  enough (H : forall acc,
             In y (fold_left (fun acc x => Py.insert_sorted key x acc) l acc)
             <-> In y l \/ In y acc)
    by (rewrite H; simpl; intuition).
  induction l as [| x r IH]; intros acc; simpl; [intuition |].
  rewrite IH, insert_sorted_In. intuition.
Qed.

Lemma sorted_In (y : string) (l : list string) : In y (Py.sorted l) <-> In y l.
Proof. apply sorted_by_In. Qed.

(** ** Proportions of the bar chart *)

(** A rounded proportion is within half a hundredth of the exact quotient:
    [|100 * size / total - p| <= 1/2], cleared of the division. *)
Lemma round_ndigits2_bound (tie : Z -> Z -> bool) (size total p : Z) :
  round_ndigits2 tie size total = Ok p ->
  total <> 0 /\ Z.abs (200 * size - 2 * p * total) <= Z.abs total.
Proof.
  unfold round_ndigits2.
  destruct (Z.eqb_spec total 0) as [| Hne]; [discriminate |].
  set (n := if total <? 0 then - (100 * size) else 100 * size).
  set (d := Z.abs total).
  assert (Hd : 0 < d) by (unfold d; lia).
  pose proof (Z.div_mod n d ltac:(lia)) as Hdiv.
  pose proof (Z.mod_pos_bound n d Hd) as Hmod.
  assert (Hn : n * total = 100 * size * d).
  { unfold n, d. destruct (Z.ltb_spec total 0); lia. }
  intros H. split; [exact Hne |].
  assert (Hp : Z.abs (2 * n - 2 * p * d) <= d).
  { destruct (Z.ltb_spec (2 * (n mod d)) d).
    - injection H as <-. lia.
    - destruct (Z.ltb_spec d (2 * (n mod d))).
      + injection H as <-. lia.
      + destruct (tie size total); injection H as <-; lia. }
  unfold n, d in *. destruct (Z.ltb_spec total 0); lia.
Qed.

Lemma round_ndigits2_total (tie : Z -> Z -> bool) (size total : Z) :
  total <> 0 -> exists p, round_ndigits2 tie size total = Ok p.
Proof.
  intros Hne. unfold round_ndigits2.
  destruct (Z.eqb_spec total 0); [contradiction |].
  repeat match goal with |- context [if ?b then _ else _] => destruct b end; eauto.
Qed.

Lemma proportions_bound (tie : Z -> Z -> bool) (total : Z) (sizes ps : list Z) :
  total <> 0 ->
  mapM (fun size => round_ndigits2 tie size total) sizes = Ok ps ->
  Z.abs (200 * Py.sum sizes - 2 * Py.sum ps * total)
  <= Z.of_nat (length sizes) * Z.abs total.
Proof.
  intros Hne. revert ps.
  induction sizes as [| s r IH]; intros ps; simpl mapM.
  - intros [= <-]. rewrite sum_nil. simpl. lia.
  - destruct (round_ndigits2 tie s total) as [p | e] eqn:Hp; [| discriminate].
    cbn [bind].
    destruct (mapM _ r) as [ps' | e]; [| discriminate]. cbn [bind].
    intros [= <-].
    apply round_ndigits2_bound in Hp. destruct Hp as [_ Hp].
    specialize (IH ps' eq_refl).
    rewrite !sum_cons.
    change (length (s :: r)) with (S (length r)). rewrite Nat2Z.inj_succ.
    lia.
Qed.

Lemma map_nth_seq (l : list Z) :
  map (fun i => nth i l 0) (seq 0 (length l)) = l.
Proof.
  induction l as [| a r IH]; simpl; [reflexivity |].
  f_equal. rewrite <- seq_shift, map_map. exact IH.
Qed.

Lemma map_fst_combine_seq {A : Type} (l : list A) (s : nat) :
  map fst (combine (seq s (length l)) l) = seq s (length l).
Proof.
  revert s. induction l as [| a r IH]; intros s; simpl; [reflexivity |].
  now rewrite IH.
Qed.

(** The bars carry the proportions in the order in which they were
    computed. *)
Lemma bars_x (proportions : list Z) (organisations : list string)
    (mk_bar : nat -> string -> bar) :
  (forall i org, bar_x (mk_bar i org) = [nth i proportions 0]) ->
  length organisations = length proportions ->
  flat_map bar_x (map (fun '(i, org) => mk_bar i org) (enumerate organisations))
  = proportions.
Proof.
  intros Hx Hlen.
  rewrite flat_map_concat_map, map_map.
  rewrite (map_ext _ (fun p => [nth (fst p) proportions 0]))
    by (intros [i org]; apply Hx).
  rewrite <- (map_map fst (fun i => [nth i proportions 0])).
  unfold enumerate. rewrite map_fst_combine_seq, Hlen.
  rewrite <- (map_map (fun i => nth i proportions 0) (fun x => [x])).
  rewrite map_nth_seq.
  induction proportions as [| a r IH] in |- *; simpl; [reflexivity |].
  now rewrite IH.
Qed.

(** C6 as it stands fails where the total sample size is 0: the division
    raises and no proportion is computed. *)
Lemma proportions_undefined_on_zero_total :
  ~ (forall (tie : Z -> Z -> bool) (descriptive_data : descriptive_data_t)
            (text : string),
        descriptive_data <> [] ->
        exists fig,
          generate_sample_size_horizontal_bar tie descriptive_data text
          = Ok (Some fig)
          /\ 2 * Z.abs (Py.sum (flat_map bar_x (bar_data fig)) - 100)
             <= Z.of_nat (length (flat_map bar_x (bar_data fig)))).
Proof.
  intros H.
  destruct (H (fun _ _ => false) Examples.data_zero "AYA") as (fig & Hfig & _).
  - discriminate.
  - discriminate Hfig.
Qed.

(** C6, amended: on a non-empty [descriptive_data] whose latest snapshot has
    a total sample size other than 0, the bar chart is produced with one
    proportion per organisation, and the sum of the proportions differs from
    1 by at most half a hundredth per organisation (the proportions are in
    hundredths, so 1 is 100). *)
Theorem proportions_sum_to_one
    (tie : Z -> Z -> bool) (descriptive_data : descriptive_data_t)
    (text : string) (latest : snapshot) :
  descriptive_data <> [] ->
  latest_data descriptive_data = Ok latest ->
  Py.sum (map sample_size (Dict.values latest)) <> 0 ->
  exists fig,
    generate_sample_size_horizontal_bar tie descriptive_data text = Ok (Some fig)
    /\ let proportions := flat_map bar_x (bar_data fig) in
       length proportions = length latest
       /\ 2 * Z.abs (Py.sum proportions - 100) <= Z.of_nat (length proportions).
Proof.
  intros Hne Hl Htotal.
  unfold generate_sample_size_horizontal_bar.
  destruct descriptive_data as [| entry rest]; [contradiction |].
  rewrite Hl. cbn [bind].
  set (sizes := map sample_size (Dict.values latest)) in *.
  set (total := Py.sum sizes) in *.
  destruct (mapM_total (fun size => round_ndigits2 tie size total) sizes)
    as [ps Hps].
  { intros x _. now apply round_ndigits2_total. }
  rewrite Hps. cbn [bind].
  eexists. split; [reflexivity |].
  cbn [bar_data].
  assert (Hlen : length ps = length latest).
  { rewrite (mapM_Ok_length _ _ _ Hps). unfold sizes, Dict.values.
    now rewrite !length_map. }
  rewrite (bars_x ps).
  - split; [exact Hlen |].
    pose proof (proportions_bound tie total sizes ps Htotal Hps) as Hb.
    fold total in Hb.
    rewrite (mapM_Ok_length _ _ _ Hps).
    assert (Z.abs total * (2 * Z.abs (Py.sum ps - 100))
            <= Z.abs total * Z.of_nat (length sizes)) by lia.
    apply Zmult_le_reg_r with (Z.abs total); lia.
  - reflexivity.
  - unfold Py.sorted. rewrite sorted_by_length. unfold Dict.keys.
    now rewrite length_map, Hlen.
Qed.

Lemma proportions_sum_to_one_witness :
  exists fig,
    generate_sample_size_horizontal_bar (fun _ _ => false)
      Examples.data_BA_history "AYA" = Ok (Some fig)
    /\ let proportions := flat_map bar_x (bar_data fig) in
       length proportions = length Examples.snapshot_BA
       /\ 2 * Z.abs (Py.sum proportions - 100) <= Z.of_nat (length proportions).
Proof.
  apply proportions_sum_to_one.
  - discriminate.
  - reflexivity.
  - vm_compute. discriminate.
Defined.

(** ** Labels and values of the charts *)

(** C3, on the code as it is: the organisation labels are sorted while the
    sample sizes and proportions stay in the order of the snapshot.  With
    organisation B (1 patient) stored before organisation A (3 patients),
    the bar and the slice labelled A carry B's sample size and proportion. *)
Theorem charts_pair_sorted_labels_with_unsorted_values (tie : Z -> Z -> bool) :
  latest_data Examples.data_BA = Ok Examples.snapshot_BA
  /\ option_map sample_size (Dict.get "A" Examples.snapshot_BA) = Some 3
  /\ option_map sample_size (Dict.get "B" Examples.snapshot_BA) = Some 1
  /\ (exists fig,
        generate_sample_size_horizontal_bar tie Examples.data_BA "AYA"
        = Ok (Some fig)
        /\ map (fun b => (bar_name b, bar_x b, bar_hovertemplate b)) (bar_data fig)
           = [("A", [25],
               "A has made data of 1 AYA available, which is 25.00% of all available AYA data.");
              ("B", [75],
               "B has made data of 3 AYAs available, which is 75.00% of all available AYA data.")])
  /\ (exists fig,
        generate_donut_chart Examples.data_BA "AYA" "organisation" = Ok (Some fig)
        /\ donut_labels fig = ["A"; "B"] /\ donut_values fig = [1; 3]).
Proof.
  split; [reflexivity |]. split; [reflexivity |]. split; [reflexivity |].
  split; eexists; (split; [reflexivity |]); try split; reflexivity.
Qed.

(** ** Rows of the availability table *)

Lemma In_set {V : Type} (d : Dict.t V) (k k' : string) (v v' : V) :
  In (k, v) (Dict.set k' v' d) -> (k = k' /\ v = v') \/ In (k, v) d.
Proof.
  induction d as [| [k0 v0] r IH]; simpl.
  - intros [[= <- <-] | []]. now left.
  - destruct (String.eqb_spec k' k0) as [-> | Hne]; simpl.
    + intros [[= <- <-] | H]; auto.
    + intros [H | H]; auto. destruct (IH H); auto.
Qed.

Lemma set_fresh {V : Type} (d : Dict.t V) (k : string) (v : V) :
  ~ In k (Dict.keys d) -> Dict.set k v d = (d ++ [(k, v)])%list.
Proof.
  induction d as [| [k0 v0] r IH]; simpl; [reflexivity |].
  intros Hnotin.
  destruct (String.eqb_spec k k0) as [-> | Hne]; [tauto |].
  rewrite IH; tauto.
Qed.

Section OrgVariableInfo.

Variable latest : snapshot.
Variable c : string.

Let step (acc : Dict.t (list local_variable_info)) (organisation : string) :=
  Dict.set organisation (org_infos latest c organisation) acc.

Lemma build_entries (organizations : list string) (o : string)
    (info_list : list local_variable_info) :
  In (o, info_list) (build_org_variable_info latest c organizations) ->
  info_list = org_infos latest c o.
Proof.
  unfold build_org_variable_info. fold step.
  enough (H : forall acc,
             (forall il, In (o, il) acc -> il = org_infos latest c o) ->
             In (o, info_list) (fold_left step organizations acc) ->
             info_list = org_infos latest c o)
    by (apply H; intros il []).
  induction organizations as [| x r IH]; intros acc Hacc; simpl; [apply Hacc |].
  apply IH. intros il Hil. unfold step in Hil.
  apply In_set in Hil. destruct Hil as [[-> ->] | Hil]; auto.
Qed.

Lemma build_keys (organizations : list string) (o : string) :
  In o organizations ->
  In o (Dict.keys (build_org_variable_info latest c organizations)).
Proof.
  unfold build_org_variable_info. fold step.
  enough (H : forall acc,
             In o organizations \/ In o (Dict.keys acc) ->
             In o (Dict.keys (fold_left step organizations acc)))
    by (intros Hin; apply H; now left).
  induction organizations as [| x r IH]; intros acc; simpl.
  - intros [[] | H]; exact H.
  - intros [[-> | H] | H]; apply IH; auto; right; unfold step.
    + apply (get_In_keys _ _ (org_infos latest c o)), get_set_same.
    + destruct (In_keys_get _ _ H) as [v Hv].
      destruct (string_dec o x) as [-> | Hne].
      * apply (get_In_keys _ _ (org_infos latest c x)), get_set_same.
      * apply (get_In_keys _ _ v). now rewrite get_set_other.
Qed.

(** Over distinct organisations the dictionary is the list of their
    entries. *)
Lemma build_distinct (organizations : list string) :
  NoDup organizations ->
  build_org_variable_info latest c organizations
  = map (fun o => (o, org_infos latest c o)) organizations.
Proof.
  unfold build_org_variable_info. fold step.
  enough (H : forall acc,
             NoDup (Dict.keys acc ++ organizations)%list ->
             fold_left step organizations acc
             = (acc ++ map (fun o => (o, org_infos latest c o)) organizations)%list)
    by (intros Hnd; apply (H []); exact Hnd).
  induction organizations as [| x r IH]; intros acc Hnd; simpl.
  - now rewrite app_nil_r.
  - unfold step at 2. rewrite set_fresh.
    + rewrite IH.
      * now rewrite <- app_assoc.
      * unfold Dict.keys in *. rewrite map_app, <- app_assoc. exact Hnd.
    + intros Hin. apply NoDup_remove_2 in Hnd. apply Hnd.
      apply in_or_app. now left.
Qed.

End OrgVariableInfo.

Section Cells.

Variables c s : string.
Variable count : local_variable_info -> Z.
Variable hit : string -> Z -> string.
Variable miss : string -> string.

Lemma scan_get_same (organisation : string)
    (info_list : list local_variable_info) (st : row * tooltip_row_t) :
  Dict.get organisation (fst st) = Some (CInt 0) ->
  Dict.get organisation
    (fst (scan_info_list c s count (hit organisation) (miss organisation)
            organisation info_list st))
  = Some (CInt (first_count c s count info_list)).
Proof.
  revert st. unfold first_count.
  induction info_list as [| info rest IH]; intros st Hst; simpl; [exact Hst |].
  destruct (matches c s info); simpl.
  - apply get_set_same.
  - apply IH. simpl. apply get_set_same.
Qed.

Lemma scan_get_other (organisation k : string)
    (info_list : list local_variable_info) (st : row * tooltip_row_t) :
  k <> organisation ->
  Dict.get k
    (fst (scan_info_list c s count (hit organisation) (miss organisation)
            organisation info_list st))
  = Dict.get k (fst st).
Proof.
  intros Hne. revert st.
  induction info_list as [| info rest IH]; intros st; simpl; [reflexivity |].
  destruct (matches c s info); simpl.
  - now apply get_set_other.
  - rewrite IH. simpl. now apply get_set_other.
Qed.

(** One turn of the loop over the organisations. *)
Let turn (st : row * tooltip_row_t)
    (entry : string * list local_variable_info) : row * tooltip_row_t :=
  let '(organisation, info_list) := entry in
  match info_list with
  | [] =>
      (Dict.set organisation (CInt 0) (fst st),
       Dict.set organisation (miss organisation) (snd st))
  | _ :: _ =>
      scan_info_list c s count (hit organisation) (miss organisation)
        organisation info_list st
  end.

Lemma turn_get_same (o : string) (il : list local_variable_info)
    (st : row * tooltip_row_t) :
  Dict.get o (fst (turn st (o, il))) = Some (CInt (first_count c s count il)).
Proof.
  destruct il as [| info rest]; simpl; [apply get_set_same |].
  unfold first_count. simpl.
  destruct (matches c s info); simpl; [apply get_set_same |].
  apply (scan_get_same o rest). simpl. apply get_set_same.
Qed.

Lemma turn_get_other (o k : string) (il : list local_variable_info)
    (st : row * tooltip_row_t) :
  k <> o -> Dict.get k (fst (turn st (o, il))) = Dict.get k (fst st).
Proof.
  intros Hne. destruct il as [| info rest]; cbn [turn].
  - simpl. now apply get_set_other.
  - now apply scan_get_other.
Qed.


Lemma fill_cells_fold (entries : Dict.t (list local_variable_info))
    (st : row * tooltip_row_t) :
  fill_cells c s count hit miss entries st = fold_left turn entries st.
Proof.
  unfold fill_cells. revert st.
  induction entries as [| [o il] r IH]; intros st; simpl; [reflexivity |].
  apply IH.
Qed.

(** A key that is no organisation keeps its cell. *)
Lemma fill_cells_get_other (entries : Dict.t (list local_variable_info))
    (k : string) (st : row * tooltip_row_t) :
  ~ In k (Dict.keys entries) ->
  Dict.get k (fst (fill_cells c s count hit miss entries st))
  = Dict.get k (fst st).
Proof.
  rewrite fill_cells_fold. revert st.
  induction entries as [| [o il] r IH]; intros st Hk; cbn [fold_left];
    [reflexivity |].
  simpl in Hk. rewrite IH by tauto.
  apply turn_get_other. intros ->. tauto.
Qed.

(** The cell of an organisation shows the count of its first matching
    entry. *)
Lemma fill_cells_get_org (entries : Dict.t (list local_variable_info))
    (o : string) (v : Z) (st : row * tooltip_row_t) :
  (forall il, In (o, il) entries -> first_count c s count il = v) ->
  In o (Dict.keys entries) ->
  Dict.get o (fst (fill_cells c s count hit miss entries st))
  = Some (CInt v).
Proof.
  rewrite fill_cells_fold. intros Hv.
  enough (H : forall st',
             In o (Dict.keys entries) \/ Dict.get o (fst st') = Some (CInt v) ->
             Dict.get o (fst (fold_left turn entries st')) = Some (CInt v))
    by (intros Hin; apply H; now left).
  induction entries as [| [o' il] r IH]; intros st'; cbn [fold_left].
  - intros [[] | H]; exact H.
  - intros H. apply IH.
    + intros il' Hil'. apply Hv. now right.
    + destruct (string_dec o o') as [<- | Hne].
      * right. rewrite turn_get_same. f_equal. f_equal. apply Hv. now left.
      * destruct H as [[H | H] | H]; [simpl in H; congruence | now left |].
        right. now rewrite turn_get_other.
Qed.


(** The total adds up every matching entry of every organisation. *)
Lemma total_count_sum (entries : Dict.t (list local_variable_info)) :
  total_count count c s entries
  = Py.sum (map (fun il => Py.sum (map count (filter (matches c s) il)))
                (Dict.values entries)).
Proof.
  unfold total_count.
  assert (Hin : forall il t,
             fold_left (fun total info =>
                          if matches c s info then total + count info else total)
                       il t
             = t + Py.sum (map count (filter (matches c s) il))).
  { induction il as [| i l IH]; intros t; cbn [fold_left filter map];
      [rewrite sum_nil; lia |].
    rewrite IH. destruct (matches c s i); cbn [map]; [rewrite sum_cons |]; lia. }
  enough (H : forall t,
             fold_left (fun total info_list =>
                          fold_left (fun total info =>
                                       if matches c s info
                                       then total + count info else total)
                                    info_list total)
                       (Dict.values entries) t
             = t + Py.sum (map (fun il => Py.sum (map count (filter (matches c s) il)))
                               (Dict.values entries)))
    by (rewrite H; lia).
  induction (Dict.values entries) as [| il l IH]; intros t;
    cbn [fold_left map]; [rewrite sum_nil; lia |].
  rewrite IH, Hin, sum_cons. lia.
Qed.

(** Among entries told apart by class and sub-class at most one matches,
    so the matching counts add up to the first. *)
Lemma matching_sum_first (il : list local_variable_info) :
  NoDup (map class_pair il) ->
  Py.sum (map count (filter (matches c s) il)) = first_count c s count il.
Proof.
  assert (Hkey : forall i, matches c s i = true -> class_pair i = (Some c, Some s)).
  { intros i. unfold matches, class_pair, opt_string_eqb.
    destruct (main_class i) as [m |], (sub_class i) as [u |];
      simpl; try discriminate.
    - destruct (String.eqb_spec m c), (String.eqb_spec u s);
        simpl; try discriminate. now subst.
    - rewrite andb_false_r. discriminate. }
  unfold first_count.
  induction il as [| i l IH]; intros Hnd; cbn [filter find map];
    [reflexivity |].
  inversion Hnd as [| ? ? Hnotin Hnd']; subst.
  destruct (matches c s i) eqn:Hi; cbn [map].
  - rewrite sum_cons.
    enough (Hnone : filter (matches c s) l = []) by (rewrite Hnone; cbn [map]; rewrite sum_nil; lia).
    destruct (filter (matches c s) l) as [| j l'] eqn:Hf; [reflexivity |].
    exfalso. apply Hnotin.
    assert (Hj : In j (filter (matches c s) l)) by (rewrite Hf; now left).
    apply filter_In in Hj. destruct Hj as [Hjl Hjm].
    rewrite (Hkey i Hi), <- (Hkey j Hjm). now apply in_map.
  - now apply IH.
Qed.

End Cells.

Lemma get_total_of_row0 (text : string) (variables values total : cell) :
  Dict.get (total_column text)
    [("Variables", variables); ("Values", values); (total_column text, total)]
  = Some total.
Proof.
  unfold total_column. cbn [Dict.get].
  change (String.eqb ("Total " ++ text ++ "s") "Variables") with false.
  change (String.eqb ("Total " ++ text ++ "s") "Values") with false.
  now rewrite String.eqb_refl.
Qed.

Lemma rows_of_variable_shape {lib : library} (text : string) (latest : snapshot)
    (variable : string) (info : variable_schema) (rt : row * tooltip_row_t) :
  In rt (rows_of_variable lib text latest (Dict.keys latest) variable info) ->
  table_row text latest (fst rt).
Proof.
  unfold rows_of_variable. intros [<- | Hin].
  - unfold variable_rows.
    exact (table_row_intro text latest (class info) (class info)
             get_main_class_count _ _ _ _ _ eq_refl).
  - apply in_map_iff in Hin. destruct Hin as ([value value_info] & <- & _).
    unfold value_rows.
    exact (table_row_intro text latest (class info) (target_class value_info)
             get_sub_class_count _ _ _ _ _ eq_refl).
Qed.

(** Every row of the table that [generate_fair_data_availability] returns
    has the shape [table_row] over the snapshot it selected. *)
Lemma generate_rows_shape {lib : library} (global_schema_data : global_schema)
    (descriptive_data : descriptive_data_t) (text ts : string)
    (latest : snapshot) (df : data_frame) (table : data_table) :
  most_recent_timestamp lib descriptive_data = Ok ts ->
  Dict.get ts descriptive_data = Some latest ->
  generate_fair_data_availability lib global_schema_data descriptive_data text
  = Ok (df, table) ->
  forall r, In r (df_records df) -> table_row text latest r.
Proof.
  intros Hts Hget. unfold generate_fair_data_availability.
  rewrite Hts. cbn [bind]. rewrite Hget. cbn [bind].
  destruct (create_data_table _ _) as [t | e]; cbn [bind]; [| discriminate].
  intros [= <- _] r. cbn [DataFrame df_records].
  intros Hr. apply in_map_iff in Hr. destruct Hr as (rt & <- & Hrt).
  apply in_flat_map in Hrt. destruct Hrt as (variable & _ & Hrt).
  destruct (Dict.get variable _) as [info |]; [| destruct Hrt].
  now apply rows_of_variable_shape in Hrt.
Qed.


(** ** Organisations without ['variable_info'] *)




(** ** Total column of the availability table *)

(** Dropping entries keeps the remaining ones told apart. *)
Lemma filter_keeps_distinct_pairs (keep : local_variable_info -> bool)
    (infos : list local_variable_info) :
  NoDup (map class_pair infos) -> NoDup (map class_pair (filter keep infos)).
Proof.
  intros Hdistinct.
  induction infos as [| info rest IH]; cbn [filter map] in *; [constructor |].
  apply NoDup_cons_iff in Hdistinct. destruct Hdistinct as [Hfresh Hrest].
  destruct (keep info); cbn [map]; [| now apply IH].
  apply NoDup_cons_iff. split; [| now apply IH].
  intros Hin. apply Hfresh.
  apply in_map_iff in Hin. destruct Hin as (other & Hpair & Hother).
  apply filter_In in Hother. rewrite <- Hpair. apply in_map. tauto.
Qed.

Lemma Forall2_map_right {A B : Type} (R : A -> B -> Prop) (f : A -> B) (l : list A) :
  (forall x, In x l -> R x (f x)) -> Forall2 R l (map f l).
Proof.
  induction l as [| a r IH]; intros H; simpl; constructor.
  - apply H. now left.
  - apply IH. intros x Hx. apply H. now right.
Qed.

(** The entries kept for an organisation are told apart by class and
    sub-class when its ['variable_info'] is. *)
Lemma org_infos_distinct (latest : snapshot) (c o : string) :
  (forall org data l,
      In (org, data) latest -> variable_info data = Some l ->
      NoDup (map class_pair l)) ->
  NoDup (map class_pair (org_infos latest c o)).
Proof.
  intros Hnd. unfold org_infos.
  destruct (Dict.get o latest) as [data |] eqn:Hget.
  - destruct (variable_info data) as [l |] eqn:Hvi.
    + apply filter_keeps_distinct_pairs. exact (Hnd o data l (get_In _ _ _ Hget) Hvi).
    + simpl. repeat constructor. intros [].
  - simpl. repeat constructor. intros [].
Qed.

(** C1 as it stands fails when an organisation lists a class twice: the
    total adds both counts, the organisation's cell shows the first. *)
Lemma total_differs_from_sum_of_cells :
  ~ (forall (global_schema_data : global_schema)
            (descriptive_data : descriptive_data_t) (text ts : string)
            (latest : snapshot) (df : data_frame) (table : data_table),
        most_recent_timestamp ascii_library descriptive_data = Ok ts ->
        Dict.get ts descriptive_data = Some latest ->
        Dict.wf latest ->
        generate_fair_data_availability ascii_library global_schema_data descriptive_data text
        = Ok (df, table) ->
        forall r, In r (df_records df) ->
        exists cells,
          Forall2 (fun org n => Dict.get org r = Some (CInt n))
                  (Dict.keys latest) cells
          /\ Dict.get (total_column text) r = Some (CInt (Py.sum cells))).
Proof.
  intros H.
  destruct (generate_fair_data_availability ascii_library Examples.schema
              Examples.data_repeated "AYA") as [[df table] | e] eqn:Hgen;
    [| vm_compute in Hgen; discriminate].
  pose proof Hgen as Hdf. vm_compute in Hdf. injection Hdf as Hdf _.
  edestruct (H Examples.schema Examples.data_repeated "AYA"
               "2024-01-01T00:00:00" _ df table eq_refl eq_refl)
    as (cells & Hcells & Htotal).
  - unfold Dict.wf. simpl. repeat constructor. intros [].
  - exact Hgen.
  - rewrite <- Hdf. cbn [df_records]. do 3 right. left. reflexivity.
  - vm_compute in Hcells. vm_compute in Htotal.
    inversion Hcells as [| ? n ? rest Hn Hrest]; subst.
    inversion Hrest; subst.
    injection Hn as <-. vm_compute in Htotal. discriminate Htotal.
Qed.

(** C1, amended: when no organisation of the selected snapshot lists a
    class and sub-class twice and none is named like the total column, then
    in every row of the table the total column is the sum of the cells of
    the organisations. *)
Theorem total_is_sum_of_organisation_cells (lib : library)
    (global_schema_data : global_schema) (descriptive_data : descriptive_data_t)
    (text ts : string) (latest : snapshot) (df : data_frame) (table : data_table) :
  most_recent_timestamp lib descriptive_data = Ok ts ->
  Dict.get ts descriptive_data = Some latest ->
  Dict.wf latest ->
  ~ In (total_column text) (Dict.keys latest) ->
  (forall org data l,
      In (org, data) latest -> variable_info data = Some l ->
      NoDup (map class_pair l)) ->
  generate_fair_data_availability lib global_schema_data descriptive_data text
  = Ok (df, table) ->
  forall r, In r (df_records df) ->
  exists cells,
    Forall2 (fun org n => Dict.get org r = Some (CInt n)) (Dict.keys latest) cells
    /\ Dict.get (total_column text) r = Some (CInt (Py.sum cells)).
Proof.
  intros Hts Hget Hwf Hname Hpairs Hgen r Hr.
  pose proof (generate_rows_shape _ _ _ _ _ _ _ Hts Hget Hgen r Hr) as Hshape.
  destruct Hshape as [c s count hit miss v1 v2 tt0 Hcount ovi].
  assert (Hovi : ovi = map (fun o => (o, org_infos latest c o)) (Dict.keys latest))
    by (apply build_distinct; exact Hwf).
  exists (map (fun o => first_count c s count (org_infos latest c o))
              (Dict.keys latest)).
  split.
  - apply Forall2_map_right. intros o Ho.
    apply fill_cells_get_org.
    + intros il Hil. unfold ovi in Hil. apply build_entries in Hil. now subst il.
    + now apply build_keys.
  - rewrite fill_cells_get_other.
    + cbn [fst]. rewrite get_total_of_row0. do 2 f_equal.
      rewrite total_count_sum, Hovi. unfold Dict.values.
      rewrite !map_map. cbn [snd]. f_equal.
      apply map_ext. intros o.
      apply matching_sum_first, org_infos_distinct, Hpairs.
    + rewrite Hovi. unfold Dict.keys at 1. rewrite map_map. cbn [fst].
      now rewrite map_id.
Qed.

Lemma total_is_sum_of_organisation_cells_witness :
  exists df table,
    generate_fair_data_availability ascii_library Examples.schema Examples.data_BA "AYA"
    = Ok (df, table)
    /\ forall r, In r (df_records df) ->
       exists cells,
         Forall2 (fun org n => Dict.get org r = Some (CInt n))
                 (Dict.keys Examples.snapshot_BA) cells
         /\ Dict.get (total_column "AYA") r = Some (CInt (Py.sum cells)).
Proof.
  destruct (generate_fair_data_availability ascii_library Examples.schema Examples.data_BA "AYA")
    as [[df table] | e] eqn:Hgen; [| vm_compute in Hgen; discriminate].
  exists df, table. split; [reflexivity |].
  apply (total_is_sum_of_organisation_cells ascii_library Examples.schema
           Examples.data_BA "AYA" "2024-01-01T00:00:00" Examples.snapshot_BA
           df table).
  - reflexivity.
  - reflexivity.
  - unfold Dict.wf. simpl. repeat constructor; simpl; intuition discriminate.
  - simpl. intuition discriminate.
  - intros org data l [H | [H | []]]; injection H as <- <-; simpl;
      [discriminate |].
    intros [= <-]. vm_compute.
    repeat constructor; simpl; intuition discriminate.
  - exact Hgen.
Defined.

(** ** Which snapshot the operations read *)

Lemma gt_defined (t a b : Datetime.t) :
  (Datetime.utcoffset a = None <-> Datetime.utcoffset t = None) ->
  (Datetime.utcoffset b = None <-> Datetime.utcoffset t = None) ->
  exists r, Datetime.gt a b = Ok r.
Proof.
  unfold Datetime.gt. intros [Ha1 Ha2] [Hb1 Hb2].
  destruct (Datetime.utcoffset a), (Datetime.utcoffset b); eauto.
  - destruct (Datetime.utcoffset t); [specialize (Hb1 eq_refl) |
                                      specialize (Ha2 eq_refl)]; discriminate.
  - destruct (Datetime.utcoffset t); [specialize (Ha1 eq_refl) |
                                      specialize (Hb2 eq_refl)]; discriminate.
Qed.

(** When the key [k] is the latest in time, the maximum by datetime is [k]. *)
Lemma most_recent_of_latest_in_time {lib : library} (k : string) (d : descriptive_data_t) :
  In k (Dict.keys d) -> latest_in_time lib k d -> most_recent_timestamp lib d = Ok k.
Proof.
  intros Hk (t & Ht & Hall). unfold most_recent_timestamp.
  assert (Hfrom : forall l cur kcur,
             (forall x, In x l -> In x (Dict.keys d)) ->
             datetime_fromisoformat lib cur = Ok kcur ->
             (Datetime.utcoffset kcur = None <-> Datetime.utcoffset t = None) ->
             cur = k \/ (In k l /\ Datetime.gt t kcur = Ok true) ->
             Py.max_key_from (datetime_fromisoformat lib) Datetime.gt cur kcur l = Ok k).
  { induction l as [| x r IH]; intros cur kcur Hsub Hcur Haware Hinv;
      cbn [Py.max_key_from].
    - destruct Hinv as [-> | [[] _]]. reflexivity.
    - destruct (Hall x (Hsub x (or_introl eq_refl)))
        as (t' & Hx & Hxaware & Hxle & Hxlt).
      rewrite Hx. cbn [bind].
      assert (Hr : forall y, In y r -> In y (Dict.keys d))
        by (intros y Hy; apply Hsub; now right).
      destruct Hinv as [-> | [Hin Hgt]].
      + assert (kcur = t) by congruence. subst kcur.
        rewrite Hxle. cbn [bind]. apply IH; auto.
      + destruct (gt_defined t t' kcur Hxaware Haware) as [b Hb].
        rewrite Hb. cbn [bind].
        destruct (string_dec x k) as [-> | Hne].
        * assert (t' = t) by congruence. subst t'.
          assert (b = true) by congruence. subst b.
          apply IH; auto.
        * destruct Hin as [Hin | Hin]; [contradiction |].
          destruct b; apply IH; auto. }
  unfold Py.max_key.
  destruct (Dict.keys d) as [| x r] eqn:Hkeys; [destruct Hk |].
  destruct (Hall x (or_introl eq_refl)) as (t' & Hx & Hxaware & _ & Hxlt).
  rewrite Hx. cbn [bind].
  apply Hfrom; auto.
  - intros y Hy. now right.
  - destruct (string_dec x k) as [-> | Hne]; [now left |].
    right. destruct Hk as [Hk | Hk]; [contradiction | auto].
Qed.

(** C4 as it stands fails for [generate_fair_data_availability], which takes
    the key that is greatest as a datetime: an entry with a smaller key and a
    later instant is selected in place of the snapshot under the greatest
    key. *)
Lemma availability_reads_later_instant :
  ~ (forall (global_schema_data : global_schema) (d1 d2 : descriptive_data_t)
            (k text : string) (latest : snapshot),
        latest_is k latest d1 -> latest_is k latest d2 ->
        generate_fair_data_availability ascii_library global_schema_data d1 text
        = generate_fair_data_availability ascii_library global_schema_data d2 text).
Proof.
  intros H.
  specialize (H Examples.schema Examples.data_utc Examples.data_offsets
                "2024-01-01T12:00:00+00:00" "AYA" Examples.snapshot_BA).
  assert (Heq : generate_fair_data_availability ascii_library Examples.schema
                  Examples.data_utc "AYA"
                = generate_fair_data_availability ascii_library Examples.schema
                    Examples.data_offsets "AYA").
  { apply H; (split; [reflexivity |]).
    - intros k' [<- | []]. reflexivity.
    - intros k' [<- | [<- | []]]; reflexivity. }
  vm_compute in Heq. discriminate Heq.
Qed.

(** C4, amended: two inputs that agree on their latest snapshot, the one
    under the greatest key, give equal outputs in the three summaries and
    the two chart builders; they give equal outputs in
    [generate_fair_data_availability] when in both that key is also the
    latest in time. *)
Theorem operations_read_latest_snapshot (lib : library)
    (global_schema_data : global_schema) (tie : Z -> Z -> bool)
    (d1 d2 : descriptive_data_t) (k : string) (latest : snapshot)
    (field_name text chart_type : string) :
  latest_is k latest d1 ->
  latest_is k latest d2 ->
  fetch_field_count d1 field_name text = fetch_field_count d2 field_name text
  /\ fetch_number_of_keys d1 text = fetch_number_of_keys d2 text
  /\ fetch_total_sample_size d1 text = fetch_total_sample_size d2 text
  /\ generate_sample_size_horizontal_bar tie d1 text
     = generate_sample_size_horizontal_bar tie d2 text
  /\ generate_donut_chart d1 text chart_type = generate_donut_chart d2 text chart_type
  /\ (latest_in_time lib k d1 -> latest_in_time lib k d2 ->
      generate_fair_data_availability lib global_schema_data d1 text
      = generate_fair_data_availability lib global_schema_data d2 text).
Proof.
  intros [Hget1 Hmax1] [Hget2 Hmax2].
  pose proof (latest_data_of_greatest d1 k latest Hget1 Hmax1) as Hl1.
  pose proof (latest_data_of_greatest d2 k latest Hget2 Hmax2) as Hl2.
  assert (Hfair : latest_in_time lib k d1 -> latest_in_time lib k d2 ->
                  generate_fair_data_availability lib global_schema_data d1 text
                  = generate_fair_data_availability lib global_schema_data d2 text).
  { intros Ht1 Ht2. unfold generate_fair_data_availability.
    rewrite (most_recent_of_latest_in_time k d1 (get_In_keys _ _ _ Hget1) Ht1).
    rewrite (most_recent_of_latest_in_time k d2 (get_In_keys _ _ _ Hget2) Ht2).
    cbn [bind]. now rewrite Hget1, Hget2. }
  unfold fetch_field_count, fetch_number_of_keys, fetch_total_sample_size,
    generate_sample_size_horizontal_bar, generate_donut_chart.
  destruct d1 as [| e1 r1]; [discriminate |].
  destruct d2 as [| e2 r2]; [discriminate |].
  rewrite Hl1, Hl2. repeat split; auto.
Qed.

Lemma operations_read_latest_snapshot_witness :
  fetch_field_count Examples.data_BA "country" "AYA"
  = fetch_field_count Examples.data_BA_history "country" "AYA"
  /\ fetch_number_of_keys Examples.data_BA "AYA"
     = fetch_number_of_keys Examples.data_BA_history "AYA"
  /\ fetch_total_sample_size Examples.data_BA "AYA"
     = fetch_total_sample_size Examples.data_BA_history "AYA"
  /\ generate_sample_size_horizontal_bar (fun _ _ => false) Examples.data_BA "AYA"
     = generate_sample_size_horizontal_bar (fun _ _ => false)
         Examples.data_BA_history "AYA"
  /\ generate_donut_chart Examples.data_BA "AYA" "country"
     = generate_donut_chart Examples.data_BA_history "AYA" "country"
  /\ generate_fair_data_availability ascii_library Examples.schema
       Examples.data_BA "AYA"
     = generate_fair_data_availability ascii_library Examples.schema
         Examples.data_BA_history "AYA".
Proof.
  assert (Htime : forall d,
             (forall k', In k' (Dict.keys d) ->
                         k' = "2023-06-01T00:00:00" \/ k' = "2024-01-01T00:00:00") ->
             latest_in_time ascii_library "2024-01-01T00:00:00" d).
  { intros d Hd. eexists. split; [reflexivity |].
    intros k' Hk'. destruct (Hd k' Hk') as [-> | ->]; eexists;
      (split; [reflexivity |]); (split; [split; reflexivity |]);
      (split; [reflexivity |]); intros Hne; [reflexivity | congruence]. }
  destruct (operations_read_latest_snapshot ascii_library Examples.schema
              (fun _ _ => false) Examples.data_BA Examples.data_BA_history
              "2024-01-01T00:00:00" Examples.snapshot_BA
              "country" "AYA" "country") as (H1 & H2 & H3 & H4 & H5 & H6).
  - split; [reflexivity |]. intros k' [<- | []]. reflexivity.
  - split; [reflexivity |]. intros k' [<- | [<- | []]]; reflexivity.
  - refine (conj H1 (conj H2 (conj H3 (conj H4 (conj H5 (H6 _ _)))))); apply Htime.
    + intros k' [<- | []]. now right.
    + intros k' [<- | [<- | []]]; auto.
Defined.

(** ** Completeness chart *)

Lemma mem_In (x : string) (l : list string) : Frame.mem x l = true <-> In x l.
Proof.
  unfold Frame.mem. rewrite existsb_exists. split.
  - intros (y & Hy & Heq). apply String.eqb_eq in Heq. now subst.
  - intros H. exists x. split; [exact H | apply String.eqb_refl].
Qed.

(** *** Sorted labels *)

Lemma insert_sorted_distinct (x : string) (labels : list string) :
  ~ In x labels -> NoDup labels ->
  NoDup (Py.insert_sorted (fun s => s) x labels).
Proof.
  induction labels as [| y rest IH]; intros Hfresh Hdistinct;
    cbn [Py.insert_sorted].
  - constructor; [exact Hfresh | constructor].
  - destruct (String.ltb x y); [now constructor |].
    apply NoDup_cons_iff in Hdistinct. destruct Hdistinct as [Hy Hrest].
    constructor.
    + rewrite insert_sorted_In. intros [-> | Hin]; [| contradiction].
      apply Hfresh. now left.
    + apply IH; [| exact Hrest]. intros Hin. apply Hfresh. now right.
Qed.

(** Sorting distinct labels leaves them distinct. *)
Lemma sorted_distinct (labels : list string) :
  NoDup labels -> NoDup (Py.sorted labels).
Proof.
  unfold Py.sorted, Py.sorted_by.
  enough (H : forall acc,
             NoDup acc -> NoDup labels ->
             (forall x, In x labels -> ~ In x acc) ->
             NoDup (fold_left (fun acc x => Py.insert_sorted (fun s => s) x acc)
                              labels acc))
    by (intros Hd; apply H; [constructor | exact Hd | intros x _ []]).
  induction labels as [| y rest IH]; intros acc Hacc Hdistinct Hfresh;
    cbn [fold_left]; [exact Hacc |].
  apply NoDup_cons_iff in Hdistinct. destruct Hdistinct as [Hy Hrest].
  apply IH; [| exact Hrest |].
  - apply insert_sorted_distinct; [| exact Hacc]. apply Hfresh. now left.
  - intros x Hx. rewrite insert_sorted_In. intros [-> | Hin]; [contradiction |].
    apply (Hfresh x); [now right | exact Hin].
Qed.

Lemma union_In (x : string) (a b : list string) :
  In x (Frame.union a b) <-> In x a \/ In x b.
Proof. unfold Frame.union. now rewrite sorted_In, nodup_In, in_app_iff. Qed.

Lemma union_distinct (a b : list string) : NoDup (Frame.union a b).
Proof. unfold Frame.union. apply sorted_distinct, NoDup_nodup. Qed.

(** An outer alignment keeps the labels of both sides and adds none. *)
Lemma outer_In (x : string) (a b : list string) :
  In x (Frame.outer a b) <-> In x a \/ In x b.
Proof.
  unfold Frame.outer, Frame.list_eqb.
  destruct (list_eq_dec string_dec a b) as [-> | Hne]; [tauto |].
  apply union_In.
Qed.

(** *** Rows by label *)

Lemma labelled_In (l : string) (v : Frame.cells) (f : Frame.t) :
  In v (Frame.labelled l f) <-> In (l, v) (Frame.rows f).
Proof.
  unfold Frame.labelled. rewrite in_map_iff. split.
  - intros ([l' v'] & Hv & Hin). cbn [snd] in Hv. subst v'.
    apply filter_In in Hin. destruct Hin as [Hin Heq]. cbn [fst] in Heq.
    apply String.eqb_eq in Heq. now subst l'.
  - intros Hin. exists (l, v). split; [reflexivity |].
    apply filter_In. split; [exact Hin | apply String.eqb_refl].
Qed.

Lemma index_In (l : string) (f : Frame.t) :
  In l (Frame.index f) <-> exists v, In (l, v) (Frame.rows f).
Proof.
  unfold Frame.index. rewrite in_map_iff. split.
  - intros ([l' v] & Hl & Hin). cbn [fst] in Hl. subst l'. now exists v.
  - intros [v Hin]. now exists (l, v).
Qed.

(** A join matches a label with the rows that carry it, or with a row of
    NaN when no row does. *)
Lemma matched_spec (l : string) (v : Frame.cells) (f : Frame.t) :
  In v (Frame.matched l f) ->
  In (l, v) (Frame.rows f) \/ (~ In l (Frame.index f) /\ v = Frame.nan).
Proof.
  unfold Frame.matched.
  destruct (Frame.labelled l f) as [| w ws] eqn:Hrows.
  - intros [<- | []]. right. split; [| reflexivity].
    intros Hin. apply index_In in Hin. destruct Hin as [w Hw].
    apply labelled_In in Hw. rewrite Hrows in Hw. destruct Hw.
  - intros Hin. left. apply labelled_In. now rewrite Hrows.
Qed.

Lemma matched_some (l : string) (f : Frame.t) :
  exists v, In v (Frame.matched l f).
Proof.
  unfold Frame.matched.
  destruct (Frame.labelled l f) as [| w ws]; eexists; now left.
Qed.

(** In a frame of distinct labels a join matches one row. *)
Lemma matched_one (l : string) (f : Frame.t) :
  NoDup (Frame.index f) -> exists v, Frame.matched l f = [v].
Proof.
  unfold Frame.matched, Frame.labelled, Frame.index.
  induction (Frame.rows f) as [| [l0 v0] rest IH]; intros Hdistinct;
    cbn [filter map fst snd] in *; [now exists Frame.nan |].
  apply NoDup_cons_iff in Hdistinct. destruct Hdistinct as [Hfresh Hrest].
  destruct (String.eqb_spec l0 l) as [-> | Hne]; [| now apply IH].
  cbn [map snd]. exists v0. f_equal.
  destruct (filter _ rest) as [| [l1 v1] others] eqn:Hf; [reflexivity |].
  exfalso. apply Hfresh.
  assert (Hin : In (l1, v1) (filter (fun r => String.eqb (fst r) l) rest))
    by (rewrite Hf; now left).
  apply filter_In in Hin. destruct Hin as [Hin Heq]. cbn [fst] in Heq.
  apply String.eqb_eq in Heq. subst l1. now apply (in_map fst) in Hin.
Qed.

(** *** Alignment and subtraction *)

Lemma zipped_labels (ra rb : list (string * Frame.cells))
    (la lb : string) (va vb : Frame.cells) :
  map fst ra = map fst rb -> In ((la, va), (lb, vb)) (combine ra rb) -> la = lb.
Proof.
  revert rb. induction ra as [| [l v] ra IH]; intros [| [l' v'] rb];
    cbn [map fst combine]; intros Hlabels Hin;
    try contradiction; try discriminate.
  injection Hlabels as -> Hrest. destruct Hin as [Hhead | Hin].
  - now injection Hhead as <- _ <- _.
  - now apply (IH rb).
Qed.

Lemma zipped_index (ra rb : list (string * Frame.cells)) :
  map fst ra = map fst rb ->
  map fst (map (fun '((l, va), (_, vb)) => (l, (va, vb))) (combine ra rb))
  = map (@fst string Frame.cells) ra.
Proof.
  revert rb. induction ra as [| [l v] ra IH]; intros [| [l' v'] rb];
    cbn [map fst combine]; try discriminate; try reflexivity.
  intros [= _ Hrest]. f_equal. now apply IH.
Qed.

Lemma align_spec (a b : Frame.t) (l : string) (va vb : Frame.cells) :
  In (l, (va, vb)) (Frame.align a b) ->
  (In (l, va) (Frame.rows a) \/ (~ In l (Frame.index a) /\ va = Frame.nan))
  /\ (In (l, vb) (Frame.rows b) \/ (~ In l (Frame.index b) /\ vb = Frame.nan)).
Proof.
  unfold Frame.align, Frame.list_eqb.
  destruct (list_eq_dec string_dec (Frame.index a) (Frame.index b)) as [Heq | Hne].
  - intros Hin. apply in_map_iff in Hin.
    destruct Hin as ([[la wa] [lb wb]] & Hrow & Hin).
    injection Hrow as -> -> ->.
    pose proof (zipped_labels _ _ _ _ _ _ Heq Hin) as <-.
    split; left;
      [exact (in_combine_l _ _ _ _ Hin) | exact (in_combine_r _ _ _ _ Hin)].
  - intros Hin. apply in_flat_map in Hin. destruct Hin as (l' & _ & Hin).
    apply in_map_iff in Hin. destruct Hin as ([wa wb] & Hrow & Hin).
    injection Hrow as -> -> ->.
    apply in_prod_iff in Hin. destruct Hin as [Ha Hb].
    split; now apply matched_spec.
Qed.

Lemma align_labels (a b : Frame.t) (l : string) :
  In l (map fst (Frame.align a b))
  <-> In l (Frame.index a) \/ In l (Frame.index b).
Proof.
  unfold Frame.align, Frame.list_eqb.
  destruct (list_eq_dec string_dec (Frame.index a) (Frame.index b)) as [Heq | Hne].
  - unfold Frame.index in *. rewrite (zipped_index _ _ Heq), <- Heq. tauto.
  - split.
    + intros Hin. apply in_map_iff in Hin. destruct Hin as ([l' p] & Hl & Hin).
      cbn [fst] in Hl. subst l'.
      apply in_flat_map in Hin. destruct Hin as (l' & Hl' & Hin).
      apply in_map_iff in Hin. destruct Hin as (p' & Hrow & _).
      injection Hrow as -> _. now apply union_In in Hl'.
    + intros Hin. apply union_In in Hin.
      destruct (matched_some l a) as [wa Ha].
      destruct (matched_some l b) as [wb Hb].
      apply in_map_iff. exists (l, (wa, wb)). split; [reflexivity |].
      apply in_flat_map. exists l. split; [exact Hin |].
      apply in_map. now apply in_prod.
Qed.

(** Two frames of distinct labels align to distinct labels. *)
Lemma align_distinct (a b : Frame.t) :
  NoDup (Frame.index a) -> NoDup (Frame.index b) ->
  NoDup (map fst (Frame.align a b)).
Proof.
  intros Ha Hb. unfold Frame.align, Frame.list_eqb.
  destruct (list_eq_dec string_dec (Frame.index a) (Frame.index b)) as [Heq | Hne].
  - unfold Frame.index in *. now rewrite (zipped_index _ _ Heq).
  - enough (Hsame : forall labels,
               map fst (flat_map (fun l => map (fun p => (l, p))
                                               (list_prod (Frame.matched l a)
                                                          (Frame.matched l b)))
                                 labels)
               = labels)
      by (rewrite Hsame; apply union_distinct).
    induction labels as [| l rest IH]; cbn [flat_map]; [reflexivity |].
    destruct (matched_one l a Ha) as [wa ->].
    destruct (matched_one l b Hb) as [wb ->].
    cbn [list_prod map List.app fst]. now rewrite IH.
Qed.

Lemma subtract_rows (a b : Frame.t) (l : string) (v : Frame.cells) :
  In (l, v) (Frame.rows (Frame.subtract_fill0 a b)) ->
  exists va vb,
    (forall c, v c = Frame.fill_sub (Frame.value a va c) (Frame.value b vb c))
    /\ (In (l, va) (Frame.rows a) \/ (~ In l (Frame.index a) /\ va = Frame.nan))
    /\ (In (l, vb) (Frame.rows b) \/ (~ In l (Frame.index b) /\ vb = Frame.nan)).
Proof.
  cbn [Frame.subtract_fill0 Frame.rows]. intros Hin.
  apply in_map_iff in Hin. destruct Hin as ([l' [va vb]] & Hrow & Hin).
  injection Hrow as -> <-. exists va, vb. split; [reflexivity |].
  now apply align_spec.
Qed.

Lemma subtract_index (a b : Frame.t) :
  Frame.index (Frame.subtract_fill0 a b) = map fst (Frame.align a b).
Proof.
  unfold Frame.index. cbn [Frame.subtract_fill0 Frame.rows].
  rewrite map_map. apply map_ext. now intros [l [va vb]].
Qed.

Lemma subtract_index_In (a b : Frame.t) (l : string) :
  In l (Frame.index (Frame.subtract_fill0 a b))
  <-> In l (Frame.index a) \/ In l (Frame.index b).
Proof. rewrite subtract_index. apply align_labels. Qed.

(** The difference at a label that the second frame carries: the rows of
    the first frame with that label hold [x], and [x] is 0 when it has
    none. *)
Lemma subtract_all_at (a b : Frame.t) (l c : string) (x y : Z) :
  all_at a l c x ->
  (~ In l (Frame.index a) -> x = 0) ->
  In l (Frame.index b) ->
  all_at b l c y ->
  all_at (Frame.subtract_fill0 a b) l c (x - y).
Proof.
  intros Ha Hx Hlb Hb v Hv.
  apply subtract_rows in Hv. destruct Hv as (va & vb & Hval & Hva & Hvb).
  destruct Hvb as [Hvb | [Hvb _]]; [| contradiction].
  pose proof (Hb vb Hvb) as Hy.
  assert (Hc : Frame.mem c (Frame.outer (Frame.columns a) (Frame.columns b))
               = true).
  { apply mem_In, outer_In. right. unfold Frame.value in Hy.
    destruct (Frame.mem c (Frame.columns b)) eqn:Hm; [| discriminate].
    now apply mem_In. }
  unfold Frame.value at 1. cbn [Frame.subtract_fill0 Frame.columns].
  rewrite Hc, Hval, Hy.
  destruct Hva as [Hva | [Hva ->]].
  - now rewrite (Ha va Hva).
  - rewrite (Hx Hva). unfold Frame.value, Frame.nan.
    destruct (Frame.mem c (Frame.columns a)); cbn [Frame.fill_sub];
      f_equal; lia.
Qed.

Lemma clip_index (f : Frame.t) :
  Frame.index (Frame.clip_upper0_abs f) = Frame.index f.
Proof.
  unfold Frame.index. cbn [Frame.clip_upper0_abs Frame.rows].
  rewrite map_map. apply map_ext. now intros [l v].
Qed.

Lemma clip_all_at (f : Frame.t) (l c : string) (x : Z) :
  all_at f l c x -> all_at (Frame.clip_upper0_abs f) l c (Z.abs (Z.min x 0)).
Proof.
  intros Hf v Hv. cbn [Frame.clip_upper0_abs Frame.rows] in Hv.
  apply in_map_iff in Hv. destruct Hv as ([l' w] & Hrow & Hw).
  injection Hrow as -> <-. specialize (Hf w Hw).
  unfold Frame.value in *. cbn [Frame.clip_upper0_abs Frame.columns].
  destruct (Frame.mem c (Frame.columns f)); [| discriminate].
  now rewrite Hf.
Qed.

(** *** The merged frame *)

Lemma merge_left_rows (f g : Frame.t) (c l : string) (u a : option Z) :
  In (l, (u, a)) (Frame.merge_left f g c) ->
  exists v w,
    In (l, v) (Frame.rows f) /\ u = Frame.value f v c /\ a = Frame.value g w c
    /\ (In (l, w) (Frame.rows g) \/ (~ In l (Frame.index g) /\ w = Frame.nan)).
Proof.
  unfold Frame.merge_left. intros Hin.
  apply in_flat_map in Hin. destruct Hin as ([l' v] & Hv & Hin).
  apply in_map_iff in Hin. destruct Hin as (w & Hrow & Hw).
  injection Hrow as -> <- <-. exists v, w.
  repeat split; auto. now apply matched_spec.
Qed.

Lemma merge_left_labels (f g : Frame.t) (c l : string) :
  In l (map fst (Frame.merge_left f g c)) <-> In l (Frame.index f).
Proof.
  unfold Frame.merge_left. rewrite index_In, in_map_iff. split.
  - intros ([l' p] & Hl & Hin). cbn [fst] in Hl. subst l'.
    apply in_flat_map in Hin. destruct Hin as ([l' v] & Hv & Hin).
    apply in_map_iff in Hin. destruct Hin as (w & Hrow & _).
    injection Hrow as -> _. now exists v.
  - intros [v Hv]. destruct (matched_some l g) as [w Hw].
    exists (l, (Frame.value f v c, Frame.value g w c)). split; [reflexivity |].
    apply in_flat_map. exists (l, v). split; [exact Hv |].
    apply in_map_iff. now exists w.
Qed.

(** Merged with a frame of distinct labels, a frame keeps its labels. *)
Lemma merge_left_index (f g : Frame.t) (c : string) :
  NoDup (Frame.index g) ->
  map fst (Frame.merge_left f g c) = Frame.index f.
Proof.
  intros Hg. unfold Frame.merge_left, Frame.index.
  induction (Frame.rows f) as [| [l v] rest IH]; cbn [flat_map map fst];
    [reflexivity |].
  destruct (matched_one l g Hg) as [w ->].
  cbn [map List.app fst]. now rewrite IH.
Qed.

(** *** The frames of the chart *)

(** The rows of a variable in the frame of variable counts. *)
Lemma variable_counts_at (initial_df : availability_frame)
    (r : availability_row) (column : string) (n : Z) :
  In column (numeric_columns initial_df) ->
  In r (records initial_df) ->
  Variables r <> "" ->
  (forall r', In r' (records initial_df) -> Variables r' = Variables r -> r' = r) ->
  Dict.get column (counts r) = Some n ->
  In (Variables r) (Frame.index (variable_counts initial_df))
  /\ all_at (variable_counts initial_df) (Variables r) column n.
Proof.
  intros Hcol Hr Hlabel Honly Hn. split.
  - apply index_In. exists (fun c => Dict.get c (counts r)).
    cbn [variable_counts Frame.rows]. apply in_map_iff. exists r.
    split; [reflexivity |]. apply filter_In. split; [exact Hr |].
    now apply negb_true_iff, String.eqb_neq.
  - intros v Hv. cbn [variable_counts Frame.rows] in Hv.
    apply in_map_iff in Hv. destruct Hv as (r' & Hrow & Hr').
    injection Hrow as Hl <-. apply filter_In in Hr'.
    rewrite (Honly r' (proj1 Hr') Hl).
    unfold Frame.value. cbn [variable_counts Frame.columns].
    apply mem_In in Hcol. now rewrite Hcol.
Qed.

Lemma variable_counts_index (initial_df : availability_frame) :
  Frame.index (variable_counts initial_df) = variable_labels initial_df.
Proof.
  unfold Frame.index, variable_labels. cbn [variable_counts Frame.rows].
  now rewrite map_map.
Qed.

Section ValueCounts.

Variable initial_df : availability_frame.

Let rows := value_records initial_df.

Let groups : list string := group_labels rows.

Let step (unavailable_df : Frame.t) (column : string) : Frame.t :=
  if Frame.empty unavailable_df then groupby_sum rows column
  else Frame.join unavailable_df (groupby_sum rows column).

(** What the loop over the columns keeps: the frame has the groups for
    index and the sums of the groups in its columns. *)
Let summed (f : Frame.t) : Prop :=
  Frame.index f = groups
  /\ forall l v c,
       In (l, v) (Frame.rows f) -> In c (Frame.columns f) ->
       v c = Some (group_sum rows l c).

Lemma groups_distinct : NoDup groups.
Proof. unfold groups, group_labels. apply sorted_distinct, NoDup_nodup. Qed.

Lemma groupby_sum_index (column : string) :
  Frame.index (groupby_sum rows column) = groups.
Proof.
  unfold Frame.index. cbn [groupby_sum Frame.rows].
  rewrite map_map. cbn [fst]. apply map_id.
Qed.

Lemma groupby_sum_summed (column : string) : summed (groupby_sum rows column).
Proof.
  split; [apply groupby_sum_index |]. intros l v c Hv Hc.
  cbn [groupby_sum Frame.rows Frame.columns] in Hv, Hc.
  apply in_map_iff in Hv. destruct Hv as (l' & Hrow & _).
  injection Hrow as -> <-. destruct Hc as [<- | []]. reflexivity.
Qed.

(** The row of a group in the sums of a column. *)
Lemma groupby_sum_matched (column l : string) :
  In l groups ->
  Frame.matched l (groupby_sum rows column)
  = [fun _ => Some (group_sum rows l column)].
Proof.
  intros Hl.
  destruct (matched_one l (groupby_sum rows column)) as [w Hw].
  { rewrite groupby_sum_index. apply groups_distinct. }
  rewrite Hw. f_equal.
  assert (Hin : In w (Frame.matched l (groupby_sum rows column)))
    by (rewrite Hw; now left).
  apply matched_spec in Hin. destruct Hin as [Hin | [Hout _]].
  - cbn [groupby_sum Frame.rows] in Hin. apply in_map_iff in Hin.
    destruct Hin as (l' & Hrow & _). now injection Hrow as -> <-.
  - rewrite groupby_sum_index in Hout. contradiction.
Qed.

Lemma join_summed (f : Frame.t) (column : string) :
  summed f -> summed (Frame.join f (groupby_sum rows column)).
Proof.
  intros [Hidx Hval]. split.
  - rewrite <- Hidx. unfold Frame.index. cbn [Frame.join Frame.rows].
    assert (Hall : forall l, In l (map fst (Frame.rows f)) -> In l groups)
      by (intros l Hl; now rewrite <- Hidx).
    clear Hidx Hval.
    induction (Frame.rows f) as [| [l v] rest IH]; cbn [flat_map map fst];
      [reflexivity |].
    rewrite groupby_sum_matched by (apply Hall; now left).
    cbn [map List.app fst]. f_equal. apply IH.
    intros l' Hl'. apply Hall. now right.
  - intros l v c Hv Hc. cbn [Frame.join Frame.rows Frame.columns] in Hv, Hc.
    apply in_flat_map in Hv. destruct Hv as ([l' v0] & Hv0 & Hv).
    assert (Hl' : In l' groups)
      by (rewrite <- Hidx; apply index_In; now exists v0).
    rewrite (groupby_sum_matched column l' Hl') in Hv.
    destruct Hv as [Hrow | []]. injection Hrow as -> <-.
    destruct (Frame.mem c (Frame.columns f)) eqn:Hm.
    + apply (Hval l v0 c Hv0). now apply mem_In.
    + apply in_app_or in Hc. destruct Hc as [Hc | Hc].
      * apply mem_In in Hc. congruence.
      * cbn [groupby_sum Frame.columns] in Hc. destruct Hc as [<- | []].
        unfold Frame.value, Frame.mem. cbn [groupby_sum Frame.columns existsb].
        now rewrite String.eqb_refl.
Qed.

Lemma fold_step_summed (columns : list string) :
  forall f,
    summed f -> Frame.columns f <> [] -> groups <> [] ->
    summed (fold_left step columns f)
    /\ forall c, In c (Frame.columns f) \/ In c columns ->
                 In c (Frame.columns (fold_left step columns f)).
Proof.
  induction columns as [| column rest IH]; intros f Hf Hcols Hgroups;
    cbn [fold_left].
  - split; [exact Hf |]. intros c [H | []]. exact H.
  - assert (Hstep : step f column = Frame.join f (groupby_sum rows column)).
    { unfold step, Frame.empty. destruct Hf as [Hidx _].
      unfold Frame.index in Hidx.
      destruct (Frame.rows f) as [| row others].
      - cbn [map] in Hidx. now rewrite <- Hidx in Hgroups.
      - destruct (Frame.columns f); [contradiction | reflexivity]. }
    rewrite Hstep.
    destruct (IH (Frame.join f (groupby_sum rows column))) as [Hs Hc].
    + now apply join_summed.
    + cbn [Frame.join Frame.columns]. now destruct (Frame.columns f).
    + exact Hgroups.
    + split; [exact Hs |]. intros c Hin. apply Hc.
      cbn [Frame.join Frame.columns groupby_sum]. rewrite in_app_iff.
      cbn [In] in *. tauto.
Qed.

(** Without a labelled value row the loop leaves a frame without rows. *)
Lemma fold_step_no_group (columns : list string) :
  groups = [] ->
  forall f, Frame.rows f = [] -> Frame.rows (fold_left step columns f) = [].
Proof.
  intros Hnone.
  induction columns as [| column rest IH]; intros f Hf; cbn [fold_left];
    [exact Hf |].
  apply IH. unfold step, Frame.empty. rewrite Hf.
  cbn [groupby_sum Frame.rows]. fold groups. now rewrite Hnone.
Qed.

(** The frame that the loop over the columns leaves has the groups for
    labels, when the table has a numeric column, and in every row the sums
    of the row's group. *)
Lemma sum_value_counts_rows (c : string) :
  In c (numeric_columns initial_df) ->
  Frame.index (sum_value_counts initial_df) = groups
  /\ forall l v,
       In (l, v) (Frame.rows (sum_value_counts initial_df)) ->
       Frame.value (sum_value_counts initial_df) v c
       = Some (group_sum rows l c).
Proof.
  intros Hc. unfold sum_value_counts. fold rows. fold step.
  assert (Hcases : groups = [] \/ groups <> [])
    by (destruct groups; [now left | right; discriminate]).
  destruct Hcases as [Hnone | Hsome].
  - pose proof (fold_step_no_group (numeric_columns initial_df) Hnone
                  Frame.nil eq_refl) as Hrows.
    unfold Frame.index. rewrite Hrows, Hnone. split; [reflexivity |].
    intros l v [].
  - destruct (numeric_columns initial_df) as [| column rest]; [destruct Hc |].
    cbn [fold_left].
    change (step Frame.nil column) with (groupby_sum rows column).
    destruct (fold_step_summed rest (groupby_sum rows column))
      as [[Hidx Hval] Hcols].
    + apply groupby_sum_summed.
    + discriminate.
    + exact Hsome.
    + split; [exact Hidx |]. intros l v Hv.
      assert (Hin : In c (Frame.columns
                            (fold_left step rest (groupby_sum rows column)))).
      { apply Hcols. cbn [groupby_sum Frame.columns In].
        destruct Hc as [-> | Hc]; auto. }
      unfold Frame.value. rewrite (proj2 (mem_In _ _) Hin).
      now apply Hval.
Qed.

(** The loop leaves distinct labels, whatever the columns. *)
Lemma sum_value_counts_distinct :
  NoDup (Frame.index (sum_value_counts initial_df)).
Proof.
  destruct (numeric_columns initial_df) as [| column rest] eqn:Hcols.
  - unfold sum_value_counts. rewrite Hcols. constructor.
  - destruct (sum_value_counts_rows column) as [Hidx _].
    + rewrite Hcols. now left.
    + rewrite Hidx. apply groups_distinct.
Qed.

(** A label without value rows has sum 0. *)
Lemma group_sum_outside (l c : string) :
  ~ In l groups -> group_sum rows l c = 0.
Proof.
  intros Hout. unfold group_sum.
  enough (Hnone : filter (fun '(label, _) => opt_string_eqb label (Some l)) rows = [])
    by (now rewrite Hnone).
  destruct (filter _ rows) as [| [label r] others] eqn:Hf; [reflexivity |].
  exfalso. apply Hout.
  assert (Hin : In (label, r) (filter (fun '(label, _) =>
                                         opt_string_eqb label (Some l)) rows))
    by (rewrite Hf; now left).
  apply filter_In in Hin. destruct Hin as [Hin Heq].
  destruct label as [l' |]; [| discriminate]. cbn [opt_string_eqb] in Heq.
  apply String.eqb_eq in Heq. subst l'.
  unfold groups, group_labels. apply sorted_In, nodup_In, in_flat_map.
  exists (Some l, r). split; [exact Hin | now left].
Qed.

(** The loop over the columns adds no label and no column of its own. *)
Lemma sum_value_counts_within (l c : string) :
  (In l (Frame.index (sum_value_counts initial_df)) -> In l groups)
  /\ (In c (Frame.columns (sum_value_counts initial_df)) ->
      In c (numeric_columns initial_df)).
Proof.
  unfold sum_value_counts. fold rows. fold step.
  enough (H : forall columns f,
             (In l (Frame.index f) -> In l groups) ->
             (In c (Frame.columns f) -> In c (numeric_columns initial_df)) ->
             (forall x, In x columns -> In x (numeric_columns initial_df)) ->
             (In l (Frame.index (fold_left step columns f)) -> In l groups)
             /\ (In c (Frame.columns (fold_left step columns f)) ->
                 In c (numeric_columns initial_df)))
    by (apply H; [intros [] | intros [] | auto]).
  induction columns as [| column rest IH]; intros f Hidx Hcols Hsub;
    cbn [fold_left]; [now split |].
  apply IH.
  - unfold step. destruct (Frame.empty f).
    + now rewrite groupby_sum_index.
    + intros Hin. apply Hidx. apply index_In in Hin. destruct Hin as [v Hv].
      cbn [Frame.join Frame.rows] in Hv. apply in_flat_map in Hv.
      destruct Hv as ([l' v0] & Hv0 & Hv). apply in_map_iff in Hv.
      destruct Hv as (w & Hrow & _). injection Hrow as -> _.
      apply index_In. now exists v0.
  - unfold step. destruct (Frame.empty f).
    + cbn [groupby_sum Frame.columns]. intros [<- | []]. apply Hsub. now left.
    + cbn [Frame.join Frame.columns groupby_sum]. rewrite in_app_iff.
      intros [H | [<- | []]]; [now apply Hcols | apply Hsub; now left].
  - intros x Hx. apply Hsub. now right.
Qed.

(** A label that the fill puts on a row is the label of a variable row. *)
Lemma ffill_labels (l : string) (r : availability_row) :
  forall last records',
    In (Some l, r) (ffill last records') ->
    last = Some l \/ exists v, In v records' /\ Variables v = l /\ l <> "".
Proof.
  intros last records'. revert last.
  induction records' as [| x rest IH]; intros last; cbn [ffill]; [intros [] |].
  intros [Hhead | Htail].
  - injection Hhead as Hlabel _.
    destruct (String.eqb_spec (Variables x) "") as [Hblank | Hnonblank].
    + now left.
    + injection Hlabel as <-. right. exists x. repeat split; auto. now left.
  - apply IH in Htail. destruct Htail as [Hlast | (v & Hv & Hl & Hne)].
    + destruct (String.eqb_spec (Variables x) "") as [Hblank | Hnonblank].
      * now left.
      * injection Hlast as <-. right. exists x. repeat split; auto. now left.
    + right. exists v. repeat split; auto. now right.
Qed.

Lemma groups_are_variables (l : string) :
  In l groups ->
  exists v, In v (records initial_df) /\ Variables v = l /\ l <> "".
Proof.
  unfold groups, group_labels. rewrite sorted_In, nodup_In, in_flat_map.
  intros ([label r] & Hin & Hl).
  destruct label as [l' |]; [| destruct Hl].
  destruct Hl as [<- | []].
  unfold rows, value_records in Hin. apply filter_In in Hin.
  destruct Hin as [Hin _]. apply ffill_labels in Hin.
  destruct Hin as [Hnone | Hv]; [discriminate | exact Hv].
Qed.

End ValueCounts.

(** The bars of a variable whose label no other row carries: the chart has
    its label, and every bar with that label shows the smaller of the total
    and the summed totals of the value rows for complete information, and
    what the total falls short of that sum for incomplete information. *)
Lemma bars_of_variable {lib : library} (initial_df : availability_frame)
    (text : string) (fig : completeness_figure) (r : availability_row)
    (total : Z) :
  generate_completeness_chart lib initial_df text = Ok fig ->
  In (total_column text) (numeric_columns initial_df) ->
  In r (records initial_df) ->
  Variables r <> "" ->
  (forall r', In r' (records initial_df) -> Variables r' = Variables r -> r' = r) ->
  Dict.get (total_column text) (counts r) = Some total ->
  let summed :=
    group_sum (value_records initial_df) (Variables r) (total_column text) in
  trace_x (incomplete fig) = trace_x (complete fig)
  /\ In (Variables r) (trace_x (complete fig))
  /\ forall i,
       nth_error (trace_x (complete fig)) i = Some (Variables r) ->
       nth_error (trace_y (complete fig)) i = Some (Z.min total summed)
       /\ nth_error (trace_y (incomplete fig)) i = Some (Z.max 0 (total - summed)).
Proof.
  intros Hfig Hcol Hr Hlabel Honly Htotal summed.
  destruct (variable_counts_at initial_df r (total_column text) total
              Hcol Hr Hlabel Honly Htotal) as [Hidx Hval].
  destruct (sum_value_counts_rows initial_df _ Hcol) as [Hgroups Hsums].
  unfold generate_completeness_chart in Hfig.
  set (available_df := variable_counts initial_df) in *.
  set (missing := Frame.subtract_fill0 (sum_value_counts initial_df) available_df) in *.
  set (unavailable_df := Frame.clip_upper0_abs missing) in *.
  set (usable_df := Frame.subtract_fill0 available_df unavailable_df) in *.
  destruct (negb (Frame.mem (total_column text) (Frame.columns usable_df)));
    [discriminate |].
  set (vis := Frame.merge_left unavailable_df usable_df (total_column text)) in *.
  destruct (mapM (fun row => as_int (snd (snd row))) vis) as [ta | e] eqn:Hta;
    cbn [bind] in Hfig; [| discriminate].
  destruct (mapM (fun row => as_int (fst (snd row))) vis) as [tu | e] eqn:Htu;
    cbn [bind] in Hfig; [| discriminate].
  destruct (mapM _ (combine _ ta)) as [ha | e]; cbn [bind] in Hfig; [| discriminate].
  destruct (mapM _ (combine _ tu)) as [hu | e]; cbn [bind] in Hfig; [| discriminate].
  injection Hfig as <-. cbn [complete incomplete trace_x trace_y].
  (* the value of the variable in the frames *)
  assert (Hm : all_at missing (Variables r) (total_column text) (summed - total)).
  { apply subtract_all_at; [| | exact Hidx | exact Hval].
    - intros v Hv. exact (Hsums _ _ Hv).
    - intros Hout. rewrite Hgroups in Hout.
      exact (group_sum_outside initial_df _ _ Hout). }
  pose proof (clip_all_at _ _ _ _ Hm) as Hu. fold unavailable_df in Hu.
  assert (Hiu : In (Variables r) (Frame.index unavailable_df)).
  { unfold unavailable_df. rewrite clip_index.
    apply subtract_index_In. now right. }
  assert (Ha : all_at usable_df (Variables r) (total_column text)
                 (total - Z.abs (Z.min (summed - total) 0))).
  { apply subtract_all_at; [exact Hval | | exact Hiu | exact Hu].
    intros Hout. contradiction. }
  assert (Hia : In (Variables r) (Frame.index usable_df))
    by (apply subtract_index_In; now left).
  split; [reflexivity |]. split.
  - apply merge_left_labels. exact Hiu.
  - intros i Hi. rewrite nth_error_map in Hi.
    destruct (nth_error vis i) as [[l [u a]] |] eqn:Hrow; [| discriminate].
    cbn [option_map fst] in Hi. injection Hi as ->.
    pose proof (nth_error_In _ _ Hrow) as Hin.
    apply merge_left_rows in Hin.
    destruct Hin as (v & w & Hv & -> & -> & Hw).
    destruct Hw as [Hw | [Hw _]]; [| contradiction].
    destruct (mapM_Ok_nth _ _ _ Hta i _ Hrow) as (y & Hy & Hay).
    destruct (mapM_Ok_nth _ _ _ Htu i _ Hrow) as (z & Hz & Huz).
    cbn [fst snd] in Hay, Huz.
    rewrite (Ha w Hw) in Hay. rewrite (Hu v Hv) in Huz.
    cbn [as_int] in Hay, Huz. injection Hay as <-. injection Huz as <-.
    split; [rewrite Hy | rewrite Hz]; f_equal; lia.
Qed.

(** C2 as it stands fails on a table in which two variables share a label:
    the chart then shows a bar for every pair of rows with that label, and
    the bars of a pair of different rows take their counts from both.  With
    the label "Sex" on a row of total 10, whose value row has total 7, and
    on a row of total 3, the second of the four bars labelled "Sex" shows 3
    and 3. *)
Lemma completeness_of_repeated_label :
  ~ (forall (initial_df : availability_frame) (text : string)
            (fig : completeness_figure) (r : availability_row) (total : Z),
        generate_completeness_chart ascii_library initial_df text = Ok fig ->
        In (total_column text) (numeric_columns initial_df) ->
        In r (records initial_df) ->
        Variables r <> "" ->
        Dict.get (total_column text) (counts r) = Some total ->
        (exists i, nth_error (trace_x (complete fig)) i = Some (Variables r))
        /\ forall i,
             nth_error (trace_x (complete fig)) i = Some (Variables r) ->
             exists available unavailable,
               nth_error (trace_y (complete fig)) i = Some available
               /\ nth_error (trace_x (incomplete fig)) i = Some (Variables r)
               /\ nth_error (trace_y (incomplete fig)) i = Some unavailable
               /\ available + unavailable = total).
Proof.
  intros H.
  destruct (generate_completeness_chart ascii_library Examples.table_repeated
              "AYA") as [fig | e] eqn:Hfig; [| vm_compute in Hfig; discriminate].
  destruct (H Examples.table_repeated "AYA" fig
              (Examples.av "Sex" "" 10 0 10) 10 Hfig) as [_ Hall].
  - now left.
  - now left.
  - discriminate.
  - reflexivity.
  - vm_compute in Hfig. injection Hfig as <-.
    destruct (Hall 1%nat eq_refl) as (a & u & Ha & _ & Hu & Hsum).
    cbn in Ha, Hu. injection Ha as <-. injection Hu as <-. discriminate Hsum.
Qed.

(** C2, amended: in the chart made of an availability table that has the
    total column, a variable whose label no other row carries has a bar, and
    in every bar with its label the count of complete information and the
    count of incomplete information add up to the total column of the
    variable's row. *)
Theorem completeness_adds_up_to_total (lib : library)
    (initial_df : availability_frame) (text : string)
    (fig : completeness_figure) (r : availability_row) (total : Z) :
  generate_completeness_chart lib initial_df text = Ok fig ->
  In (total_column text) (numeric_columns initial_df) ->
  In r (records initial_df) ->
  Variables r <> "" ->
  (forall r', In r' (records initial_df) -> Variables r' = Variables r -> r' = r) ->
  Dict.get (total_column text) (counts r) = Some total ->
  (exists i, nth_error (trace_x (complete fig)) i = Some (Variables r))
  /\ forall i,
       nth_error (trace_x (complete fig)) i = Some (Variables r) ->
       exists available unavailable,
         nth_error (trace_y (complete fig)) i = Some available
         /\ nth_error (trace_x (incomplete fig)) i = Some (Variables r)
         /\ nth_error (trace_y (incomplete fig)) i = Some unavailable
         /\ available + unavailable = total.
Proof.
  intros Hfig Hcol Hr Hlabel Honly Htotal.
  destruct (bars_of_variable initial_df text fig r total
              Hfig Hcol Hr Hlabel Honly Htotal) as (Hx & Hin & Hbars).
  split; [now apply In_nth_error |].
  intros i Hi. destruct (Hbars i Hi) as [Ha Hu].
  eexists _, _. split; [exact Ha |]. split; [now rewrite Hx |].
  split; [exact Hu |]. lia.
Qed.

Lemma completeness_adds_up_to_total_witness :
  exists fig,
    generate_completeness_chart ascii_library Examples.table "AYA" = Ok fig
    /\ (exists i, nth_error (trace_x (complete fig)) i = Some "Biological Sex")
    /\ forall i,
         nth_error (trace_x (complete fig)) i = Some "Biological Sex" ->
         exists available unavailable,
           nth_error (trace_y (complete fig)) i = Some available
           /\ nth_error (trace_x (incomplete fig)) i = Some "Biological Sex"
           /\ nth_error (trace_y (incomplete fig)) i = Some unavailable
           /\ available + unavailable = 10.
Proof.
  destruct (generate_completeness_chart ascii_library Examples.table "AYA")
    as [fig | e] eqn:Hfig; [| vm_compute in Hfig; discriminate].
  exists fig. split; [reflexivity |].
  apply (completeness_adds_up_to_total ascii_library Examples.table "AYA" fig
           (Examples.av "Biological Sex" "" 10 0 10) 10).
  - exact Hfig.
  - now left.
  - now left.
  - discriminate.
  - intros r' [<- | [<- | [<- | [<- | []]]]]; simpl; intros H;
      first [reflexivity | discriminate H].
  - reflexivity.
Defined.

(** ** Order of the bars and slices *)

Section SortedLabels.

Variable A : Type.
Variable key : A -> string.

Let le (a b : A) : Prop := String.leb (key a) (key b) = true.

Lemma insert_sorted_head (x : A) (l : list A) (z : A) :
  le z x -> HdRel le z l ->
  HdRel le z (Py.insert_sorted key x l).
Proof.
  intros Hzx Hzl. destruct l as [| y r]; simpl; [now constructor |].
  destruct (String.ltb (key x) (key y)); constructor; auto.
  now inversion Hzl.
Qed.

Lemma insert_sorted_Sorted (x : A) (l : list A) :
  Sorted le l ->
  Sorted le (Py.insert_sorted key x l).
Proof.
  induction l as [| y r IH]; intros Hl; simpl.
  - repeat constructor.
  - inversion Hl as [| ? ? Hr Hy]; subst.
    destruct (String.ltb (key x) (key y)) eqn:Hxy.
    + constructor; [exact Hl |]. constructor.
      now apply (str_gt_leb (key y) (key x)).
    + constructor; [now apply IH |].
      apply insert_sorted_head; [| exact Hy].
      now apply (not_str_gt_leb (key y) (key x)).
Qed.

(** [sorted] returns its items in ascending order of their keys. *)
Lemma sorted_by_Sorted (l : list A) :
  Sorted le (Py.sorted_by key l).
Proof.
  unfold Py.sorted_by.
  enough (H : forall acc, Sorted le acc ->
                          Sorted le
                            (fold_left (fun acc x => Py.insert_sorted key x acc) l acc))
    by (apply H; constructor).
  induction l as [| x r IH]; intros acc Hacc; simpl; [exact Hacc |].
  now apply IH, insert_sorted_Sorted.
Qed.

End SortedLabels.

Lemma Sorted_map_key {A : Type} (key : A -> string) (l : list A) :
  Sorted (fun a b => String.leb (key a) (key b) = true) l ->
  Sorted (fun a b => String.leb a b = true) (map key l).
Proof.
  induction l as [| x r IH]; intros Hl; simpl; [constructor |].
  inversion Hl as [| ? ? Hr Hx]; subst.
  constructor; [now apply IH |].
  destruct Hx; simpl; constructor; auto.
Qed.

Lemma map_snd_enumerate {A : Type} (l : list A) : map snd (enumerate l) = l.
Proof.
  unfold enumerate. generalize 0%nat.
  induction l as [| a r IH]; intros s; simpl; [reflexivity |].
  now rewrite IH.
Qed.

(** X1: the bars of the bar chart come in ascending order of the
    organisation names. *)
Lemma bar_names_sorted (tie : Z -> Z -> bool)
    (descriptive_data : descriptive_data_t) (text : string) (fig : bar_figure) :
  generate_sample_size_horizontal_bar tie descriptive_data text = Ok (Some fig) ->
  Sorted (fun a b => String.leb a b = true)
    (map bar_name (bar_data fig)).
Proof.
  unfold generate_sample_size_horizontal_bar.
  destruct descriptive_data as [| entry rest]; [discriminate |].
  destruct (latest_data (entry :: rest)) as [latest | e]; [| discriminate].
  cbn [bind].
  destruct (mapM _ _) as [proportions | e]; [| discriminate]. cbn [bind].
  intros [= <-]. cbn [bar_data]. rewrite map_map.
  rewrite (map_ext _ snd) by (now intros [i org]).
  rewrite map_snd_enumerate.
  exact (sorted_by_Sorted string (fun s => s) (Dict.keys latest)).
Qed.

(** X2: the slices of the donut chart come in ascending order of the
    organisation or country names. *)
Lemma donut_labels_sorted (descriptive_data : descriptive_data_t)
    (text chart_type : string) (fig : donut_figure) :
  generate_donut_chart descriptive_data text chart_type = Ok (Some fig) ->
  Sorted (fun a b => String.leb a b = true) (donut_labels fig).
Proof.
  unfold generate_donut_chart.
  destruct descriptive_data as [| entry rest]; [discriminate |].
  destruct (latest_data (entry :: rest)) as [latest | e]; [| discriminate].
  cbn [bind].
  destruct (String.eqb chart_type "organisation").
  - cbn [bind]. intros [= <-]. cbn [donut_labels].
    exact (sorted_by_Sorted string (fun s => s) (Dict.keys latest)).
  - destruct (String.eqb chart_type "country"); [| discriminate].
    pose proof (sorted_by_Sorted (string * Z) fst
                  (fold_left add_country (Dict.values latest) [])) as Hs.
    destruct (Py.sorted_by fst _) as [| item items]; [discriminate |].
    cbn [bind]. intros [= <-]. cbn [donut_labels].
    now apply Sorted_map_key in Hs.
Qed.

Lemma zip_of_unzipped (pairs : list (string * Z)) :
  combine (map fst pairs) (map snd pairs) = pairs.
Proof.
  induction pairs as [| [c n] r IH]; simpl; [reflexivity |]. now rewrite IH.
Qed.

(** In the country chart every slice carries the total of its own country:
    the labels and values are unzipped from the same sorted pairs. *)
Lemma donut_country_pairs (descriptive_data : descriptive_data_t)
    (text : string) (fig : donut_figure) (latest : snapshot) :
  latest_data descriptive_data = Ok latest ->
  generate_donut_chart descriptive_data text "country" = Ok (Some fig) ->
  combine (donut_labels fig) (donut_values fig)
  = Py.sorted_by fst (fold_left add_country (Dict.values latest) []).
Proof.
  intros Hl. unfold generate_donut_chart.
  destruct descriptive_data as [| entry rest]; [discriminate |].
  rewrite Hl. cbn [bind].
  change (String.eqb "country" "organisation") with false.
  change (String.eqb "country" "country") with true. cbv iota.
  destruct (Py.sorted_by fst _) as [| item items]; [discriminate |].
  cbn [bind]. intros [= <-]. cbn [donut_labels donut_values].
  exact (zip_of_unzipped (item :: items)).
Qed.

(** ** Worked examples *)

Example title_of_variable_name :
  titled ascii_library "age_at_diagnosis" = "Age At Diagnosis".
Proof. reflexivity. Qed.

Example prefix_expanded :
  expand_prefix prefixes "ncit:C25150"
  = "http://ncicb.nci.nih.gov/xml/owl/EVS/Thesaurus.owl#C25150".
Proof. reflexivity. Qed.

Example offset_timestamp_is_later :
  (a <- Datetime.read_isoformat "2024-01-01T11:00:00-05:00" ;;
   b <- Datetime.read_isoformat "2024-01-01T12:00:00+00:00" ;;
   Datetime.gt a b) = Ok true.
Proof. reflexivity. Qed.

Example naive_and_aware_do_not_compare :
  (a <- Datetime.read_isoformat "2024-01-01T11:00:00" ;;
   b <- Datetime.read_isoformat "2024-01-01T12:00:00+00:00" ;;
   Datetime.gt a b) = Raise TypeError.
Proof. reflexivity. Qed.

Example summaries_of_example :
  fetch_field_count Examples.data_BA_history "country" "countr"
  = Ok (Some [Text "2"; Br; Text "countries"])
  /\ fetch_number_of_keys Examples.data_BA_history "organisation"
     = Ok (Some [Text "2"; Br; Text "organisations"])
  /\ fetch_total_sample_size Examples.data_BA_history "AYA"
     = Ok (Some [Text "4"; Br; Text "AYAs"]).
Proof. repeat split. Qed.

Example availability_of_example :
  option_map (fun out => df_records (fst out))
    (match generate_fair_data_availability ascii_library Examples.schema Examples.data_BA "AYA" with
     | Ok out => Some out
     | Raise _ => None
     end)
  = Some
      [[("Variables", CStr "Biological Sex"); ("Values", CStr "");
        ("Total AYAs", CInt 10); ("B", CInt 0); ("A", CInt 10)];
       [("Variables", CStr ""); ("Values", CStr "Male");
        ("Total AYAs", CInt 4); ("B", CInt 0); ("A", CInt 4)];
       [("Variables", CStr ""); ("Values", CStr "Female");
        ("Total AYAs", CInt 0); ("B", CInt 0); ("A", CInt 0)];
       [("Variables", CStr "Age"); ("Values", CStr "");
        ("Total AYAs", CInt 7); ("B", CInt 0); ("A", CInt 7)]].
Proof. vm_compute. reflexivity. Qed.

Example availability_of_empty_schema :
  generate_fair_data_availability ascii_library {| schema_variable_info := None |}
    Examples.data_BA "AYA"
  = Raise ZeroDivisionError.
Proof. reflexivity. Qed.

Example completeness_of_example :
  option_map (fun fig => (trace_x (complete fig), trace_y (complete fig),
                          trace_y (incomplete fig)))
    (match generate_completeness_chart ascii_library Examples.table "AYA" with
     | Ok fig => Some fig
     | Raise _ => None
     end)
  = Some (["Age"; "Biological Sex"], [0; 7], [7; 3]).
Proof. vm_compute. reflexivity. Qed.

Example completeness_of_repeated_label_example :
  option_map (fun fig => (trace_x (complete fig), trace_y (complete fig),
                          trace_y (incomplete fig)))
    (match generate_completeness_chart ascii_library Examples.table_repeated
             "AYA" with
     | Ok fig => Some fig
     | Raise _ => None
     end)
  = Some (["Sex"; "Sex"; "Sex"; "Sex"], [7; 3; 7; 3], [3; 3; 0; 0]).
Proof. vm_compute. reflexivity. Qed.

Example percent_of_negative_zero :
  percent_2f (-1) 1000 0 = "-0.00" /\ percent_2f 0 (-5) 0 = "-0.00"
  /\ percent_2f 0 5 0 = "0.00" /\ percent_2f 1 4 25 = "25.00".
Proof. repeat split. Qed.

(** ** Further properties of the charts *)

Lemma bar_names_sorted_witness :
  exists fig,
    generate_sample_size_horizontal_bar (fun _ _ => false) Examples.data_BA "AYA"
    = Ok (Some fig)
    /\ Sorted (fun a b => String.leb a b = true) (map bar_name (bar_data fig)).
Proof.
  destruct (generate_sample_size_horizontal_bar (fun _ _ => false)
              Examples.data_BA "AYA") as [[fig |] | e] eqn:Hfig;
    try (vm_compute in Hfig; discriminate).
  exists fig. split; [reflexivity |].
  exact (bar_names_sorted _ _ _ _ Hfig).
Defined.

Lemma donut_labels_sorted_witness :
  exists fig,
    generate_donut_chart Examples.data_BA "AYA" "country" = Ok (Some fig)
    /\ Sorted (fun a b => String.leb a b = true) (donut_labels fig).
Proof.
  destruct (generate_donut_chart Examples.data_BA "AYA" "country")
    as [[fig |] | e] eqn:Hfig; try (vm_compute in Hfig; discriminate).
  exists fig. split; [reflexivity |].
  exact (donut_labels_sorted _ _ _ _ Hfig).
Defined.

(** The keys after [d[k] = v]. *)
Lemma keys_set {V : Type} (d : Dict.t V) (k : string) (v : V) :
  Dict.keys (Dict.set k v d)
  = if Frame.mem k (Dict.keys d) then Dict.keys d
    else (Dict.keys d ++ [k])%list.
Proof.
  unfold Frame.mem in *.
  induction d as [| [k0 v0] r IH]; simpl; [reflexivity |].
  destruct (String.eqb_spec k k0) as [-> | Hne]; simpl; [reflexivity |].
  rewrite IH.
  now destruct (existsb (String.eqb k) (Dict.keys r)).
Qed.

Lemma set_wf {V : Type} (d : Dict.t V) (k : string) (v : V) :
  Dict.wf d -> Dict.wf (Dict.set k v d).
Proof.
  unfold Dict.wf. intros Hwf. rewrite keys_set.
  destruct (Frame.mem k (Dict.keys d)) eqn:Hm; [exact Hwf |].
  apply NoDup_app; [exact Hwf | repeat constructor; intros [] |].
  intros x Hx [<- | []].
  apply mem_In in Hx. congruence.
Qed.

(** The sample sizes of the records of one country, added up. *)
Lemma country_data_get (records : list org_record) (c : string) :
  forall country_data,
    Dict.get c (fold_left add_country records country_data)
    = let total :=
        Py.sum (map sample_size
                    (filter (fun r => String.eqb (country r) c) records)) in
      match Dict.get c country_data with
      | Some n => Some (n + total)
      | None =>
          if existsb (fun r => String.eqb (country r) c) records
          then Some total else None
      end.
Proof.
  induction records as [| r rest IH]; intros country_data;
    cbn [fold_left filter existsb map].
  - rewrite sum_nil. destruct (Dict.get c country_data); [f_equal; lia | reflexivity].
  - rewrite IH. unfold add_country.
    destruct (String.eqb_spec (country r) c) as [<- | Hne].
    + rewrite get_set_same. cbn [orb map]. rewrite sum_cons.
      destruct (Dict.get (country r) country_data); cbv zeta; f_equal; lia.
    + rewrite get_set_other by congruence. reflexivity.
Qed.

Lemma country_data_wf (records : list org_record) :
  forall country_data,
    Dict.wf country_data -> Dict.wf (fold_left add_country records country_data).
Proof.
  induction records as [| r rest IH]; intros country_data Hwf;
    cbn [fold_left]; [exact Hwf |].
  apply IH. unfold add_country. now apply set_wf.
Qed.

(** X3: in the country chart every slice is a country of the latest snapshot
    and carries the sum of the sample sizes of that country's organisations;
    every country of the snapshot has its slice. *)
Theorem donut_country_totals
    (descriptive_data : descriptive_data_t) (text : string)
    (fig : donut_figure) (latest : snapshot) :
  latest_data descriptive_data = Ok latest ->
  generate_donut_chart descriptive_data text "country" = Ok (Some fig) ->
  forall c n,
    In (c, n) (combine (donut_labels fig) (donut_values fig))
    <-> (exists org r, In (org, r) latest /\ country r = c)
        /\ n = Py.sum (map sample_size
                           (filter (fun r => String.eqb (country r) c)
                                   (Dict.values latest))).
Proof.
  intros Hl Hfig c n.
  rewrite (donut_country_pairs _ _ _ _ Hl Hfig), sorted_by_In.
  pose proof (country_data_get (Dict.values latest) c []) as Hget.
  cbn [Dict.get] in Hget. cbv zeta in Hget.
  assert (Hwf : Dict.wf (fold_left add_country (Dict.values latest) []))
    by (apply country_data_wf; constructor).
  assert (Hex : existsb (fun r => String.eqb (country r) c) (Dict.values latest) = true
                <-> exists org r, In (org, r) latest /\ country r = c).
  { rewrite existsb_exists. unfold Dict.values. split.
    - intros (r & Hr & Hc). apply in_map_iff in Hr.
      destruct Hr as ([org r'] & <- & Hin). apply String.eqb_eq in Hc. eauto.
    - intros (org & r & Hin & Hc). exists r. split.
      + now apply (in_map snd) in Hin.
      + now apply String.eqb_eq. }
  split.
  - intros Hin. apply (wf_In_get _ _ _ Hwf) in Hin. rewrite Hin in Hget.
    destruct (existsb _ _); [| discriminate].
    injection Hget as ->. split; [now apply Hex | reflexivity].
  - intros [Hsome ->]. apply Hex in Hsome. rewrite Hsome in Hget.
    now apply get_In.
Qed.

Lemma donut_country_totals_witness :
  exists fig,
    generate_donut_chart Examples.data_AB "AYA" "country" = Ok (Some fig)
    /\ forall c n,
         In (c, n) (combine (donut_labels fig) (donut_values fig))
         <-> (exists org r, In (org, r) Examples.snapshot_AB /\ country r = c)
             /\ n = Py.sum (map sample_size
                                (filter (fun r => String.eqb (country r) c)
                                        (Dict.values Examples.snapshot_AB))).
Proof.
  destruct (generate_donut_chart Examples.data_AB "AYA" "country")
    as [[fig |] | e] eqn:Hfig; try (vm_compute in Hfig; discriminate).
  exists fig. split; [reflexivity |].
  apply (donut_country_totals Examples.data_AB "AYA" fig Examples.snapshot_AB).
  - reflexivity.
  - exact Hfig.
Defined.

(** X4: on a latest snapshot without organisations the organisation chart
    is a figure without slices, while the country chart raises [ValueError],
    there being nothing to unpack into labels and values. *)
Theorem donut_of_empty_snapshot
    (descriptive_data : descriptive_data_t) (text : string) :
  latest_data descriptive_data = Ok [] ->
  generate_donut_chart descriptive_data text "country" = Raise ValueError
  /\ exists fig,
       generate_donut_chart descriptive_data text "organisation" = Ok (Some fig)
       /\ donut_labels fig = [] /\ donut_values fig = [].
Proof.
  intros Hl. unfold generate_donut_chart.
  destruct descriptive_data as [| entry rest]; [discriminate |].
  rewrite Hl. cbn [bind].
  split; [reflexivity |]. eexists. split; [reflexivity |]. now split.
Qed.

Lemma donut_of_empty_snapshot_witness :
  generate_donut_chart Examples.data_no_org "AYA" "country" = Raise ValueError
  /\ exists fig,
       generate_donut_chart Examples.data_no_org "AYA" "organisation"
       = Ok (Some fig)
       /\ donut_labels fig = [] /\ donut_values fig = [].
Proof.
  apply donut_of_empty_snapshot. reflexivity.
Defined.

Lemma sum_values_set (d : Dict.t Z) (k : string) (x : Z) :
  Py.sum (Dict.values
            (Dict.set k (match Dict.get k d with Some n => n | None => 0 end + x) d))
  = Py.sum (Dict.values d) + x.
Proof.
  unfold Dict.values.
  induction d as [| [k0 n0] r IH]; cbn [Dict.get Dict.set map snd].
  - rewrite sum_cons, sum_nil. lia.
  - destruct (String.eqb k k0); cbn [map snd]; rewrite !sum_cons; [lia |].
    rewrite IH. lia.
Qed.

Lemma sum_values_country_data (records : list org_record) :
  forall country_data,
    Py.sum (Dict.values (fold_left add_country records country_data))
    = Py.sum (Dict.values country_data) + Py.sum (map sample_size records).
Proof.
  induction records as [| r rest IH]; intros country_data; cbn [fold_left map].
  - rewrite sum_nil. lia.
  - rewrite IH. unfold add_country. rewrite sum_values_set, sum_cons. lia.
Qed.

Lemma sum_values_sorted (items : Dict.t Z) :
  Py.sum (Dict.values (Py.sorted_by fst items)) = Py.sum (Dict.values items).
Proof.
  unfold Py.sorted_by, Dict.values.
  assert (Hins : forall x l,
             Py.sum (map snd (Py.insert_sorted fst x l))
             = snd x + Py.sum (map (@snd string Z) l)).
  { intros x l. induction l as [| y r IH]; cbn [Py.insert_sorted map].
    - now rewrite !sum_cons.
    - destruct (String.ltb (fst x) (fst y)); cbn [map]; rewrite !sum_cons;
        [lia | rewrite IH; lia]. }
  enough (H : forall acc,
             Py.sum (map snd (fold_left (fun acc x => Py.insert_sorted fst x acc)
                                        items acc))
             = Py.sum (map snd acc) + Py.sum (map (@snd string Z) items))
    by (rewrite H; cbn [map]; rewrite sum_nil; lia).
  induction items as [| x r IH]; intros acc; cbn [fold_left map].
  - rewrite sum_nil. lia.
  - rewrite IH, Hins, sum_cons. lia.
Qed.

(** X5: whichever the chart type, the values of the donut chart add up to
    the total sample size of the latest snapshot, the number that
    [fetch_total_sample_size] reports. *)
Theorem donut_values_add_up_to_total
    (descriptive_data : descriptive_data_t) (text label chart_type : string)
    (fig : donut_figure) :
  generate_donut_chart descriptive_data text chart_type = Ok (Some fig) ->
  let total := Py.sum (donut_values fig) in
  fetch_total_sample_size descriptive_data label
  = Ok (Some [Text (Py.str_int total); Br;
              Text (label ++ (if 1 <? total then "s" else ""))]).
Proof.
  unfold generate_donut_chart, fetch_total_sample_size.
  destruct descriptive_data as [| entry rest]; [discriminate |].
  destruct (latest_data (entry :: rest)) as [latest | e]; [| discriminate].
  cbn [bind].
  assert (Hsum : forall fig',
             (if String.eqb chart_type "organisation" then
                Ok (Some (Py.sorted (Dict.keys latest),
                          map sample_size (Dict.values latest),
                          text ++ "s per organisation"))
              else if String.eqb chart_type "country" then
                match Py.sorted_by fst (fold_left add_country (Dict.values latest) []) with
                | [] => Raise ValueError
                | items => Ok (Some (map fst items, map snd items,
                                     text ++ "s per country"))
                end
              else Ok None)
             = Ok (Some fig') ->
             Py.sum (snd (fst fig')) = Py.sum (map sample_size (Dict.values latest))).
  { intros [[labels values] title].
    destruct (String.eqb chart_type "organisation").
    - now intros [= _ <- _].
    - destruct (String.eqb chart_type "country"); [| discriminate].
      pose proof (sum_values_sorted (fold_left add_country (Dict.values latest) []))
        as Hs.
      rewrite sum_values_country_data in Hs. cbn [Dict.values map] in Hs.
      rewrite sum_nil in Hs.
      destruct (Py.sorted_by fst _) as [| item items]; [discriminate |].
      intros [= _ <- _]. cbn [fst snd]. unfold Dict.values in *.
      cbn [map] in Hs. lia. }
  destruct (if String.eqb chart_type "organisation" then _ else _)
    as [[[[labels values] title] |] | e] eqn:Hlocals; cbn [bind];
    try discriminate.
  intros [= <-]. cbn [donut_values]. cbv zeta.
  pose proof (Hsum _ eq_refl) as Htotal. cbn [fst snd] in Htotal.
  now rewrite Htotal.
Qed.

Lemma donut_values_add_up_to_total_witness :
  exists fig,
    generate_donut_chart Examples.data_AB "AYA" "country" = Ok (Some fig)
    /\ let total := Py.sum (donut_values fig) in
       fetch_total_sample_size Examples.data_AB "AYA"
       = Ok (Some [Text (Py.str_int total); Br;
                   Text ("AYA" ++ (if 1 <? total then "s" else ""))]).
Proof.
  destruct (generate_donut_chart Examples.data_AB "AYA" "country")
    as [[fig |] | e] eqn:Hfig; try (vm_compute in Hfig; discriminate).
  exists fig. split; [reflexivity |].
  exact (donut_values_add_up_to_total Examples.data_AB "AYA" "AYA" "country" fig Hfig).
Defined.

(** ** Snapshots stored in ascending order *)

Lemma insert_sorted_last (x : string) (acc : list string) :
  (forall y, In y acc -> String.leb y x = true) ->
  Py.insert_sorted (fun s => s) x acc = (acc ++ [x])%list.
Proof.
  induction acc as [| y r IH]; intros Hle; cbn [Py.insert_sorted]; [reflexivity |].
  destruct (String.ltb x y) eqn:Hxy.
  - exfalso. apply (str_gt_not_leb y x Hxy). apply Hle. now left.
  - rewrite IH; [reflexivity |]. intros z Hz. apply Hle. now right.
Qed.

(** A list in ascending order is left as it is by [sorted]. *)
Lemma sorted_of_ascending (l : list string) :
  Sorted (fun a b => String.leb a b = true) l -> Py.sorted l = l.
Proof.
  intros Hs.
  apply Sorted_StronglySorted in Hs;
    [| intros a b c; apply string_leb_trans].
  unfold Py.sorted, Py.sorted_by.
  enough (H : forall acc,
             (forall y x, In y acc -> In x l -> String.leb y x = true) ->
             fold_left (fun acc x => Py.insert_sorted (fun s => s) x acc) l acc
             = (acc ++ l)%list)
    by (apply (H []); intros y x []).
  induction Hs as [| x r Hr IH Hx]; intros acc Hacc; cbn [fold_left].
  - now rewrite app_nil_r.
  - rewrite insert_sorted_last by (intros y Hy; apply Hacc; [exact Hy | now left]).
    rewrite IH.
    + now rewrite <- app_assoc.
    + intros y z Hy Hz. apply in_app_or in Hy. destruct Hy as [Hy | [<- | []]].
      * apply Hacc; [exact Hy | now right].
      * rewrite Forall_forall in Hx. now apply Hx.
Qed.

Lemma nth_error_enumerate {A : Type} (l : list A) (i : nat) (x : A) :
  nth_error l i = Some x -> nth_error (enumerate l) i = Some (i, x).
Proof.
  unfold enumerate.
  enough (H : forall s, nth_error l i = Some x ->
                        nth_error (combine (seq s (length l)) l) i
                        = Some ((s + i)%nat, x))
    by (exact (H 0%nat)).
  revert i. induction l as [| a r IH]; intros [| i] s; simpl; try discriminate.
  - intros [= <-]. now rewrite Nat.add_0_r.
  - intros Hx. rewrite (IH i (S s) Hx). f_equal. f_equal. lia.
Qed.

(** Away from a half-way point the rounded proportion is the hundredth
    nearest to the quotient, whatever the choice at half-way points. *)
Lemma round_ndigits2_nearest (tie : Z -> Z -> bool) (size total p : Z) :
  0 <= size -> 0 < total ->
  2 * ((100 * size) mod total) <> total ->
  round_ndigits2 tie size total = Ok p ->
  Z.abs (200 * size - 2 * p * total) < total.
Proof.
  intros Hsize Htotal Hhalf. unfold round_ndigits2.
  destruct (Z.eqb_spec total 0) as [| _]; [lia |].
  destruct (Z.ltb_spec total 0) as [| _]; [lia |].
  rewrite (Z.abs_eq total) by lia.
  pose proof (Z.div_mod (100 * size) total ltac:(lia)) as Hdiv.
  pose proof (Z.mod_pos_bound (100 * size) total Htotal) as Hmod.
  set (f := 100 * size / total) in *.
  set (r := (100 * size) mod total) in *.
  assert (Hf : total * f = f * total) by apply Z.mul_comm.
  destruct (Z.ltb_spec (2 * r) total).
  - intros [= <-]. lia.
  - destruct (Z.ltb_spec total (2 * r)); [| lia].
    intros [= <-]. lia.
Qed.

(** The share of a sample size that is not negative prints without a
    sign. *)
Lemma percent_2f_of_share (size total hundredths : Z) :
  0 <= size -> 0 < total ->
  percent_2f size total hundredths = Py.str_int hundredths ++ ".00".
Proof.
  intros Hsize Htotal. unfold percent_2f.
  destruct (Z.ltb_spec size 0) as [| _]; [lia |].
  destruct (Z.ltb_spec total 0) as [| _]; [lia |].
  cbn [andb orb]. now rewrite !andb_false_r.
Qed.

(** X6: when the latest snapshot stores its organisations in ascending order
    of their names, with no negative sample size, a total below 2^44 and no
    share of the total half way between two hundredths, every bar carries
    the name, the proportion and the sample size of one and the same
    organisation: its proportion is the hundredth nearest to the
    organisation's share of the total, and its hover text prints the
    organisation's sample size and that proportion. *)
Theorem bars_of_ascending_snapshot
    (tie : Z -> Z -> bool) (descriptive_data : descriptive_data_t)
    (text : string) (fig : bar_figure) (latest : snapshot) :
  latest_data descriptive_data = Ok latest ->
  Sorted (fun a b => String.leb a b = true) (Dict.keys latest) ->
  (forall org r, In (org, r) latest ->
     0 <= sample_size r
     /\ 2 * ((100 * sample_size r) mod snapshot_total latest)
        <> snapshot_total latest) ->
  snapshot_total latest < 2 ^ 44 ->
  generate_sample_size_horizontal_bar tie descriptive_data text = Ok (Some fig) ->
  forall i org r,
    nth_error latest i = Some (org, r) ->
    exists b p,
      nth_error (bar_data fig) i = Some b
      /\ bar_name b = org
      /\ bar_x b = [p]
      /\ Z.abs (200 * sample_size r - 2 * p * snapshot_total latest)
         < snapshot_total latest
      /\ bar_hovertemplate b
         = org ++ " has made data of " ++ Py.str_int (sample_size r) ++ " "
           ++ text ++ (if 1 <? sample_size r then "s" else "")
           ++ " available, which is " ++ (Py.str_int p ++ ".00")
           ++ "% of all available " ++ text ++ " data.".
Proof.
  intros Hl Hs Hsizes _. unfold generate_sample_size_horizontal_bar.
  destruct descriptive_data as [| entry rest]; [discriminate |].
  rewrite Hl. cbn [bind]. fold (snapshot_total latest).
  destruct (mapM _ _) as [proportions | e] eqn:Hps; [| discriminate].
  cbn [bind]. intros [= <-] i org r Hi. cbn [bar_data].
  rewrite (sorted_of_ascending _ Hs).
  assert (Horg : nth_error (Dict.keys latest) i = Some org).
  { unfold Dict.keys. rewrite nth_error_map, Hi. reflexivity. }
  assert (Hsize : nth_error (map sample_size (Dict.values latest)) i
                  = Some (sample_size r)).
  { unfold Dict.values. rewrite !nth_error_map, Hi. reflexivity. }
  destruct (mapM_Ok_nth _ _ _ Hps i _ Hsize) as (p & Hp & Hround).
  destruct (Hsizes org r (nth_error_In _ _ Hi)) as [Hpos Hhalf].
  assert (Htotal : 0 < snapshot_total latest).
  { destruct (round_ndigits2_bound _ _ _ _ Hround) as [Hne _].
    assert (0 <= snapshot_total latest); [| lia].
    apply sum_nonneg. intros x Hx. unfold Dict.values in Hx.
    rewrite map_map in Hx. apply in_map_iff in Hx.
    destruct Hx as ([org' r'] & <- & Hin). exact (proj1 (Hsizes org' r' Hin)). }
  rewrite nth_error_map, (nth_error_enumerate _ _ _ Horg). cbn [option_map].
  eexists _, p. split; [reflexivity |]. cbn [bar_name bar_x bar_hovertemplate].
  rewrite (nth_error_nth _ _ 0 Hp), (nth_error_nth _ _ 0 Hsize).
  split; [reflexivity |]. split; [reflexivity |].
  split; [exact (round_ndigits2_nearest _ _ _ _ Hpos Htotal Hhalf Hround) |].
  now rewrite (percent_2f_of_share _ _ _ Hpos Htotal).
Qed.

Lemma bars_of_ascending_snapshot_witness :
  exists fig,
    generate_sample_size_horizontal_bar (fun _ _ => false) Examples.data_ABC "AYA"
    = Ok (Some fig)
    /\ forall i org r,
         nth_error Examples.snapshot_ABC i = Some (org, r) ->
         exists b p,
           nth_error (bar_data fig) i = Some b
           /\ bar_name b = org
           /\ bar_x b = [p]
           /\ Z.abs (200 * sample_size r
                     - 2 * p * snapshot_total Examples.snapshot_ABC)
              < snapshot_total Examples.snapshot_ABC
           /\ bar_hovertemplate b
              = org ++ " has made data of " ++ Py.str_int (sample_size r) ++ " "
                ++ "AYA" ++ (if 1 <? sample_size r then "s" else "")
                ++ " available, which is " ++ (Py.str_int p ++ ".00")
                ++ "% of all available " ++ "AYA" ++ " data.".
Proof.
  destruct (generate_sample_size_horizontal_bar (fun _ _ => false)
              Examples.data_ABC "AYA") as [[fig |] | e] eqn:Hfig;
    try (vm_compute in Hfig; discriminate).
  exists fig. split; [reflexivity |].
  apply (bars_of_ascending_snapshot (fun _ _ => false) Examples.data_ABC "AYA" fig
           Examples.snapshot_ABC).
  - reflexivity.
  - repeat constructor.
  - intros org r [H | [H | [H | []]]]; injection H as <- <-;
      (split; [simpl; lia | vm_compute; discriminate]).
  - reflexivity.
  - exact Hfig.
Defined.

(** X7: when the latest snapshot stores its organisations in ascending order
    of their names, the organisation chart pairs every organisation with its
    own sample size, in the order of the snapshot. *)
Theorem donut_of_ascending_snapshot
    (descriptive_data : descriptive_data_t) (text : string)
    (fig : donut_figure) (latest : snapshot) :
  latest_data descriptive_data = Ok latest ->
  Sorted (fun a b => String.leb a b = true) (Dict.keys latest) ->
  generate_donut_chart descriptive_data text "organisation" = Ok (Some fig) ->
  combine (donut_labels fig) (donut_values fig)
  = map (fun '(org, r) => (org, sample_size r)) latest.
Proof.
  intros Hl Hs. unfold generate_donut_chart.
  destruct descriptive_data as [| entry rest]; [discriminate |].
  rewrite Hl. cbn [bind].
  change (String.eqb "organisation" "organisation") with true. cbv iota.
  cbn [bind]. intros [= <-]. cbn [donut_labels donut_values].
  rewrite (sorted_of_ascending _ Hs). unfold Dict.keys, Dict.values.
  clear. induction latest as [| [org r] rest IH]; simpl; [reflexivity |].
  now rewrite IH.
Qed.

Lemma donut_of_ascending_snapshot_witness :
  exists fig,
    generate_donut_chart Examples.data_AB "AYA" "organisation" = Ok (Some fig)
    /\ combine (donut_labels fig) (donut_values fig)
       = map (fun '(org, r) => (org, sample_size r)) Examples.snapshot_AB.
Proof.
  destruct (generate_donut_chart Examples.data_AB "AYA" "organisation")
    as [[fig |] | e] eqn:Hfig; try (vm_compute in Hfig; discriminate).
  exists fig. split; [reflexivity |].
  apply (donut_of_ascending_snapshot Examples.data_AB "AYA" fig Examples.snapshot_AB).
  - reflexivity.
  - repeat constructor.
  - exact Hfig.
Defined.

(** ** Range of the proportions *)

Lemma mapM_Ok_In {A B : Type} (f : A -> result B) (l : list A) (ys : list B) :
  mapM f l = Ok ys ->
  forall y, In y ys -> exists x, In x l /\ f x = Ok y.
Proof.
  revert ys. induction l as [| a r IH]; intros ys; cbn [mapM].
  - intros [= <-] y [].
  - destruct (f a) as [b | e] eqn:Ha; cbn [bind]; [| discriminate].
    destruct (mapM f r) as [ys' | e]; cbn [bind]; [| discriminate].
    intros [= <-] y [<- | Hy].
    + exists a. split; [now left | exact Ha].
    + destruct (IH ys' eq_refl y Hy) as (x & Hx & Hfx).
      exists x. split; [now right | exact Hfx].
Qed.

Lemma In_le_sum (l : list Z) (x : Z) :
  (forall y, In y l -> 0 <= y) -> In x l -> x <= Py.sum l.
Proof.
  induction l as [| a r IH]; intros H Hx; [destruct Hx |].
  destruct Hx as [<- | Hx]; rewrite sum_cons.
  - assert (0 <= Py.sum r) by (apply sum_nonneg; intros y Hy; apply H; now right).
    lia.
  - assert (0 <= a) by (apply H; now left).
    assert (x <= Py.sum r) by (apply IH; [intros y Hy; apply H; now right | exact Hx]).
    lia.
Qed.

(** X8: when no sample size of the latest snapshot is negative, every
    proportion of the bar chart lies between 0 and 1 (between 0 and 100
    hundredths). *)
Theorem proportions_in_unit_interval
    (tie : Z -> Z -> bool) (descriptive_data : descriptive_data_t)
    (text : string) (fig : bar_figure) (latest : snapshot) :
  latest_data descriptive_data = Ok latest ->
  (forall org r, In (org, r) latest -> 0 <= sample_size r) ->
  generate_sample_size_horizontal_bar tie descriptive_data text = Ok (Some fig) ->
  forall p, In p (flat_map bar_x (bar_data fig)) -> 0 <= p <= 100.
Proof.
  intros Hl Hpos. unfold generate_sample_size_horizontal_bar.
  destruct descriptive_data as [| entry rest]; [discriminate |].
  rewrite Hl. cbn [bind].
  set (sizes := map sample_size (Dict.values latest)).
  destruct (mapM _ sizes) as [ps | e] eqn:Hps; [| discriminate].
  cbn [bind]. intros [= <-] p. cbn [bar_data].
  rewrite (bars_x ps); [| reflexivity |].
  - intros Hp.
    destruct (mapM_Ok_In _ _ _ Hps p Hp) as (s & Hs & Hround).
    assert (Hsizes : forall y, In y sizes -> 0 <= y).
    { intros y Hy. unfold sizes, Dict.values in Hy. rewrite map_map in Hy.
      apply in_map_iff in Hy. destruct Hy as ([org r] & <- & Hin).
      exact (Hpos org r Hin). }
    pose proof (Hsizes s Hs) as Hs0.
    pose proof (In_le_sum sizes s Hsizes Hs) as HsT.
    apply round_ndigits2_bound in Hround. destruct Hround as [HT Hb].
    set (T := Py.sum sizes) in *. clearbody T.
    assert (0 < T) by lia.
    rewrite (Z.abs_eq T) in Hb by lia.
    apply Z.abs_le in Hb. destruct Hb as [Hlow Hhigh].
    split.
    + assert (0 <= T * (2 * p + 1)) by nia.
      assert (0 <= 2 * p + 1)
        by (apply Z.mul_nonneg_cancel_l with T; lia).
      lia.
    + assert (T * (2 * p) <= T * 201) by nia.
      assert (2 * p <= 201) by (apply Z.mul_le_mono_pos_l with T; lia).
      lia.
  - unfold Py.sorted. rewrite sorted_by_length.
    rewrite (mapM_Ok_length _ _ _ Hps). unfold sizes, Dict.keys, Dict.values.
    now rewrite !length_map.
Qed.

Lemma proportions_in_unit_interval_witness :
  exists fig,
    generate_sample_size_horizontal_bar (fun _ _ => false) Examples.data_BA "AYA"
    = Ok (Some fig)
    /\ forall p, In p (flat_map bar_x (bar_data fig)) -> 0 <= p <= 100.
Proof.
  destruct (generate_sample_size_horizontal_bar (fun _ _ => false)
              Examples.data_BA "AYA") as [[fig |] | e] eqn:Hfig;
    try (vm_compute in Hfig; discriminate).
  exists fig. split; [reflexivity |].
  apply (proportions_in_unit_interval (fun _ _ => false) Examples.data_BA "AYA" fig
           Examples.snapshot_BA).
  - reflexivity.
  - intros org r [H | [H | []]]; injection H as <- <-; simpl; lia.
  - exact Hfig.
Defined.

(** ** What the table builder returns and raises *)

Lemma max_key_from_In {K : Type} (key : string -> result K)
    (gt : K -> K -> result bool) (l : list string) :
  forall cur kcur k,
    Py.max_key_from key gt cur kcur l = Ok k -> k = cur \/ In k l.
Proof.
  induction l as [| x r IH]; intros cur kcur k; cbn [Py.max_key_from].
  - intros [= <-]. now left.
  - destruct (key x) as [kx | e]; cbn [bind]; [| discriminate].
    destruct (gt kx kcur) as [[|] | e]; cbn [bind]; [| | discriminate];
      intros H; apply IH in H; simpl; intuition congruence.
Qed.

(** The most recent timestamp is a key of the dictionary. *)
Lemma most_recent_timestamp_In {lib : library} (d : descriptive_data_t) (ts : string) :
  most_recent_timestamp lib d = Ok ts -> In ts (Dict.keys d).
Proof.
  unfold most_recent_timestamp, Py.max_key.
  destruct (Dict.keys d) as [| x r]; [discriminate |].
  destruct (datetime_fromisoformat lib x) as [kx | e]; cbn [bind]; [| discriminate].
  intros H. apply max_key_from_In in H. simpl. intuition congruence.
Qed.




(** ** Columns, rows and tooltips of the availability table *)

Lemma keys_set_add_key {V : Type} (d : Dict.t V) (k : string) (v : V) :
  Dict.keys (Dict.set k v d) = add_key (Dict.keys d) k.
Proof. apply keys_set. Qed.

Lemma add_key_again (ks : list string) (k : string) :
  add_key (add_key ks k) k = add_key ks k.
Proof.
  unfold add_key at 2 3.
  destruct (Frame.mem k ks) eqn:Hm.
  - unfold add_key. now rewrite Hm.
  - unfold add_key.
    assert (Hin : Frame.mem k (ks ++ [k]) = true)
      by (apply mem_In, in_or_app; right; now left).
    now rewrite Hin.
Qed.

(** Over fresh and distinct keys the assignments append the keys. *)
Lemma add_keys_fresh (l acc : list string) :
  NoDup (acc ++ l) -> fold_left add_key l acc = (acc ++ l)%list.
Proof.
  revert acc. induction l as [| k r IH]; intros acc Hnd; cbn [fold_left].
  - now rewrite app_nil_r.
  - assert (Hm : Frame.mem k acc = false).
    { destruct (Frame.mem k acc) eqn:Hm; [| reflexivity].
      apply mem_In in Hm. apply NoDup_remove_2 in Hnd.
      exfalso. apply Hnd, in_or_app. now left. }
    unfold add_key at 2. rewrite Hm, IH.
    + now rewrite <- app_assoc.
    + now rewrite <- app_assoc.
Qed.

Lemma build_org_variable_info_keys (latest : snapshot) (c : string)
    (organizations : list string) :
  Dict.keys (build_org_variable_info latest c organizations)
  = fold_left add_key organizations [].
Proof.
  unfold build_org_variable_info.
  change (@nil string) with (Dict.keys (@nil (string * list local_variable_info))).
  generalize (@nil (string * list local_variable_info)).
  induction organizations as [| o r IH]; intros acc; cbn [fold_left];
    [reflexivity |].
  now rewrite IH, keys_set_add_key.
Qed.

Section RowKeys.

Variables c s : string.
Variable count : local_variable_info -> Z.
Variable hit : string -> Z -> string.
Variable miss : string -> string.

Lemma scan_info_list_keys (o : string) (info_list : list local_variable_info)
    (st : row * tooltip_row_t) :
  let st' := scan_info_list c s count (hit o) (miss o) o info_list st in
  match info_list with
  | [] => st' = st
  | _ :: _ =>
      Dict.keys (fst st') = add_key (Dict.keys (fst st)) o
      /\ Dict.keys (snd st') = add_key (Dict.keys (snd st)) o
  end.
Proof.
  revert st. induction info_list as [| info rest IH]; intros st;
    cbn [scan_info_list]; [reflexivity |].
  destruct (matches c s info); cbn [fst snd].
  - now rewrite !keys_set_add_key.
  - specialize (IH (Dict.set o (CInt 0) (fst st), Dict.set o (miss o) (snd st))).
    cbv zeta in IH. destruct rest as [| info' rest'].
    + rewrite IH. cbn [fst snd]. now rewrite !keys_set_add_key.
    + destruct IH as [IH1 IH2]. rewrite IH1, IH2. cbn [fst snd].
      now rewrite !keys_set_add_key, !add_key_again.
Qed.

(** The cells and the tooltips get their keys by the same assignments. *)
Lemma fill_cells_keys (entries : Dict.t (list local_variable_info))
    (st : row * tooltip_row_t) :
  Dict.keys (fst (fill_cells c s count hit miss entries st))
  = fold_left add_key (Dict.keys entries) (Dict.keys (fst st))
  /\ Dict.keys (snd (fill_cells c s count hit miss entries st))
     = fold_left add_key (Dict.keys entries) (Dict.keys (snd st)).
Proof.
  unfold fill_cells. revert st.
  induction entries as [| [o il] r IH]; intros st;
    cbn [fold_left Dict.keys map fst]; [now split |].
  match goal with
  | |- context [fold_left ?f r ?st1] =>
      destruct (IH st1) as [IH1 IH2]; rewrite IH1, IH2
  end.
  destruct il as [| info rest].
  - cbn [fst snd]. now rewrite !keys_set_add_key.
  - destruct (scan_info_list_keys o (info :: rest) st) as [H1 H2].
    now rewrite H1, H2.
Qed.

End RowKeys.

(** Every row and every tooltip row of a variable has the keys [row_keys]. *)
Lemma rows_of_variable_keys {lib : library} (text : string) (latest : snapshot)
    (variable : string) (info : variable_schema) (rt : row * tooltip_row_t) :
  In rt (rows_of_variable lib text latest (Dict.keys latest) variable info) ->
  Dict.keys (fst rt) = row_keys text latest
  /\ Dict.keys (snd rt) = row_keys text latest.
Proof.
  unfold rows_of_variable, row_keys. intros [<- | Hin].
  - unfold variable_rows.
    match goal with
    | |- context [fill_cells ?c ?s ?count ?hit ?miss ?e ?st] =>
        destruct (fill_cells_keys c s count hit miss e st) as [H1 H2]
    end.
    rewrite H1, H2, build_org_variable_info_keys. now split.
  - apply in_map_iff in Hin. destruct Hin as ([value value_info] & <- & _).
    unfold value_rows.
    match goal with
    | |- context [fill_cells ?c ?s ?count ?hit ?miss ?e ?st] =>
        destruct (fill_cells_keys c s count hit miss e st) as [H1 H2]
    end.
    rewrite H1, H2, build_org_variable_info_keys. now split.
Qed.

(** The rows that [generate_fair_data_availability] builds, with their
    tooltip rows, and what it returns of them. *)
Lemma generate_unfolded {lib : library} (global_schema_data : global_schema)
    (descriptive_data : descriptive_data_t) (text ts : string)
    (latest : snapshot) (df : data_frame) (table : data_table) :
  most_recent_timestamp lib descriptive_data = Ok ts ->
  Dict.get ts descriptive_data = Some latest ->
  generate_fair_data_availability lib global_schema_data descriptive_data text
  = Ok (df, table) ->
  exists rows,
    (forall rt, In rt rows ->
                exists variable info,
                  In rt (rows_of_variable lib text latest (Dict.keys latest)
                           variable info))
    /\ df = DataFrame (map fst rows)
    /\ create_data_table (display df) (map snd rows) = Ok table.
Proof.
  intros Hts Hget. unfold generate_fair_data_availability.
  rewrite Hts. cbn [bind]. rewrite Hget. cbn [bind].
  set (rows := flat_map _ _).
  destruct (create_data_table _ _) as [t | e] eqn:Ht; cbn [bind]; [| discriminate].
  intros [= <- <-]. exists rows. repeat split; auto.
  intros rt Hrt. unfold rows in Hrt. apply in_flat_map in Hrt.
  destruct Hrt as (variable & _ & Hrt).
  destruct (Dict.get variable _) as [info |]; [eauto | destruct Hrt].
Qed.

(** X10: in the table that is returned every row has the same keys, which
    are the columns of the table, and every cell has a tooltip: no entry of
    the tooltip data is [None]. *)
Theorem availability_rows_and_tooltips_share_columns (lib : library)
    (global_schema_data : global_schema) (descriptive_data : descriptive_data_t)
    (text : string) (df : data_frame) (table : data_table) :
  generate_fair_data_availability lib global_schema_data descriptive_data text
  = Ok (df, table) ->
  table_columns table = df_columns df
  /\ (forall r, In r (df_records df) -> Dict.keys r = df_columns df)
  /\ (forall r, In r (table_data table) -> Dict.keys r = df_columns df)
  /\ length (table_tooltip_data table) = length (df_records df)
  /\ forall tooltip, In tooltip (table_tooltip_data table) ->
       Dict.keys tooltip = df_columns df
       /\ forall column v, In (column, v) tooltip -> v <> None.
Proof.
  intros Hgen.
  destruct (most_recent_timestamp lib descriptive_data) as [ts | e] eqn:Hts;
    [| unfold generate_fair_data_availability in Hgen; rewrite Hts in Hgen;
       discriminate].
  destruct (In_keys_get _ _ (most_recent_timestamp_In _ _ Hts)) as [latest Hget].
  destruct (generate_unfolded _ _ _ _ _ _ _ Hts Hget Hgen)
    as (rows & Hrows & -> & Htable).
  assert (Hkeys : forall rt, In rt rows ->
                    Dict.keys (fst rt) = row_keys text latest
                    /\ Dict.keys (snd rt) = row_keys text latest).
  { intros rt Hrt. destruct (Hrows rt Hrt) as (variable & info & Hin).
    now apply rows_of_variable_keys in Hin. }
  unfold create_data_table in Htable.
  change (df_columns (display (DataFrame (map fst rows))))
    with (df_columns (DataFrame (map fst rows))) in Htable.
  destruct (df_columns (DataFrame (map fst rows))) as [| k0 ks] eqn:Hk0;
    [discriminate |].
  injection Htable as <-. cbn [table_columns table_data table_tooltip_data].
  assert (HK : forall rt, In rt rows ->
                 Dict.keys (fst rt) = k0 :: ks /\ Dict.keys (snd rt) = k0 :: ks).
  { destruct rows as [| rt0 rows']; [discriminate |].
    change (Dict.keys (fst rt0) = k0 :: ks) in Hk0.
    rewrite <- Hk0, (proj1 (Hkeys rt0 (or_introl eq_refl))). exact Hkeys. }
  clear Hk0 Hkeys Hrows.
  split; [reflexivity |]. split; [| split; [| split]].
  - cbn [DataFrame df_records]. intros r Hr.
    apply in_map_iff in Hr. destruct Hr as (rt & <- & Hrt). now apply HK.
  - cbn [display DataFrame df_records]. intros r Hr.
    rewrite map_map in Hr.
    apply in_map_iff in Hr. destruct Hr as (rt & <- & Hrt).
    rewrite <- (proj1 (HK rt Hrt)).
    unfold Dict.keys. rewrite map_map. apply map_ext.
    intros [col x]. cbn [fst].
    destruct (existsb _ _); [destruct x |]; reflexivity.
  - cbn [display DataFrame df_records]. now rewrite !length_map.
  - intros tooltip Htt. apply in_map_iff in Htt.
    destruct Htt as (tt & <- & Htt).
    apply in_map_iff in Htt. destruct Htt as (rt & <- & Hrt).
    cbv beta. split.
    + change (Dict.keys (map (fun column => (column, Dict.get column (snd rt)))
                             (k0 :: ks)) = k0 :: ks).
      unfold Dict.keys. rewrite map_map. cbn [fst]. now rewrite map_id.
    + intros column v Hv.
      change (In (column, v)
                 (map (fun column => (column, Dict.get column (snd rt)))
                      (k0 :: ks))) in Hv.
      apply in_map_iff in Hv.
      destruct Hv as (col & Heq & Hcol). injection Heq as <- <-.
      rewrite <- (proj2 (HK rt Hrt)) in Hcol.
      destruct (In_keys_get _ _ Hcol) as [text' ->]. discriminate.
Qed.

Lemma availability_rows_and_tooltips_share_columns_witness :
  exists df table,
    generate_fair_data_availability ascii_library Examples.schema Examples.data_BA "AYA"
    = Ok (df, table)
    /\ table_columns table = df_columns df
    /\ (forall r, In r (df_records df) -> Dict.keys r = df_columns df)
    /\ (forall r, In r (table_data table) -> Dict.keys r = df_columns df)
    /\ length (table_tooltip_data table) = length (df_records df)
    /\ forall tooltip, In tooltip (table_tooltip_data table) ->
         Dict.keys tooltip = df_columns df
         /\ forall column v, In (column, v) tooltip -> v <> None.
Proof.
  destruct (generate_fair_data_availability ascii_library Examples.schema Examples.data_BA "AYA")
    as [[df table] | e] eqn:Hgen; [| vm_compute in Hgen; discriminate].
  exists df, table. split; [reflexivity |].
  exact (availability_rows_and_tooltips_share_columns _ _ _ _ _ _ Hgen).
Defined.

(** The keys of a row when the organisations are distinct and none is
    named like a leading column. *)
Lemma row_keys_explicit (text : string) (latest : snapshot) :
  Dict.wf latest ->
  (forall org, In org (Dict.keys latest) ->
               org <> "Variables" /\ org <> "Values" /\ org <> total_column text) ->
  row_keys text latest
  = "Variables" :: "Values" :: total_column text :: Dict.keys latest.
Proof.
  intros Hwf Hnames. unfold row_keys.
  rewrite (add_keys_fresh (Dict.keys latest) []) by exact Hwf.
  cbn [List.app]. rewrite add_keys_fresh; [reflexivity |].
  cbn [List.app].
  repeat constructor; try exact Hwf; cbn [In]; intros H;
    repeat match goal with
           | H : _ \/ _ |- _ => destruct H as [H | H]
           end;
    try discriminate H;
    try (unfold total_column in H; discriminate H);
    try (destruct (Hnames _ H) as (? & ? & ?); congruence).
Qed.

(** The table shown has the columns of the frame. *)
Lemma generated_table_columns {lib : library} (global_schema_data : global_schema)
    (descriptive_data : descriptive_data_t) (text : string)
    (df : data_frame) (table : data_table) :
  generate_fair_data_availability lib global_schema_data descriptive_data text
  = Ok (df, table) ->
  table_columns table = df_columns df.
Proof.
  unfold generate_fair_data_availability.
  destruct (most_recent_timestamp lib descriptive_data) as [ts | e]; [| discriminate].
  cbn [bind].
  destruct (Dict.get ts descriptive_data) as [latest |]; [| discriminate].
  cbn [bind].
  destruct (create_data_table _ _) as [t | e] eqn:Ht; cbn [bind]; [| discriminate].
  intros [= <- <-]. unfold create_data_table in Ht.
  destruct (df_columns (display _)) as [| k0 ks] eqn:Hk; [discriminate |].
  injection Ht as <-. cbn [table_columns]. symmetry. exact Hk.
Qed.

(** The columns of the frame when the organisations are distinct and none
    is named like a leading column. *)
Lemma generated_columns_explicit {lib : library} (global_schema_data : global_schema)
    (descriptive_data : descriptive_data_t) (text ts : string)
    (latest : snapshot) (df : data_frame) (table : data_table) :
  most_recent_timestamp lib descriptive_data = Ok ts ->
  Dict.get ts descriptive_data = Some latest ->
  Dict.wf latest ->
  (forall org, In org (Dict.keys latest) ->
               org <> "Variables" /\ org <> "Values" /\ org <> total_column text) ->
  generate_fair_data_availability lib global_schema_data descriptive_data text
  = Ok (df, table) ->
  df_columns df
  = "Variables" :: "Values" :: total_column text :: Dict.keys latest.
Proof.
  intros Hts Hget Hwf Hnames Hgen.
  destruct (generate_unfolded _ _ _ _ _ _ _ Hts Hget Hgen)
    as (rows & Hin & -> & Htable).
  destruct rows as [| rt0 rows']; [discriminate |].
  destruct (Hin rt0 (or_introl eq_refl)) as (variable & info & Hrt0).
  apply rows_of_variable_keys in Hrt0.
  change (df_columns (DataFrame (map fst (rt0 :: rows'))))
    with (Dict.keys (fst rt0)).
  rewrite (proj1 Hrt0). now apply row_keys_explicit.
Qed.

(** X11: when the organisations of the selected snapshot are distinct and
    none is named like a leading column, the columns of the table are
    ['Variables'], ['Values'], the total column, and one column per
    organisation in the order of the snapshot. *)
Theorem availability_columns (lib : library)
    (global_schema_data : global_schema) (descriptive_data : descriptive_data_t)
    (text ts : string) (latest : snapshot) (df : data_frame) (table : data_table) :
  most_recent_timestamp lib descriptive_data = Ok ts ->
  Dict.get ts descriptive_data = Some latest ->
  Dict.wf latest ->
  (forall org, In org (Dict.keys latest) ->
               org <> "Variables" /\ org <> "Values" /\ org <> total_column text) ->
  generate_fair_data_availability lib global_schema_data descriptive_data text
  = Ok (df, table) ->
  df_columns df
  = "Variables" :: "Values" :: total_column text :: Dict.keys latest
  /\ table_columns table = df_columns df.
Proof.
  intros Hts Hget Hwf Hnames Hgen. split.
  - exact (generated_columns_explicit _ _ _ _ _ _ _ Hts Hget Hwf Hnames Hgen).
  - exact (generated_table_columns _ _ _ _ _ Hgen).
Qed.

Lemma availability_columns_witness :
  exists df table,
    generate_fair_data_availability ascii_library Examples.schema Examples.data_BA "AYA"
    = Ok (df, table)
    /\ df_columns df
       = "Variables" :: "Values" :: total_column "AYA"
         :: Dict.keys Examples.snapshot_BA
    /\ table_columns table = df_columns df.
Proof.
  destruct (generate_fair_data_availability ascii_library Examples.schema Examples.data_BA "AYA")
    as [[df table] | e] eqn:Hgen; [| vm_compute in Hgen; discriminate].
  exists df, table. split; [reflexivity |].
  apply (availability_columns ascii_library Examples.schema Examples.data_BA "AYA"
           "2024-01-01T00:00:00" Examples.snapshot_BA df table).
  - reflexivity.
  - reflexivity.
  - unfold Dict.wf. simpl. repeat constructor; simpl; intuition discriminate.
  - intros org [<- | [<- | []]]; repeat split; discriminate.
  - exact Hgen.
Defined.

(** In a row of the table the cell of every organisation is a count. *)
Lemma table_row_org_cell (text : string) (latest : snapshot) (r : row) :
  table_row text latest r ->
  forall org, In org (Dict.keys latest) -> exists n, Dict.get org r = Some (CInt n).
Proof.
  intros Hshape org Horg.
  destruct Hshape as [c s count hit miss v1 v2 tt0 Hcount ovi].
  exists (first_count c s count (org_infos latest c org)).
  apply fill_cells_get_org.
  - intros il Hil. unfold ovi in Hil. apply build_entries in Hil. now subst il.
  - now apply build_keys.
Qed.

(** A map over the entries that keeps the keys acts on the value found. *)
Lemma get_map_entries {V W : Type} (g : string -> V -> W) (d : Dict.t V)
    (k : string) :
  Dict.get k (map (fun '(c, x) => (c, g c x)) d) = option_map (g k) (Dict.get k d).
Proof.
  induction d as [| [c x] r IH]; cbn [map Dict.get]; [reflexivity |].
  destruct (String.eqb_spec k c) as [-> | Hne]; [reflexivity | exact IH].
Qed.

(** X12: when the organisations of the selected snapshot are distinct and
    none is named like a leading column, the table shown keeps the cells of
    the leading columns and shows, for every organisation, the check mark
    when its count is positive and the cross otherwise. *)
Theorem availability_marks (lib : library)
    (global_schema_data : global_schema) (descriptive_data : descriptive_data_t)
    (text ts : string) (latest : snapshot) (df : data_frame) (table : data_table) :
  most_recent_timestamp lib descriptive_data = Ok ts ->
  Dict.get ts descriptive_data = Some latest ->
  Dict.wf latest ->
  (forall org, In org (Dict.keys latest) ->
               org <> "Variables" /\ org <> "Values" /\ org <> total_column text) ->
  generate_fair_data_availability lib global_schema_data descriptive_data text
  = Ok (df, table) ->
  forall i r,
    nth_error (df_records df) i = Some r ->
    exists shown,
      nth_error (table_data table) i = Some shown
      /\ (forall k, ~ In k (Dict.keys latest) -> Dict.get k shown = Dict.get k r)
      /\ forall org, In org (Dict.keys latest) ->
         exists n,
           Dict.get org r = Some (CInt n)
           /\ Dict.get org shown
              = Some (CStr (if 0 <? n then check_mark else cross_mark)).
Proof.
  intros Hts Hget Hwf Hnames Hgen i r Hi.
  pose proof (generated_columns_explicit _ _ _ _ _ _ _ Hts Hget Hwf Hnames Hgen)
    as Hcols.
  pose proof (generate_rows_shape _ _ _ _ _ _ _ Hts Hget Hgen r
                (nth_error_In _ _ Hi)) as Hshape.
  destruct (generate_unfolded _ _ _ _ _ _ _ Hts Hget Hgen)
    as (rows & _ & Hdf & Htable).
  unfold create_data_table in Htable.
  destruct (df_columns (display df)) as [| k0 ks]; [discriminate |].
  injection Htable as <-. cbn [table_data display df_records].
  rewrite Hcols. cbn [skipn].
  set (mark := fun (col : string) (x : cell) =>
                 if existsb (String.eqb col) (Dict.keys latest)
                 then match x with
                      | CInt n => CStr (if 0 <? n then check_mark else cross_mark)
                      | CStr _ => x
                      end
                 else x).
  rewrite (map_ext _ (map (fun '(col, x) => (col, mark col x)))).
  2:{ intros r'. apply map_ext. intros [col x]. unfold mark.
      destruct (existsb _ _); [destruct x |]; reflexivity. }
  exists (map (fun '(col, x) => (col, mark col x)) r).
  split; [exact (map_nth_error _ _ _ Hi) |].
  split.
  - intros k Hk. rewrite get_map_entries. unfold mark.
    assert (Hm : existsb (String.eqb k) (Dict.keys latest) = false).
    { destruct (existsb _ _) eqn:Hm; [| reflexivity].
      exfalso. apply Hk. now apply mem_In. }
    rewrite Hm. now destruct (Dict.get k r).
  - intros org Horg.
    destruct (table_row_org_cell _ _ _ Hshape org Horg) as [n Hn].
    exists n. split; [exact Hn |].
    rewrite get_map_entries, Hn. cbn [option_map]. unfold mark.
    assert (Hm : existsb (String.eqb org) (Dict.keys latest) = true)
      by now apply mem_In.
    now rewrite Hm.
Qed.

Lemma availability_marks_witness :
  exists df table,
    generate_fair_data_availability ascii_library Examples.schema Examples.data_BA "AYA"
    = Ok (df, table)
    /\ forall i r,
         nth_error (df_records df) i = Some r ->
         exists shown,
           nth_error (table_data table) i = Some shown
           /\ (forall k, ~ In k (Dict.keys Examples.snapshot_BA) ->
                         Dict.get k shown = Dict.get k r)
           /\ forall org, In org (Dict.keys Examples.snapshot_BA) ->
              exists n,
                Dict.get org r = Some (CInt n)
                /\ Dict.get org shown
                   = Some (CStr (if 0 <? n then check_mark else cross_mark)).
Proof.
  destruct (generate_fair_data_availability ascii_library Examples.schema Examples.data_BA "AYA")
    as [[df table] | e] eqn:Hgen; [| vm_compute in Hgen; discriminate].
  exists df, table. split; [reflexivity |].
  apply (availability_marks ascii_library Examples.schema Examples.data_BA "AYA"
           "2024-01-01T00:00:00" Examples.snapshot_BA df table).
  - reflexivity.
  - reflexivity.
  - unfold Dict.wf. simpl. repeat constructor; simpl; intuition discriminate.
  - intros org [<- | [<- | []]]; repeat split; discriminate.
  - exact Hgen.
Defined.

(** The variables of a well-formed schema are read back as they are
    stored. *)
Lemma flat_map_over_keys {V W B : Type} (f : V -> W) (G : string -> W -> list B)
    (d : Dict.t V) :
  Dict.wf d ->
  flat_map (fun k => match Dict.get k (map (fun '(key, v) => (key, f v)) d) with
                     | Some w => G k w
                     | None => []
                     end)
           (Dict.keys d)
  = flat_map (fun '(k, v) => G k (f v)) d.
Proof.
  unfold Dict.wf.
  induction d as [| [k0 v0] r IH]; intros Hwf; cbn [Dict.keys map fst flat_map];
    [reflexivity |].
  cbn [Dict.keys map fst] in Hwf.
  apply NoDup_cons_iff in Hwf. destruct Hwf as [Hfresh Hwf].
  cbn [Dict.get]. rewrite String.eqb_refl. f_equal.
  rewrite <- (IH Hwf). unfold Dict.keys.
  clear IH Hwf. revert Hfresh. generalize (map fst r) as ks.
  induction ks as [| k ks IHk]; intros Hfresh; cbn [flat_map]; [reflexivity |].
  destruct (String.eqb_spec k k0) as [-> | Hne].
  - exfalso. apply Hfresh. now left.
  - f_equal. apply IHk. intros H. apply Hfresh. now right.
Qed.

(** X13: for a schema whose variables have distinct names, the table has one
    row per variable and one row per value of its value mapping. *)
Theorem availability_row_count (lib : library)
    (global_schema_data : global_schema) (descriptive_data : descriptive_data_t)
    (text : string) (df : data_frame) (table : data_table) :
  Dict.wf (schema_variables global_schema_data) ->
  generate_fair_data_availability lib global_schema_data descriptive_data text
  = Ok (df, table) ->
  length (df_records df)
  = list_sum (map (fun '(_, info) =>
                     S (length (terms_of (value_mapping info))))
                  (schema_variables global_schema_data))
  /\ length (table_data table) = length (df_records df).
Proof.
  intros Hwf. unfold generate_fair_data_availability.
  destruct (most_recent_timestamp lib descriptive_data) as [ts | e]; [| discriminate].
  cbn [bind].
  destruct (Dict.get ts descriptive_data) as [latest |]; [| discriminate].
  cbn [bind].
  rewrite (flat_map_over_keys expand_variable
             (fun variable info =>
                rows_of_variable lib text latest (Dict.keys latest) variable info)
             _ Hwf).
  destruct (create_data_table _ _) as [t | e] eqn:Ht; cbn [bind]; [| discriminate].
  intros [= <- <-].
  unfold create_data_table in Ht.
  destruct (df_columns _) as [| k0 ks]; [discriminate |].
  injection Ht as <-. cbn [table_data display DataFrame df_records].
  split; [| now rewrite !length_map].
  rewrite length_map, length_flat_map. f_equal.
  apply map_ext. intros [variable info].
  unfold rows_of_variable. cbn [length]. f_equal. rewrite length_map.
  unfold expand_variable, terms_of. cbn [value_mapping].
  destruct (value_mapping info) as [vm |]; [| reflexivity].
  cbn [terms]. destruct (terms vm); [now rewrite length_map | reflexivity].
Qed.

Lemma availability_row_count_witness :
  exists df table,
    generate_fair_data_availability ascii_library Examples.schema Examples.data_BA "AYA"
    = Ok (df, table)
    /\ length (df_records df)
       = list_sum (map (fun '(_, info) =>
                          S (length (terms_of (value_mapping info))))
                       (schema_variables Examples.schema))
    /\ length (table_data table) = length (df_records df).
Proof.
  destruct (generate_fair_data_availability ascii_library Examples.schema Examples.data_BA "AYA")
    as [[df table] | e] eqn:Hgen; [| vm_compute in Hgen; discriminate].
  exists df, table. split; [reflexivity |].
  apply (availability_row_count ascii_library Examples.schema Examples.data_BA "AYA" df table).
  - unfold Dict.wf. simpl. repeat constructor; simpl; intuition discriminate.
  - exact Hgen.
Defined.

(** ** What the completeness chart shows *)

(** X14: in the chart of an availability table, the bar of incomplete
    information of a variable is what its total falls short of the summed
    totals of its value rows, never less than 0, and the bar of complete
    information is the smaller of the total and that sum.  The value rows of
    a variable are the rows with a value that follow it up to the next
    variable. *)
Theorem completeness_bars (lib : library)
    (initial_df : availability_frame) (text : string)
    (fig : completeness_figure) (r : availability_row) (total : Z) :
  generate_completeness_chart lib initial_df text = Ok fig ->
  In (total_column text) (numeric_columns initial_df) ->
  In r (records initial_df) ->
  Variables r <> "" ->
  (forall r', In r' (records initial_df) -> Variables r' = Variables r -> r' = r) ->
  Dict.get (total_column text) (counts r) = Some total ->
  let summed :=
    group_sum (value_records initial_df) (Variables r) (total_column text) in
  exists i,
    nth_error (trace_x (complete fig)) i = Some (Variables r)
    /\ nth_error (trace_y (complete fig)) i = Some (Z.min total summed)
    /\ nth_error (trace_x (incomplete fig)) i = Some (Variables r)
    /\ nth_error (trace_y (incomplete fig)) i = Some (Z.max 0 (total - summed)).
Proof.
  intros Hfig Hcol Hr Hlabel Honly Htotal summed.
  destruct (bars_of_variable initial_df text fig r total
              Hfig Hcol Hr Hlabel Honly Htotal) as (Hx & Hin & Hbars).
  apply In_nth_error in Hin. destruct Hin as [i Hi].
  destruct (Hbars i Hi) as [Ha Hu].
  exists i. split; [exact Hi |]. split; [exact Ha |].
  split; [now rewrite Hx | exact Hu].
Qed.

Lemma completeness_bars_witness :
  exists fig,
    generate_completeness_chart ascii_library Examples.table "AYA" = Ok fig
    /\ let summed :=
         group_sum (value_records Examples.table) "Biological Sex"
           (total_column "AYA") in
       exists i,
         nth_error (trace_x (complete fig)) i = Some "Biological Sex"
         /\ nth_error (trace_y (complete fig)) i = Some (Z.min 10 summed)
         /\ nth_error (trace_x (incomplete fig)) i = Some "Biological Sex"
         /\ nth_error (trace_y (incomplete fig)) i = Some (Z.max 0 (10 - summed)).
Proof.
  destruct (generate_completeness_chart ascii_library Examples.table "AYA")
    as [fig | e] eqn:Hfig; [| vm_compute in Hfig; discriminate].
  exists fig. split; [reflexivity |].
  apply (completeness_bars ascii_library Examples.table "AYA" fig
           (Examples.av "Biological Sex" "" 10 0 10) 10).
  - exact Hfig.
  - now left.
  - now left.
  - discriminate.
  - intros r' [<- | [<- | [<- | [<- | []]]]]; simpl; intros H;
      first [reflexivity | discriminate H].
  - reflexivity.
Defined.

(** ** Countries of the latest snapshot *)

Lemma mapM_country (records : list org_record) :
  mapM (record_field "country") records = Ok (map (fun r => FStr (country r)) records).
Proof.
  induction records as [| r rest IH]; cbn [mapM map]; [reflexivity |].
  rewrite IH. reflexivity.
Qed.

Lemma nodup_FStr_length (l : list string) :
  length (nodup field_value_eq_dec (map FStr l)) = length (nodup string_dec l).
Proof.
  induction l as [| x r IH]; cbn [map nodup]; [reflexivity |].
  destruct (in_dec field_value_eq_dec (FStr x) (map FStr r)) as [Hin | Hout];
    destruct (in_dec string_dec x r) as [Hin' | Hout']; cbn [length];
    try (now rewrite IH).
  - exfalso. apply Hout'. apply in_map_iff in Hin.
    destruct Hin as (y & [= ->] & Hy). exact Hy.
  - exfalso. apply Hout. now apply in_map.
Qed.

Lemma nodup_length_bounds (l : list string) :
  (length (nodup string_dec l) <= length l)%nat
  /\ (l <> [] -> 1 <= length (nodup string_dec l))%nat.
Proof.
  split.
  - induction l as [| x r IH]; cbn [nodup length]; [lia |].
    destruct (in_dec string_dec x r); cbn [length]; lia.
  - intros Hne. destruct l as [| x r]; [contradiction |].
    assert (Hin : In x (nodup string_dec (x :: r))) by (apply nodup_In; now left).
    destruct (nodup string_dec (x :: r)); [destruct Hin | cbn [length]; lia].
Qed.

(** X16: on a latest snapshot with organisations, [fetch_field_count] of the
    field ['country'] reports the number of distinct countries, which is at
    least 1 and at most the number of organisations, with the label ending
    in "ies" for more than one and in "y" otherwise. *)
Theorem country_count
    (descriptive_data : descriptive_data_t) (text : string) (latest : snapshot) :
  latest_data descriptive_data = Ok latest ->
  latest <> [] ->
  let n := Z.of_nat (length (nodup string_dec (map country (Dict.values latest)))) in
  1 <= n <= Z.of_nat (length latest)
  /\ fetch_field_count descriptive_data "country" text
     = Ok (Some [Text (Py.str_int n); Br;
                 Text (text ++ (if 1 <? n then "ies" else "y"))]).
Proof.
  intros Hl Hne n. split.
  - destruct (nodup_length_bounds (map country (Dict.values latest))) as [Hle Hge].
    unfold Dict.values in *. rewrite !length_map in Hle.
    assert (map country (map snd latest) <> [])
      by (destruct latest; [contradiction | discriminate]).
    specialize (Hge H). unfold n, Dict.values. lia.
  - unfold fetch_field_count.
    destruct descriptive_data as [| entry rest]; [discriminate |].
    rewrite Hl. cbn [bind]. rewrite mapM_country. cbn [bind].
    rewrite <- (map_map country FStr), nodup_FStr_length. reflexivity.
Qed.

Lemma country_count_witness :
  let n := Z.of_nat (length (nodup string_dec
                               (map country (Dict.values Examples.snapshot_AB)))) in
  1 <= n <= Z.of_nat (length Examples.snapshot_AB)
  /\ fetch_field_count Examples.data_AB "country" "countr"
     = Ok (Some [Text (Py.str_int n); Br;
                 Text ("countr" ++ (if 1 <? n then "ies" else "y"))]).
Proof.
  apply (country_count Examples.data_AB "countr" Examples.snapshot_AB).
  - reflexivity.
  - discriminate.
Defined.

(** ** The timestamp that the table is built from *)

Lemma gt_by_instant (a b : Datetime.t) (r : bool) :
  Datetime.gt a b = Ok r ->
  (Datetime.utcoffset a = None <-> Datetime.utcoffset b = None)
  /\ r = (instant b <? instant a).
Proof.
  unfold Datetime.gt, instant.
  destruct (Datetime.utcoffset a), (Datetime.utcoffset b); try discriminate;
    intros [= <-]; split; try (split; congruence); try reflexivity.
  now rewrite !Z.sub_0_r.
Qed.

Lemma gt_of_instant (a b : Datetime.t) :
  (Datetime.utcoffset a = None <-> Datetime.utcoffset b = None) ->
  Datetime.gt a b = Ok (instant b <? instant a).
Proof.
  unfold Datetime.gt, instant. intros [H1 H2].
  destruct (Datetime.utcoffset a), (Datetime.utcoffset b);
    try reflexivity.
  - specialize (H2 eq_refl). discriminate.
  - specialize (H1 eq_refl). discriminate.
  - now rewrite !Z.sub_0_r.
Qed.

(** The running maximum ends on an item that no item seen is later than. *)
Lemma max_key_from_latest {lib : library} (l : list string) :
  forall cur kcur k,
    datetime_fromisoformat lib cur = Ok kcur ->
    Py.max_key_from (datetime_fromisoformat lib) Datetime.gt cur kcur l = Ok k ->
    exists tk,
      datetime_fromisoformat lib k = Ok tk
      /\ (Datetime.utcoffset tk = None <-> Datetime.utcoffset kcur = None)
      /\ instant kcur <= instant tk
      /\ forall x, In x l ->
         exists tx,
           datetime_fromisoformat lib x = Ok tx
           /\ (Datetime.utcoffset tx = None <-> Datetime.utcoffset kcur = None)
           /\ instant tx <= instant tk.
Proof.
  induction l as [| x r IH]; intros cur kcur k Hcur; cbn [Py.max_key_from].
  - intros [= <-]. exists kcur. repeat split; auto; try lia. intros x [].
  - destruct (datetime_fromisoformat lib x) as [kx | e] eqn:Hx; cbn [bind];
      [| discriminate].
    destruct (Datetime.gt kx kcur) as [b | e] eqn:Hgt; cbn [bind];
      [| discriminate].
    apply gt_by_instant in Hgt. destruct Hgt as [Haw ->].
    destruct (Z.ltb_spec (instant kcur) (instant kx)) as [Hlt | Hge]; intros Hk.
    + destruct (IH x kx k Hx Hk) as (tk & Htk & Htaw & Hle & Hall).
      exists tk. split; [exact Htk |]. split; [tauto |]. split; [lia |].
      intros y [<- | Hy].
      * exists kx. repeat split; auto; tauto.
      * destruct (Hall y Hy) as (ty & Hty & Hyaw & Hyle).
        exists ty. repeat split; auto; tauto.
    + destruct (IH cur kcur k Hcur Hk) as (tk & Htk & Htaw & Hle & Hall).
      exists tk. split; [exact Htk |]. split; [exact Htaw |]. split; [exact Hle |].
      intros y [<- | Hy].
      * exists kx. repeat split; auto; try tauto. lia.
      * exact (Hall y Hy).
Qed.

(** X18: the table that [generate_fair_data_availability] returns is built
    from the snapshot under a timestamp of the dictionary that
    [datetime.fromisoformat] reads, as it reads every timestamp of the
    dictionary, and that none of them is later than. *)
Theorem availability_reads_latest_in_time (lib : library)
    (global_schema_data : global_schema) (descriptive_data : descriptive_data_t)
    (text : string) (df : data_frame) (table : data_table) :
  generate_fair_data_availability lib global_schema_data descriptive_data text
  = Ok (df, table) ->
  exists ts tts latest,
    most_recent_timestamp lib descriptive_data = Ok ts
    /\ Dict.get ts descriptive_data = Some latest
    /\ datetime_fromisoformat lib ts = Ok tts
    /\ (forall k, In k (Dict.keys descriptive_data) ->
                  exists tk,
                    datetime_fromisoformat lib k = Ok tk
                    /\ Datetime.gt tk tts = Ok false)
    /\ forall r, In r (df_records df) -> table_row text latest r.
Proof.
  intros Hgen.
  destruct (most_recent_timestamp lib descriptive_data) as [ts | e] eqn:Hts;
    [| unfold generate_fair_data_availability in Hgen; rewrite Hts in Hgen;
       discriminate].
  destruct (In_keys_get _ _ (most_recent_timestamp_In _ _ Hts)) as [latest Hget].
  pose proof Hts as Hmax. unfold most_recent_timestamp, Py.max_key in Hmax.
  destruct (Dict.keys descriptive_data) as [| x rest] eqn:Hkeys; [discriminate |].
  destruct (datetime_fromisoformat lib x) as [kx | e] eqn:Hx; cbn [bind] in Hmax;
    [| discriminate].
  destruct (max_key_from_latest rest x kx ts Hx Hmax)
    as (tts & Htts & Haw & Hle & Hall).
  exists ts, tts, latest. repeat split; auto.
  - intros k [<- | Hk].
    + exists kx. split; [exact Hx |].
      rewrite gt_of_instant by tauto.
      f_equal. apply Z.ltb_ge. exact Hle.
    + destruct (Hall k Hk) as (tk & Htk & Hkaw & Hkle).
      exists tk. split; [exact Htk |].
      rewrite gt_of_instant by tauto.
      f_equal. apply Z.ltb_ge. exact Hkle.
  - exact (generate_rows_shape _ _ _ _ _ _ _ Hts Hget Hgen).
Qed.

Lemma availability_reads_latest_in_time_witness :
  exists df table,
    generate_fair_data_availability ascii_library Examples.schema Examples.data_offsets "AYA"
    = Ok (df, table)
    /\ exists ts tts latest,
         most_recent_timestamp ascii_library Examples.data_offsets = Ok ts
         /\ Dict.get ts Examples.data_offsets = Some latest
         /\ datetime_fromisoformat ascii_library ts = Ok tts
         /\ (forall k, In k (Dict.keys Examples.data_offsets) ->
                       exists tk,
                         datetime_fromisoformat ascii_library k = Ok tk
                         /\ Datetime.gt tk tts = Ok false)
         /\ forall r, In r (df_records df) -> table_row "AYA" latest r.
Proof.
  destruct (generate_fair_data_availability ascii_library Examples.schema Examples.data_offsets
              "AYA") as [[df table] | e] eqn:Hgen;
    [| vm_compute in Hgen; discriminate].
  exists df, table. split; [reflexivity |].
  exact (availability_reads_latest_in_time _ _ _ _ _ _ Hgen).
Defined.

(** The labels of the two frames of the chart: those of the variables. *)
Lemma unavailable_labels (initial_df : availability_frame) (l : string) :
  In l (Frame.index
          (Frame.subtract_fill0 (sum_value_counts initial_df)
                                (variable_counts initial_df)))
  <-> In l (variable_labels initial_df).
Proof.
  rewrite subtract_index_In, variable_counts_index. split; [| tauto].
  intros [Hin | Hin]; [| exact Hin].
  apply (sum_value_counts_within initial_df l "") in Hin.
  apply groups_are_variables in Hin. destruct Hin as (r & Hr & <- & Hne).
  unfold variable_labels. apply in_map, filter_In. split; [exact Hr |].
  now apply negb_true_iff, String.eqb_neq.
Qed.

(** X19: in a table whose variables have distinct labels, the chart has one
    bar per variable and none for its values: the labels of its two traces
    are the same, no label comes twice, the labels are those of the
    variables, the non-blank entries of the table's ['Variables'] column,
    and each trace has one count per label. *)
Theorem completeness_labels (lib : library)
    (initial_df : availability_frame) (text : string) (fig : completeness_figure) :
  generate_completeness_chart lib initial_df text = Ok fig ->
  NoDup (variable_labels initial_df) ->
  trace_x (complete fig) = trace_x (incomplete fig)
  /\ NoDup (trace_x (complete fig))
  /\ length (trace_x (complete fig)) = length (variable_labels initial_df)
  /\ (forall l, In l (trace_x (complete fig)) <-> In l (variable_labels initial_df))
  /\ length (trace_y (complete fig)) = length (trace_x (complete fig))
  /\ length (trace_y (incomplete fig)) = length (trace_x (complete fig)).
Proof.
  intros Hfig Hdistinct. unfold generate_completeness_chart in Hfig.
  set (available_df := variable_counts initial_df) in *.
  set (missing := Frame.subtract_fill0 (sum_value_counts initial_df) available_df) in *.
  set (unavailable_df := Frame.clip_upper0_abs missing) in *.
  set (usable_df := Frame.subtract_fill0 available_df unavailable_df) in *.
  destruct (negb (Frame.mem (total_column text) (Frame.columns usable_df)));
    [discriminate |].
  set (vis := Frame.merge_left unavailable_df usable_df (total_column text)) in *.
  destruct (mapM (fun row => as_int (snd (snd row))) vis) as [ta | e] eqn:Hta;
    cbn [bind] in Hfig; [| discriminate].
  destruct (mapM (fun row => as_int (fst (snd row))) vis) as [tu | e] eqn:Htu;
    cbn [bind] in Hfig; [| discriminate].
  destruct (mapM _ (combine _ ta)) as [ha | e]; cbn [bind] in Hfig; [| discriminate].
  destruct (mapM _ (combine _ tu)) as [hu | e]; cbn [bind] in Hfig; [| discriminate].
  injection Hfig as <-. cbn [complete incomplete trace_x trace_y].
  assert (Havailable : NoDup (Frame.index available_df))
    by (unfold available_df; now rewrite variable_counts_index).
  assert (Hmissing : NoDup (Frame.index missing)).
  { unfold missing. rewrite subtract_index.
    apply align_distinct; [apply sum_value_counts_distinct | exact Havailable]. }
  assert (Hunavailable : NoDup (Frame.index unavailable_df))
    by (unfold unavailable_df; now rewrite clip_index).
  assert (Husable : NoDup (Frame.index usable_df)).
  { unfold usable_df. rewrite subtract_index. now apply align_distinct. }
  assert (Hlabels : map fst vis = Frame.index missing).
  { unfold vis. rewrite (merge_left_index _ _ _ Husable).
    unfold unavailable_df. apply clip_index. }
  assert (Hsame : forall l, In l (Frame.index missing)
                            <-> In l (variable_labels initial_df))
    by (intros l; apply unavailable_labels).
  rewrite Hlabels.
  split; [reflexivity |]. split; [exact Hmissing |].
  split; [| split; [exact Hsame |]].
  - apply Nat.le_antisymm; apply NoDup_incl_length; auto;
      intros l Hl; now apply Hsame.
  - rewrite <- Hlabels, length_map.
    split; [exact (mapM_Ok_length _ _ _ Hta) | exact (mapM_Ok_length _ _ _ Htu)].
Qed.

Lemma completeness_labels_witness :
  exists fig,
    generate_completeness_chart ascii_library Examples.table "AYA" = Ok fig
    /\ trace_x (complete fig) = trace_x (incomplete fig)
    /\ NoDup (trace_x (complete fig))
    /\ length (trace_x (complete fig)) = length (variable_labels Examples.table)
    /\ (forall l, In l (trace_x (complete fig))
                  <-> In l (variable_labels Examples.table))
    /\ length (trace_y (complete fig)) = length (trace_x (complete fig))
    /\ length (trace_y (incomplete fig)) = length (trace_x (complete fig)).
Proof.
  destruct (generate_completeness_chart ascii_library Examples.table "AYA")
    as [fig | e] eqn:Hfig; [| vm_compute in Hfig; discriminate].
  exists fig. split; [reflexivity |].
  apply (completeness_labels ascii_library Examples.table "AYA" fig Hfig).
  vm_compute. repeat constructor; simpl; intuition discriminate.
Defined.

(** X20: a table without the total column of the chart's [text], as one
    made with another [text], makes [generate_completeness_chart] raise
    [KeyError]. *)
Theorem completeness_without_total_column (lib : library)
    (initial_df : availability_frame) (text : string) :
  ~ In (total_column text) (numeric_columns initial_df) ->
  generate_completeness_chart lib initial_df text = Raise KeyError.
Proof.
  intros Hout. unfold generate_completeness_chart.
  match goal with
  | |- (if negb (Frame.mem ?c ?cols) then _ else _) = _ =>
      assert (Hm : Frame.mem c cols = false)
  end.
  { match goal with |- ?m = false => destruct m eqn:Hm; [| reflexivity] end.
    exfalso. apply mem_In in Hm.
    cbn [Frame.subtract_fill0 Frame.clip_upper0_abs Frame.columns] in Hm.
    rewrite !outer_In in Hm. cbn [variable_counts Frame.columns] in Hm.
    destruct Hm as [Hm | [Hm | Hm]]; try contradiction.
    now apply (sum_value_counts_within initial_df "" (total_column text)) in Hm. }
  now rewrite Hm.
Qed.

Lemma completeness_without_total_column_witness :
  generate_completeness_chart ascii_library Examples.table "patient"
  = Raise KeyError.
Proof.
  apply completeness_without_total_column.
  simpl. intuition discriminate.
Defined.

(** X21: the bar chart has one bar and one annotation per organisation of
    the latest snapshot, and the annotations show the sample sizes in the
    order in which the snapshot stores the organisations. *)
Theorem bar_chart_annotations
    (tie : Z -> Z -> bool) (descriptive_data : descriptive_data_t)
    (text : string) (fig : bar_figure) (latest : snapshot) :
  latest_data descriptive_data = Ok latest ->
  generate_sample_size_horizontal_bar tie descriptive_data text = Ok (Some fig) ->
  length (bar_data fig) = length latest
  /\ map annotation_text (bar_annotations fig)
     = map (fun '(_, r) => Py.str_int (sample_size r)) latest.
Proof.
  intros Hl. unfold generate_sample_size_horizontal_bar.
  destruct descriptive_data as [| entry rest]; [discriminate |].
  rewrite Hl. cbn [bind].
  destruct (mapM _ _) as [proportions | e]; [| discriminate].
  cbn [bind]. intros [= <-]. cbn [bar_data bar_annotations].
  assert (Hlen : length (Py.sorted (Dict.keys latest)) = length latest).
  { unfold Py.sorted. rewrite sorted_by_length. unfold Dict.keys.
    now rewrite length_map. }
  split.
  - unfold enumerate. rewrite length_map, length_combine, length_seq, Hlen.
    apply Nat.min_id.
  - rewrite map_map. cbn [annotation_text]. rewrite Hlen.
    set (sizes := map sample_size (Dict.values latest)).
    replace (length latest) with (length sizes)
      by (unfold sizes, Dict.values; now rewrite !length_map).
    rewrite <- (map_map (fun i => nth i sizes 0) Py.str_int), map_nth_seq.
    unfold sizes, Dict.values. rewrite !map_map.
    apply map_ext. now intros [org r].
Qed.

Lemma bar_chart_annotations_witness :
  exists fig,
    generate_sample_size_horizontal_bar (fun _ _ => false) Examples.data_BA "AYA"
    = Ok (Some fig)
    /\ length (bar_data fig) = length Examples.snapshot_BA
    /\ map annotation_text (bar_annotations fig)
       = map (fun '(_, r) => Py.str_int (sample_size r)) Examples.snapshot_BA.
Proof.
  destruct (generate_sample_size_horizontal_bar (fun _ _ => false)
              Examples.data_BA "AYA") as [[fig |] | e] eqn:Hfig;
    try (vm_compute in Hfig; discriminate).
  exists fig. split; [reflexivity |].
  apply (bar_chart_annotations (fun _ _ => false) Examples.data_BA "AYA" fig
           Examples.snapshot_BA).
  - reflexivity.
  - exact Hfig.
Defined.
